(** * pdf2csv: the PDF -> JPG -> TXT -> CSV pipeline and its Gemini analysis step

    A shallow embedding of [main.py] and [pdf2csv.py].  Python [str] values
    are modelled as [string]; the three characters the reformatter looks at
    (comma, space, double quote) are ASCII, so the model reads the same on
    the code points of a decoded text as on its bytes.  A text file is held
    as the text that [open(path)] delivers in text mode, that is, after
    [Py.universal_newlines] has turned every carriage return of the file
    into a line feed.  File-system, user
    interface and network effects are threaded through an explicit [world]
    by a small state-and-exception monad; what the program gets from
    outside (environment, configuration, rasterizer, OCR engine, Gemini
    client, widgets) is a record of [externals]. *)

From Stdlib Require Import Ascii.
From stdpp Require Import gmap strings list pretty.

(** ** Python built-ins used by the sources *)

Module Py.

Definition comma : ascii := ","%char.
Definition space : ascii := " "%char.
Definition dquote : ascii := "034"%char.
Definition newline : ascii := "010"%char.
Definition tab : ascii := "009"%char.
Definition carriage_return : ascii := "013"%char.

(** [s.startswith(p)] *)
Fixpoint startswith (p s : string) : bool :=
  match p, s with
  | EmptyString, _ => true
  | String _ _, EmptyString => false
  | String a p', String b s' => if decide (a = b) then startswith p' s' else false
  end.

(** [s.replace(old, new)] for the empty [old]: [new] is put in front of
    every character and once more at the end. *)
Fixpoint replace_empty (new s : string) : string :=
  match s with
  | EmptyString => new
  | String c s' => new +:+ String c (replace_empty new s')
  end.

(** Left-to-right scan of [s.replace(old, new)] for a non-empty [old]:
    [skip] counts the characters of a match that are still to be dropped,
    so that occurrences never overlap. *)
Fixpoint replace_scan (old new : string) (skip : nat) (s : string) : string :=
  match s with
  | EmptyString => EmptyString
  | String c s' =>
      match skip with
      | S k => replace_scan old new k s'
      | O =>
          if startswith old s
          then new +:+ replace_scan old new (String.length old - 1) s'
          else String c (replace_scan old new 0 s')
      end
  end.

(** [s.replace(old, new)] *)
Definition replace (old new s : string) : string :=
  match old with
  | EmptyString => replace_empty new s
  | String _ _ => replace_scan old new 0 s
  end.

(** [f.readlines()] on an already decoded text: the text is cut after
    every line feed, the line feed stays with its line, and a last line
    without one is kept as it is. *)
Fixpoint readlines (text : string) : list string :=
  match text with
  | EmptyString => []
  | String c rest =>
      if decide (c = newline) then String c EmptyString :: readlines rest
      else match readlines rest with
           | [] => [String c EmptyString]
           | l :: ls => String c l :: ls
           end
  end.

(** What [open(path)] in text mode makes of the characters of a file before
    the program sees them: a carriage return followed by a line feed, and
    a carriage return alone, both become one line feed. *)
Fixpoint universal_newlines (raw : string) : string :=
  match raw with
  | EmptyString => EmptyString
  | String c rest =>
      if decide (c = carriage_return) then
        match rest with
        | EmptyString => String newline EmptyString
        | String c' rest' =>
            if decide (c' = newline) then String newline (universal_newlines rest')
            else String newline (universal_newlines rest)
        end
      else String c (universal_newlines rest)
  end.

(** [for i, x in enumerate(xs)] *)
Definition enumerate {A} (xs : list A) : list (nat * A) := imap (fun i x => (i, x)) xs.

(** [''.join(parts)] *)
Definition join (parts : list string) : string := foldr String.app EmptyString parts.

(** [str(n)] and [f"{n}"] for an [int] *)
Definition str_of_int (n : Z) : string := pretty n.

(** [name.rfind('.')] *)
Fixpoint rfind_dot (name : string) : option nat :=
  match name with
  | EmptyString => None
  | String c rest =>
      match rfind_dot rest with
      | Some i => Some (S i)
      | None => if decide (c = "."%char) then Some 0 else None
      end
  end.

(** [PurePath.suffix] of a path that is a single component.  The program
    builds its paths from [page_<n>.jpg], [output] and
    [gemini_analysis_output.csv] only; for a path with a directory part,
    an empty path or [.], where [pathlib] looks at the final component,
    normalises or raises, this is not how [pathlib] answers, and the
    statements below that take a name as a parameter restrict it. *)
Definition suffix (name : string) : string :=
  match rfind_dot name with
  | Some i =>
      if bool_decide (0 < i < String.length name - 1)
      then String.substring i (String.length name - i) name
      else EmptyString
  | None => EmptyString
  end.

(** [PurePath.with_suffix(suffix)], on such a path *)
Definition with_suffix (name new_suffix : string) : string :=
  String.substring 0 (String.length name - String.length (suffix name)) name
    +:+ new_suffix.

End Py.

(** ** Exceptions, the world and the effect monad *)

(** The exception classes the sources tell apart in their [except] clauses;
    every other subclass of [Exception] is an [OtherException]. *)
Inductive exn_class := TypeError | AttributeError | OtherException.

Record exn := Exn { exn_cls : exn_class; exn_msg : string }.

(** How a call ends: it returns, it raises a subclass of [Exception], or
    [st.stop()] ends the script run (a control exception that
    [except Exception] does not catch). *)
Inductive outcome (A : Type) :=
  | Return (a : A)
  | Raise (e : exn)
  | Stopped.
Arguments Return {A} a.
Arguments Raise {A} e.
Arguments Stopped {A}.

(** A rasterized page, as [pdf2image] hands it over and as [Image.open]
    reads it back. *)
Inductive image := Image (pixels : string).

Inductive file :=
  | TextFile (text : string)
  | JpegFile (img : image).

(** What the Gemini client returns: its [text] attribute may be missing,
    may raise when read, or holds the answer. *)
Inductive attribute :=
  | AttrMissing
  | AttrRaises (e : exn)
  | AttrValue (v : string).

Record response := Response { response_text : attribute }.

(** What the Streamlit page shows. *)
Inductive ui_event :=
  | UiTitle (s : string)
  | UiWrite (s : string)
  | UiWriteObj (r : response)
  | UiSuccess (s : string)
  | UiError (s : string)
  | UiSpinner (s : string).

(** The working directory, the page shown so far, and the prompts handed
    to the Gemini client so far. *)
Record world := World {
  fs : gmap string file;
  ui : list ui_event;
  net : list string
}.

(** Everything the program gets from outside its two source files. *)
Record externals := Externals {
  (** [os.environ] after [load_dotenv()] *)
  environ : string -> option string;
  (** [ConfigParser.get(section, key)] after [config.read('config.ini')] *)
  config_get : string -> string -> exn + string;
  (** [convert_from_bytes(pdf_bytes, dpi, first_page, last_page, userpw, poppler_path)] *)
  convert_from_bytes :
    string -> Z -> option Z -> option Z -> string -> string -> exn + list image;
  (** [pytesseract.image_to_string(img, lang)] with the given [tesseract_cmd] *)
  image_to_string : string -> image -> option string -> exn + string;
  (** [genai.configure(api_key)] *)
  genai_configure : string -> option exn;
  (** [genai.GenerativeModel(name)] *)
  GenerativeModel : string -> option exn;
  (** [model.generate_content(prompt)], the call of [main.py] *)
  generate_content : string -> exn + response;
  (** [model.generate], the attribute [pdf2csv.py] looks up before it calls
      it: [None] when the model object has no such attribute (the method
      of the library is [generate_content]) *)
  generate : option (string -> exn + response);
  (** [str(xs)] for a list of strings, as an f-string renders it *)
  str_of_list : list string -> string;
  (** the widgets of the page *)
  file_uploader : option string;
  text_input : string -> string;
  selectbox : string -> string;
  number_input : string -> Z;
  button : string -> bool
}.

Definition M (A : Type) : Type := world -> outcome A * world.

Definition ret {A} (a : A) : M A := fun w => (Return a, w).

Definition bind {A B} (c : M A) (k : A -> M B) : M B :=
  fun w =>
    match c w with
    | (Return a, w') => k a w'
    | (Raise e, w') => (Raise e, w')
    | (Stopped, w') => (Stopped, w')
    end.

Definition raise {A} (e : exn) : M A := fun w => (Raise e, w).

(** [try: body  except Exception as e: handler(e)] *)
Definition try_except {A} (body : M A) (handler : exn -> M A) : M A :=
  fun w =>
    match body w with
    | (Raise e, w') => handler e w'
    | r => r
    end.

Notation "x <- c ;; k" := (bind c (fun x => k))
  (at level 100, c at next level, right associativity).
Notation "c ;;; k" := (bind c (fun _ => k))
  (at level 100, right associativity).

(** A library call that either raises or returns. *)
Definition call {A} (r : exn + A) : M A :=
  match r with
  | inl e => raise e
  | inr a => ret a
  end.

(** [for x in xs: body], with the variables the body updates as [s]. *)
Fixpoint for_each {A S} (xs : list A) (body : A -> S -> M S) (s : S) : M S :=
  match xs with
  | [] => ret s
  | x :: rest => s' <- body x s ;; for_each rest body s'
  end.

(** *** Streamlit *)

Definition show (ev : ui_event) : M unit :=
  fun w => (Return tt, World (fs w) (ui w ++ [ev]) (net w)).

Definition st_title (s : string) : M unit := show (UiTitle s).
Definition st_write (s : string) : M unit := show (UiWrite s).
Definition st_success (s : string) : M unit := show (UiSuccess s).
Definition st_error (s : string) : M unit := show (UiError s).
Definition st_stop {A} : M A := fun w => (Stopped, w).

(** *** Files *)

(** [open(path).readlines()]: the store holds a text file as the text the
    reader delivers; a path that is no text file raises. *)
Definition open_readlines (path : string) : M (list string) :=
  fun w =>
    match fs w !! path with
    | Some (TextFile text) => (Return (Py.readlines text), w)
    | _ => (Raise (Exn OtherException ("cannot read " +:+ path)), w)
    end.

(** [open(path).read()] *)
Definition open_read (path : string) : M string :=
  fun w =>
    match fs w !! path with
    | Some (TextFile text) => (Return text, w)
    | _ => (Raise (Exn OtherException ("cannot read " +:+ path)), w)
    end.

(** [with open(path, 'w') as fout: fout.write(text)]; writing into the
    working directory is taken to succeed.  The text is kept as written,
    which is what a later read in text mode delivers when the text holds
    no carriage return; statements about a text the program writes and
    reads back assume that. *)
Definition open_write (path text : string) : M unit :=
  fun w => (Return tt, World (<[path := TextFile text]> (fs w)) (ui w) (net w)).

(** [image.save(path, 'JPEG')] *)
Definition image_save (img : image) (path : string) : M unit :=
  fun w => (Return tt, World (<[path := JpegFile img]> (fs w)) (ui w) (net w)).

(** [Image.open(path)] *)
Definition Image_open (path : string) : M image :=
  fun w =>
    match fs w !! path with
    | Some (JpegFile img) => (Return img, w)
    | _ => (Raise (Exn OtherException ("cannot identify image file " +:+ path)), w)
    end.

(** A call of the Gemini client: the prompt is recorded in [net] as soon
    as the call is made, whether it then returns an answer or raises, so an
    unchanged [net] means that no request was attempted. *)
Definition request (service : string -> exn + response) (prompt : string) : M response :=
  fun w =>
    let w' := World (fs w) (ui w) (net w ++ [prompt]) in
    match service prompt with
    | inl e => (Raise e, w')
    | inr r => (Return r, w')
    end.

Definition nl : string := String Py.newline EmptyString.

(** A library call made for its effect only: it raises or it does not. *)
Definition call_ (r : option exn) : M unit :=
  match r with
  | Some e => raise e
  | None => ret tt
  end.

(** [hasattr(response, 'text')]: reads the attribute and turns an
    [AttributeError] into [False]; any other exception gets through. *)
Definition hasattr_text (r : response) : M bool :=
  match response_text r with
  | AttrMissing => ret false
  | AttrRaises e =>
      match exn_cls e with
      | AttributeError => ret false
      | _ => raise e
      end
  | AttrValue _ => ret true
  end.

(** [response.text] *)
Definition getattr_text (r : response) : M string :=
  match response_text r with
  | AttrMissing => raise (Exn AttributeError "object has no attribute 'text'")
  | AttrRaises e => raise e
  | AttrValue v => ret v
  end.

(** ** main.py *)

Module Main.
Section Program.
Variable E : externals.

Definition load_config : M (string * string) :=
  popplerLoc <- call (config_get E "settings" "PopplerPath") ;;
  tesseractLoc <- call (config_get E "settings" "TesseractPath") ;;
  ret (popplerLoc, tesseractLoc).

Definition get_path_of_source (filename : string) : string := filename.

(** Step 1: PDF to JPG *)
Definition pdf_to_jpg (pdf_bytes userpw popplerLoc : string) : M (list string) :=
  images <- call (convert_from_bytes E pdf_bytes 500 None None userpw popplerLoc) ;;
  for_each (Py.enumerate images) (fun '(i, image) jpg_files =>
    let img_filename := "page_" +:+ Py.str_of_int (Z.of_nat i + 1) +:+ ".jpg" in
    image_save image img_filename ;;;
    ret (jpg_files ++ [img_filename])) [].

(** Step 2: JPG to TXT *)
Definition save_to_file_as_txt (filename text : string) : M string :=
  let filenamenew := Py.with_suffix (get_path_of_source filename) ".txt" in
  open_write filenamenew text ;;;
  ret filenamenew.

Definition jpg_to_txt (tesseractLoc : string) (jpg_files : list string)
    (language : string) : M (list string) :=
  for_each jpg_files (fun jpg_file txt_files =>
    img <- Image_open jpg_file ;;
    text <- call (image_to_string E tesseractLoc img (Some language)) ;;
    txt_file <- save_to_file_as_txt jpg_file text ;;
    ret (txt_files ++ [txt_file])) [].

(** Step 3: TXT to CSV.  [cleaned_line] is the value the loop body binds
    to that name for one [line]. *)
Definition cleaned_line (line : string) : string :=
  let without_comma := Py.replace "," "" line in
  let with_added_commas := Py.replace " " "," without_comma in
  let cleaned_line := Py.replace (String Py.dquote "") "" with_added_commas in
  cleaned_line.

Definition txt_to_csv (txt_files : list string) : M (list string) :=
  for_each txt_files (fun txt_file converted_list =>
    lines <- open_readlines txt_file ;;
    for_each lines (fun line converted_list =>
      ret (converted_list ++ [cleaned_line line])) converted_list) [].

Definition save_as_csv (data : list string) (filename : string) : M string :=
  let filename := Py.with_suffix (get_path_of_source filename) ".csv" in
  open_write filename (Py.join data) ;;;
  ret filename.

(** Analyze CSV content with Gemini and save the result *)
Definition analyze_csv_with_gemini (csv_content : list string)
    (output_filename : string) : M string :=
  try_except
    (response <- request (generate_content E)
       ("just convert the text errors and display it in csv" +:+ nl
          +:+ str_of_list E csv_content) ;;
     has_text <- hasattr_text response ;;
     response_text <-
       (if has_text : bool then getattr_text response
        else ret "No response text found") ;;
     st_write response_text ;;;
     open_write output_filename response_text ;;;
     st_write ("Saved Gemini analysis to CSV: " +:+ output_filename) ;;;
     ret output_filename)
    (fun e =>
       match exn_cls e with
       | TypeError =>
           st_error ("TypeError: " +:+ exn_msg e) ;;;
           ret "A TypeError occurred."
       | AttributeError =>
           st_error ("AttributeError: " +:+ exn_msg e) ;;;
           ret "An AttributeError occurred."
       | OtherException =>
           st_error ("An unexpected error occurred: " +:+ exn_msg e) ;;;
           ret "An unexpected error occurred."
       end).

(** The body of the [with st.spinner('Please wait...')] block. *)
Definition conversion (pdf_bytes userpw language : string) : M (list string * string) :=
  show (UiSpinner "Please wait...") ;;;
  config <- load_config ;;
  let '(popplerLoc, tesseractLoc) := config in
  jpg_files <- pdf_to_jpg pdf_bytes userpw popplerLoc ;;
  txt_files <- jpg_to_txt tesseractLoc jpg_files language ;;
  csv_data <- txt_to_csv txt_files ;;
  csv_filename <- save_as_csv csv_data "output" ;;
  ret (csv_data, csv_filename).

Definition main : M unit :=
  st_title "PDF to CSV Converter" ;;;
  st_write "This application converts PDF files to CSV format in three steps, extracting various types of customer and shop details, including those indicated by tick marks, cross marks, or shaded boxes." ;;;
  st_write "Step 1: PDF to JPG" ;;;
  st_write "Step 2: JPG to TXT" ;;;
  st_write "Step 3: TXT to CSV" ;;;
  match file_uploader E with
  | Some pdf_bytes =>
      st_success "File uploaded successfully" ;;;
      let userpw := text_input E "Password (if any)" in
      let language := selectbox E "Select OCR Language" in
      if button E "Convert" then
        try_except
          (converted <- conversion pdf_bytes userpw language ;;
           let '(csv_data, csv_filename) := converted in
           st_success "Conversion completed successfully" ;;;
           let analysis_csv_filename := get_path_of_source "gemini_analysis_output.csv" in
           _ <- analyze_csv_with_gemini csv_data analysis_csv_filename ;;
           st_write ("Analysis saved to: " +:+ analysis_csv_filename))
          (fun e => st_error ("An error occurred during conversion: " +:+ exn_msg e))
      else ret tt
  | None => ret tt
  end.

(** The module body, run top to bottom on every page load. *)
Definition script : M unit :=
  let api_key := environ E "GEMINI_API_KEY" in
  match api_key with
  | None =>
      st_error "API key not found. Please check your .env file." ;;;
      st_stop
  | Some api_key =>
      try_except (call_ (genai_configure E api_key))
        (fun e => st_error ("Error configuring Gemini API: " +:+ exn_msg e) ;;; st_stop) ;;;
      try_except (call_ (GenerativeModel E "gemini-1.5-flash"))
        (fun e => st_error ("Error initializing Gemini model: " +:+ exn_msg e) ;;; st_stop) ;;;
      main
  end.

End Program.
End Main.

(** [model.<name>(prompt)]: the attribute is looked up first, which raises
    an [AttributeError] when the model has none of that name; only then is
    the method called. *)
Definition getattr_call (method : option (string -> exn + response)) (name prompt : string)
    : M response :=
  match method with
  | None =>
      raise (Exn AttributeError
               ("'GenerativeModel' object has no attribute '" +:+ name +:+ "'"))
  | Some call_method => request call_method prompt
  end.

(** ** pdf2csv.py *)

(** [fout.write(text)] on a file opened for writing: the text goes after
    what the file holds. *)
Definition file_write (path text : string) : M unit :=
  fun w =>
    let old := match fs w !! path with
               | Some (TextFile t) => t
               | _ => EmptyString
               end in
    (Return tt, World (<[path := TextFile (old +:+ text)]> (fs w)) (ui w) (net w)).

Module Pdf2csv.
Section Program.
Variable E : externals.

Definition load_config : M (string * string) :=
  popplerLoc <- call (config_get E "settings" "PopplerPath") ;;
  tesseractLoc <- call (config_get E "settings" "TesseractPath") ;;
  ret (popplerLoc, tesseractLoc).

Definition get_path_of_source (filename : string) : string :=
  let p := filename in
  p.

(** Step 1: PDF to JPG *)
Definition pdf_to_jpg (pdf_bytes : string) (firstpage lastpage : Z)
    (userpw popplerLoc : string) : M (list string) :=
  images <- call (convert_from_bytes E pdf_bytes 500 (Some firstpage) (Some lastpage)
                    userpw popplerLoc) ;;
  for_each (Py.enumerate images) (fun '(i, image) jpg_files =>
    let img_filename := "page_" +:+ Py.str_of_int (Z.of_nat i + 1) +:+ ".jpg" in
    image_save image img_filename ;;;
    let jpg_files := jpg_files ++ [img_filename] in
    st_write ("Converted to JPG...Saving to: " +:+ img_filename) ;;;
    ret jpg_files) [].

(** Step 2: JPG to TXT *)
Definition save_to_file_as_txt (filename text : string) : M string :=
  let filenamenew := Py.with_suffix (get_path_of_source filename) ".txt" in
  st_write ("Converted to TXT...Saving to: " +:+ filenamenew) ;;;
  open_write filenamenew text ;;;
  ret filenamenew.

Definition jpg_to_txt (tesseractLoc : string) (jpg_files : list string) : M (list string) :=
  for_each jpg_files (fun jpg_file txt_files =>
    img <- Image_open jpg_file ;;
    text <- call (image_to_string E tesseractLoc img None) ;;
    txt_file <- save_to_file_as_txt jpg_file text ;;
    ret (txt_files ++ [txt_file])) [].

(** Step 3: TXT to CSV.  [strings_without_inverted_commas] is the value
    the loop body binds to that name for one line [i]. *)
Definition strings_without_inverted_commas (i : string) : string :=
  let without_comma := Py.replace "," "" i in
  let with_our_added_commas := Py.replace " " "," without_comma in
  let strings_without_inverted_commas :=
    Py.replace (String Py.dquote "") "" with_our_added_commas in
  strings_without_inverted_commas.

Definition txt_to_csv (txt_files : list string) : M (list string) :=
  for_each txt_files (fun txt_file ConvertedfileAsList =>
    x <- open_readlines txt_file ;;
    for_each x (fun i ConvertedfileAsList =>
      ret (ConvertedfileAsList ++ [strings_without_inverted_commas i]))
      ConvertedfileAsList) [].

Definition save_as_csv (data : list string) (filename : string) : M string :=
  let filename := Py.with_suffix (get_path_of_source filename) ".csv" in
  st_write ("Converted to CSV...Saving to: " +:+ filename) ;;;
  open_write filename "" ;;;
  for_each data (fun entry _ => file_write filename entry) tt ;;;
  ret filename.

(** Set up Gemini AI *)
Definition get_api_key : option string := environ E "GEMINI_API_KEY".

(** [not api_key]: true for [None] and for the empty string. *)
Definition not_ (api_key : option string) : bool :=
  match api_key with
  | None => true
  | Some EmptyString => true
  | Some (String _ _) => false
  end.

Definition analyze_csv_with_gemini (csv_content : string) : M (option response) :=
  let api_key := get_api_key in
  if not_ api_key then
    st_error "API key not found. Please set the GEMINI_API_KEY environment variable." ;;;
    ret None
  else
    call_ (genai_configure E (default EmptyString api_key)) ;;;
    call_ (GenerativeModel E "gemini-1.5-flash") ;;;
    let prompt :=
      "Analyze the following CSV data and extract details along with the selected checkboxes:"
        +:+ nl +:+ csv_content in
    try_except
      (response <- getattr_call (generate E) "generate" prompt ;;
       ret (Some response))
      (fun e =>
         st_error ("An error occurred while analyzing the CSV with Gemini AI: " +:+ exn_msg e) ;;;
         ret None).

Definition main : M unit :=
  st_title "PDF to CSV Converter with AI Analysis" ;;;
  st_write "This application converts PDF files to CSV format in three steps and analyzes the CSV using Gemini AI:" ;;;
  st_write "Step 1: PDF to JPG" ;;;
  st_write "Step 2: JPG to TXT" ;;;
  st_write "Step 3: TXT to CSV" ;;;
  match file_uploader E with
  | Some pdf_bytes =>
      st_success "File uploaded successfully" ;;;
      let userpw := text_input E "Password (if any)" in
      let first_page := number_input E "First Page" in
      let last_page := number_input E "Last Page" in
      if button E "Convert" then
        config <- load_config ;;
        let '(popplerLoc, tesseractLoc) := config in
        jpg_files <- pdf_to_jpg pdf_bytes first_page last_page userpw popplerLoc ;;
        txt_files <- jpg_to_txt tesseractLoc jpg_files ;;
        csv_data <- txt_to_csv txt_files ;;
        csv_filename <- save_as_csv csv_data "output" ;;
        st_success "Conversion completed successfully" ;;;
        csv_content <- open_read csv_filename ;;
        st_write "CSV Data:" ;;;
        st_write csv_content ;;;
        st_write "Analyzing CSV with Gemini AI..." ;;;
        analysis_result <- analyze_csv_with_gemini csv_content ;;
        match analysis_result with
        | Some r =>
            st_write "Analysis Result:" ;;;
            show (UiWriteObj r)
        | None => ret tt
        end
      else ret tt
  | None => ret tt
  end.

(** The module body: [load_dotenv()] is part of [environ]. *)
Definition script : M unit := main.

End Program.
End Pdf2csv.

(** ** The reformatter's transformation in the words of the specification *)

Module Spec.

(** remove every [c] character *)
Fixpoint remove_every (c : ascii) (s : string) : string :=
  match s with
  | EmptyString => EmptyString
  | String a rest =>
      if decide (a = c) then remove_every c rest else String a (remove_every c rest)
  end.

(** replace every [c] character with a [d] character *)
Fixpoint replace_every (c d : ascii) (s : string) : string :=
  match s with
  | EmptyString => EmptyString
  | String a rest => String (if decide (a = c) then d else a) (replace_every c d rest)
  end.

(** remove every comma; then replace every remaining space with the field
    separator; then remove every double quote *)
Definition reformat (line : string) : string :=
  remove_every Py.dquote (replace_every Py.space Py.comma (remove_every Py.comma line)).

End Spec.

(** ** Vocabulary of the statements *)

(** [c in s] *)
Fixpoint contains (c : ascii) (s : string) : bool :=
  match s with
  | EmptyString => false
  | String a rest => if decide (a = c) then true else contains c rest
  end.

(** [s.count(c)] *)
Fixpoint count_char (c : ascii) (s : string) : nat :=
  match s with
  | EmptyString => 0
  | String a rest => (if decide (a = c) then 1 else 0) + count_char c rest
  end.

(** [c * k] *)
Fixpoint repeat_char (c : ascii) (k : nat) : string :=
  match k with
  | O => EmptyString
  | S k' => String c (repeat_char c k')
  end.

(** What the reformatter makes of one character. *)
Definition clean_char (a : ascii) : string :=
  if decide (a = Py.comma) then EmptyString
  else if decide (a = Py.space) then String Py.comma EmptyString
  else if decide (a = Py.dquote) then EmptyString
  else String a EmptyString.

Fixpoint concat_map (f : ascii -> string) (s : string) : string :=
  match s with
  | EmptyString => EmptyString
  | String a rest => f a +:+ concat_map f rest
  end.

(** The text files at [paths] hold [texts], in this order. *)
Definition holds_texts (w : world) (paths texts : list string) : Prop :=
  Forall2 (fun path text => fs w !! path = Some (TextFile text)) paths texts.

(** Number of lines of the pages before page [p]. *)
Definition lines_before (p : nat) (texts : list string) : nat :=
  sum_list (map (fun text => length (Py.readlines text)) (take p texts)).

(** [page_<n>.jpg] *)
Definition page_name (n : Z) : string := "page_" +:+ Py.str_of_int n +:+ ".jpg".

(** [page_1.jpg], ..., [page_k.jpg] *)
Definition page_names (k : nat) : list string :=
  map (fun n => page_name (Z.of_nat n)) (seq 1 k).

(** [page_<n>.txt] *)
Definition page_txt_name (n : Z) : string := "page_" +:+ Py.str_of_int n +:+ ".txt".

(** [page_1.txt], ..., [page_k.txt] *)
Definition page_txt_names (k : nat) : list string :=
  map (fun n => page_txt_name (Z.of_nat n)) (seq 1 k).

(** The text file [save_to_file_as_txt] writes for [jpg_file]. *)
Definition txt_of (jpg_file : string) : string := Py.with_suffix jpg_file ".txt".

(** The file store once [jpg_to_txt] has written [texts] for [jpg_files]. *)
Definition write_texts (store : gmap string file) (jpg_files texts : list string)
    : gmap string file :=
  foldl (fun m ft => <[txt_of ft.1 := TextFile ft.2]> m) store (zip jpg_files texts).

(** The text is empty or its last character is a line feed. *)
Fixpoint ends_lines (text : string) : bool :=
  match text with
  | EmptyString => true
  | String c rest =>
      match rest with
      | EmptyString => bool_decide (c = Py.newline)
      | String _ _ => ends_lines rest
      end
  end.

(** A line with its line feed at the end and nowhere else. *)
Definition complete_line (l : string) : Prop :=
  exists body, l = body +:+ nl /\ contains Py.newline body = false.

(** The three characters the reformatter acts on, all removed. *)
Definition without_separators (line : string) : string :=
  Spec.remove_every Py.dquote (Spec.remove_every Py.space (Spec.remove_every Py.comma line)).

(** The files at [paths] hold the characters [raws]: what the program
    reads from them in text mode is their translation. *)
Definition holds_files (w : world) (paths raws : list string) : Prop :=
  holds_texts w paths (map Py.universal_newlines raws).

Fixpoint all_chars (p : ascii -> bool) (s : string) : bool :=
  match s with
  | EmptyString => true
  | String c rest => p c && all_chars p rest
  end.

(** A non-empty run of characters with no dot and nothing that separates
    the parts of a path (slash, backslash, colon) in it. *)
Definition plain (s : string) : bool :=
  match s with
  | EmptyString => false
  | String _ _ =>
      all_chars (fun c => bool_decide (c <> "."%char /\ c <> "/"%char
                                       /\ c <> "092"%char /\ c <> ":"%char)) s
  end.

(** A file name in the working directory: a plain stem, a dot and a plain
    extension, as [page_1.jpg]. *)
Definition file_name (f : string) : Prop :=
  exists stem ext, f = stem +:+ String "." ext /\ plain stem = true /\ plain ext = true.

(** ** Sample runs *)

Module Sample.

Definition page_1_text : string :=
  "John Doe, Age: 30" +:+ nl +:+ "a  b" +:+ nl.

Definition page_2_text : string :=
  "a  b" +:+ nl +:+ String Py.dquote "x" +:+ String Py.dquote (String Py.tab "y").

(** A working directory after OCR of a two-page document. *)
Definition after_ocr : world :=
  World (<["page_1.txt" := TextFile page_1_text]>
           (<["page_2.txt" := TextFile page_2_text]> ∅)) [] [].

(** A rasterizer that gives one image per page of the range, a service
    that is down, and a user who uploads a file and presses Convert. *)
Definition externals (api_key : option string) : externals := {|
  environ name := if decide (name = "GEMINI_API_KEY") then api_key else None;
  config_get section key := inr ("/opt/" +:+ key);
  convert_from_bytes pdf_bytes dpi first_page last_page userpw poppler_path :=
    match first_page, last_page with
    | Some first, Some last =>
        inr (map (fun n => Image ("scan of page " +:+ Py.str_of_int n))
               (seqZ first (last - first + 1)))
    | _, _ => inr [Image "scan of page 1"]
    end;
  image_to_string tesseract_cmd img lang := inr page_1_text;
  genai_configure api_key := None;
  GenerativeModel name := None;
  generate_content prompt := inl (Exn OtherException "503 Service Unavailable");
  generate := None;
  str_of_list xs := Py.join xs;
  file_uploader := Some "%PDF-1.7";
  text_input label := EmptyString;
  selectbox label := "eng";
  number_input label := if decide (label = "First Page") then 3%Z else 5%Z;
  button label := true
|}.

End Sample.

(** ** More sample runs *)

Module Demo.

(** The characters of a page text with a carriage return in its first
    line, and a working directory holding that file: a read delivers the
    translation. *)
Definition carriage_return_page : string :=
  "a" +:+ String Py.carriage_return (" b" +:+ nl).

Definition after_ocr_with_carriage_return : world :=
  World (<["page_1.txt" := TextFile (Py.universal_newlines carriage_return_page)]> ∅) [] [].

(** A working directory after the rasterizer wrote two pages. *)
Definition after_rasterizing : world :=
  World (<["page_1.jpg" := JpegFile (Image "scan of page 1")]>
           (<["page_2.jpg" := JpegFile (Image "scan of page 2")]> ∅)) [] [].

(** [E] with another OCR engine, rasterizer, configuration, client set-up
    or service behind it. *)
Definition with_ocr (ocr : string -> image -> option string -> exn + string)
    (E : externals) : externals :=
  Externals (environ E) (config_get E) (convert_from_bytes E) ocr (genai_configure E)
    (GenerativeModel E) (generate_content E) (generate E) (str_of_list E)
    (file_uploader E) (text_input E) (selectbox E) (number_input E) (button E).

Definition with_rasterizer
    (rasterizer : string -> Z -> option Z -> option Z -> string -> string -> exn + list image)
    (E : externals) : externals :=
  Externals (environ E) (config_get E) rasterizer (image_to_string E) (genai_configure E)
    (GenerativeModel E) (generate_content E) (generate E) (str_of_list E)
    (file_uploader E) (text_input E) (selectbox E) (number_input E) (button E).

Definition with_config (config : string -> string -> exn + string)
    (E : externals) : externals :=
  Externals (environ E) config (convert_from_bytes E) (image_to_string E)
    (genai_configure E) (GenerativeModel E) (generate_content E) (generate E)
    (str_of_list E) (file_uploader E) (text_input E) (selectbox E) (number_input E)
    (button E).

Definition with_client (configure : string -> option exn) (model : string -> option exn)
    (E : externals) : externals :=
  Externals (environ E) (config_get E) (convert_from_bytes E) (image_to_string E)
    configure model (generate_content E) (generate E) (str_of_list E)
    (file_uploader E) (text_input E) (selectbox E) (number_input E) (button E).

Definition with_service (service : string -> exn + response) (E : externals) : externals :=
  Externals (environ E) (config_get E) (convert_from_bytes E) (image_to_string E)
    (genai_configure E) (GenerativeModel E) service (Some service) (str_of_list E)
    (file_uploader E) (text_input E) (selectbox E) (number_input E) (button E).

(** An OCR engine that cannot read the scan of page 2. *)
Definition ocr_fails_on_page_2 (tesseract_cmd : string) (img : image)
    (lang : option string) : exn + string :=
  match img with
  | Image pixels =>
      if decide (pixels = "scan of page 2")
      then inl (Exn OtherException "TesseractError")
      else inr ("text of " +:+ pixels +:+ nl)
  end.

(** A rasterizer that refuses the password. *)
Definition wrong_password (pdf_bytes : string) (dpi : Z) (first_page last_page : option Z)
    (userpw poppler_path : string) : exn + list image :=
  inl (Exn OtherException "Incorrect password").

(** A service that answers with a table. *)
Definition answers (prompt : string) : exn + response :=
  inr (Response (AttrValue ("name,age" +:+ nl +:+ "John Doe,30" +:+ nl))).

End Demo.

(** * Properties *)

(** ** The built-ins on small inputs *)

Example replace_removes_every_match :
  Py.replace "," "" "John Doe, Age: 30" = "John Doe Age: 30".
Proof. reflexivity. Qed.

Example replace_matches_do_not_overlap : Py.replace "aa" "x" "aaaaa" = "xxa".
Proof. reflexivity. Qed.

Example replace_empty_pattern : Py.replace "" "-" "abc" = "-a-b-c-".
Proof. reflexivity. Qed.

Example readlines_keeps_line_feeds :
  Py.readlines ("ab" +:+ nl +:+ nl +:+ "c") = ["ab" +:+ nl; nl; "c"].
Proof. reflexivity. Qed.

Example readlines_empty_file : Py.readlines "" = [].
Proof. reflexivity. Qed.

Example universal_newlines_translates :
  Py.readlines
    (Py.universal_newlines
       ("a" +:+ String Py.carriage_return (" b" +:+ String Py.carriage_return (nl +:+ "c"
          +:+ String Py.carriage_return (String Py.carriage_return (nl +:+ "d"))))))
  = ["a" +:+ nl; " b" +:+ nl; "c" +:+ nl; nl; "d"].
Proof. reflexivity. Qed.

Example with_suffix_page : Py.with_suffix "page_12.jpg" ".txt" = "page_12.txt".
Proof. reflexivity. Qed.

Example with_suffix_output : Py.with_suffix "output" ".csv" = "output.csv".
Proof. reflexivity. Qed.

(** ** Strings *)

Lemma app_cons a (s t : string) : String a s +:+ t = String a (s +:+ t).
Proof. reflexivity. Qed.

Lemma app_empty_l (s : string) : EmptyString +:+ s = s.
Proof. reflexivity. Qed.

Lemma app_empty_r (s : string) : s +:+ EmptyString = s.
Proof. induction s as [|a s IH]; [reflexivity|]. rewrite app_cons. by rewrite IH. Qed.

Lemma app_assoc_s (s t u : string) : (s +:+ t) +:+ u = s +:+ (t +:+ u).
Proof. induction s as [|a s IH]; [reflexivity|]. rewrite !app_cons. by rewrite IH. Qed.

Lemma concat_map_app f (s t : string) :
  concat_map f (s +:+ t) = concat_map f s +:+ concat_map f t.
Proof.
  induction s as [|a s IH]; [reflexivity|].
  rewrite app_cons. simpl. rewrite IH. by rewrite app_assoc_s.
Qed.

(** [replace] with a one-character pattern works character by character. *)
Lemma replace_one_char c new s :
  Py.replace (String c EmptyString) new s
  = concat_map (fun a => if decide (a = c) then new else String a EmptyString) s.
Proof.
  unfold Py.replace. induction s as [|a s IH]; [reflexivity|].
  cbn [Py.replace_scan Py.startswith concat_map String.length Nat.sub].
  destruct (decide (c = a)) as [->|Hne].
  - rewrite decide_True by done. destruct s; by rewrite IH.
  - rewrite decide_False by congruence. by rewrite IH.
Qed.

Lemma concat_map_ext f g (s : string) :
  (forall a, f a = g a) -> concat_map f s = concat_map g s.
Proof. intros Hfg. induction s as [|a s IH]; [reflexivity|]. simpl. by rewrite Hfg, IH. Qed.

Lemma concat_map_compose f g (s : string) :
  concat_map f (concat_map g s) = concat_map (fun a => concat_map f (g a)) s.
Proof.
  induction s as [|a s IH]; [reflexivity|].
  simpl. by rewrite concat_map_app, IH.
Qed.

Lemma remove_every_chars c s :
  Spec.remove_every c s
  = concat_map (fun a => if decide (a = c) then EmptyString else String a EmptyString) s.
Proof.
  induction s as [|a s IH]; [reflexivity|].
  simpl. rewrite IH. by destruct (decide (a = c)).
Qed.

Lemma replace_every_chars c d s :
  Spec.replace_every c d s
  = concat_map (fun a => if decide (a = c) then String d EmptyString else String a EmptyString) s.
Proof.
  induction s as [|a s IH]; [reflexivity|].
  simpl. rewrite IH. by destruct (decide (a = c)).
Qed.

Ltac case_chars :=
  repeat first
    [ progress rewrite ?app_cons, ?app_empty_l
    | progress cbn -[String.append] in *
    | case_decide; simplify_eq; try done ].

Lemma cleaned_line_chars line : Main.cleaned_line line = concat_map clean_char line.
Proof.
  unfold Main.cleaned_line.
  change "," with (String Py.comma EmptyString) at 1.
  change " " with (String Py.space EmptyString).
  rewrite !replace_one_char, !concat_map_compose.
  apply concat_map_ext. intros a. unfold clean_char. case_chars.
Qed.

Lemma variants_agree line :
  Pdf2csv.strings_without_inverted_commas line = Main.cleaned_line line.
Proof. reflexivity. Qed.

Lemma reformat_chars line : Spec.reformat line = concat_map clean_char line.
Proof.
  unfold Spec.reformat.
  rewrite !remove_every_chars, replace_every_chars, !concat_map_compose.
  apply concat_map_ext. intros a. unfold clean_char. case_chars.
Qed.

Lemma cleaned_line_app s t :
  Main.cleaned_line (s +:+ t) = Main.cleaned_line s +:+ Main.cleaned_line t.
Proof. rewrite !cleaned_line_chars. apply concat_map_app. Qed.

Lemma cleaned_line_cons a s :
  Main.cleaned_line (String a s) = clean_char a +:+ Main.cleaned_line s.
Proof. by rewrite !cleaned_line_chars. Qed.

Lemma length_app_s (s t : string) :
  String.length (s +:+ t) = String.length s + String.length t.
Proof. induction s as [|a s IH]; [reflexivity|]. rewrite app_cons. simpl. by rewrite IH. Qed.

Lemma contains_app c (s t : string) :
  contains c (s +:+ t) = contains c s || contains c t.
Proof.
  induction s as [|a s IH]; [reflexivity|].
  rewrite app_cons. simpl. rewrite IH. by destruct (decide (a = c)).
Qed.

Lemma count_char_app c (s t : string) :
  count_char c (s +:+ t) = count_char c s + count_char c t.
Proof.
  induction s as [|a s IH]; [reflexivity|].
  rewrite app_cons. simpl. rewrite IH. lia.
Qed.

Lemma contains_concat_map c f (s : string) :
  (forall a, contains c (f a) = false) -> contains c (concat_map f s) = false.
Proof.
  intros Hf. induction s as [|a s IH]; [reflexivity|].
  simpl. by rewrite contains_app, Hf, IH.
Qed.

Lemma cleaned_line_no_space line : contains Py.space (Main.cleaned_line line) = false.
Proof.
  rewrite cleaned_line_chars. apply contains_concat_map.
  intros a. unfold clean_char. case_chars.
Qed.

Lemma cleaned_line_no_dquote line : contains Py.dquote (Main.cleaned_line line) = false.
Proof.
  rewrite cleaned_line_chars. apply contains_concat_map.
  intros a. unfold clean_char. case_chars.
Qed.

Lemma cleaned_line_length line :
  String.length (Main.cleaned_line line) <= String.length line.
Proof.
  rewrite cleaned_line_chars. induction line as [|a s IH]; [done|].
  simpl. rewrite length_app_s.
  assert (String.length (clean_char a) <= 1); [|lia].
  unfold clean_char. case_chars; lia.
Qed.

Lemma cleaned_line_count_other c line :
  c <> Py.comma -> c <> Py.space -> c <> Py.dquote ->
  count_char c (Main.cleaned_line line) = count_char c line.
Proof.
  intros ???. rewrite cleaned_line_chars. induction line as [|a s IH]; [done|].
  simpl. rewrite count_char_app, IH. f_equal.
  unfold clean_char. case_chars.
Qed.

Lemma cleaned_line_kept c s :
  c <> Py.comma -> c <> Py.space -> c <> Py.dquote ->
  Main.cleaned_line (String c s) = String c (Main.cleaned_line s).
Proof. intros ???. rewrite cleaned_line_cons. unfold clean_char. case_chars. Qed.

Lemma cleaned_line_spaces k :
  Main.cleaned_line (repeat_char Py.space k) = repeat_char Py.comma k.
Proof.
  induction k as [|k IH]; [reflexivity|].
  simpl. rewrite cleaned_line_cons, IH. reflexivity.
Qed.

(** ** Loops *)

Lemma bind_return {A B} (c : M A) (k : A -> M B) w a w' :
  c w = (Return a, w') -> bind c k w = k a w'.
Proof. intros H. unfold bind. by rewrite H. Qed.

(** A loop whose body only appends to the list it builds. *)
Lemma for_each_append {A B} (f : A -> B) xs acc w :
  for_each xs (fun x acc => ret (acc ++ [f x])) acc w = (Return (acc ++ map f xs), w).
Proof.
  revert acc. induction xs as [|x xs IH]; intros acc; simpl.
  - by rewrite app_nil_r.
  - erewrite bind_return by reflexivity. rewrite IH. by rewrite <- app_assoc.
Qed.

Lemma open_readlines_text w path text :
  fs w !! path = Some (TextFile text) ->
  open_readlines path w = (Return (Py.readlines text), w).
Proof. intros H. unfold open_readlines. by rewrite H. Qed.

Lemma open_readlines_inv w path lines w' :
  open_readlines path w = (Return lines, w') ->
  w' = w /\ exists text, fs w !! path = Some (TextFile text) /\ lines = Py.readlines text.
Proof.
  unfold open_readlines. intros H.
  destruct (fs w !! path) as [[text|img]|]; simplify_eq. eauto.
Qed.

(** The outer loop of [txt_to_csv], started with [acc] already collected. *)
Lemma txt_to_csv_loop w paths texts acc :
  holds_texts w paths texts ->
  for_each paths (fun txt_file converted_list =>
    lines <- open_readlines txt_file ;;
    for_each lines (fun line converted_list =>
      ret (converted_list ++ [Main.cleaned_line line])) converted_list) acc w
  = (Return (acc ++ concat (map (fun text => map Main.cleaned_line (Py.readlines text)) texts)),
     w).
Proof.
  intros H. revert acc. induction H as [|path text paths texts Hp _ IH]; intros acc; simpl.
  - by rewrite app_nil_r.
  - erewrite bind_return; last first.
    { erewrite bind_return by (by apply open_readlines_text). apply for_each_append. }
    rewrite IH. by rewrite <- app_assoc.
Qed.

Lemma txt_to_csv_pages w paths texts :
  holds_texts w paths texts ->
  Main.txt_to_csv paths w
  = (Return (concat (map (fun text => map Main.cleaned_line (Py.readlines text)) texts)), w).
Proof. intros H. unfold Main.txt_to_csv. by rewrite (txt_to_csv_loop w paths texts []). Qed.

Lemma txt_to_csv_variants paths : Pdf2csv.txt_to_csv paths = Main.txt_to_csv paths.
Proof. reflexivity. Qed.

(** Whatever the files, every line the loop collects is a [cleaned_line]. *)
Lemma txt_to_csv_loop_inv (P : string -> Prop) w paths acc out w' :
  (forall line, P (Main.cleaned_line line)) ->
  Forall P acc ->
  for_each paths (fun txt_file converted_list =>
    lines <- open_readlines txt_file ;;
    for_each lines (fun line converted_list =>
      ret (converted_list ++ [Main.cleaned_line line])) converted_list) acc w
  = (Return out, w') ->
  Forall P out.
Proof.
  intros HP. revert acc. induction paths as [|path paths IH]; intros acc Hacc; simpl.
  - intros [= <- _]. done.
  - unfold bind at 1. unfold bind at 1.
    destruct (open_readlines path w) as [[lines|e|] w1] eqn:Hopen; try done.
    apply open_readlines_inv in Hopen as [-> _].
    rewrite for_each_append. apply IH.
    apply Forall_app. split; [done|].
    clear -HP. induction lines; constructor; auto.
Qed.

Lemma concat_map_map {A B C} (f : B -> C) (g : A -> list B) (xs : list A) :
  concat (map (fun x => map f (g x)) xs) = map f (concat (map g xs)).
Proof. induction xs as [|x xs IH]; [done|]. simpl. by rewrite IH, map_app. Qed.

Lemma length_concat_map {A B} (g : A -> list B) (xs : list A) :
  length (concat (map g xs)) = sum_list (map (fun x => length (g x)) xs).
Proof. induction xs as [|x xs IH]; [done|]. simpl. by rewrite length_app, IH. Qed.

(** The [j]-th line of page [p] sits [lines_before p] places further in the
    concatenation of all pages. *)
Lemma lookup_page_line (texts : list string) p text j :
  texts !! p = Some text ->
  j < length (Py.readlines text) ->
  concat (map Py.readlines texts) !! (lines_before p texts + j) = Py.readlines text !! j.
Proof.
  unfold lines_before. revert p. induction texts as [|t texts IH]; intros [|p] Hp Hj;
    simplify_eq/=.
  - by rewrite lookup_app_l.
  - rewrite <- Nat.add_assoc, lookup_app_r by lia.
    replace (_ + _ - _) with
      (sum_list (map (fun text => length (Py.readlines text)) (take p texts)) + j) by lia.
    by apply IH.
Qed.

(** ** The reformatter *)

(** The value [txt_to_csv] appends for a line (in [main.py] and in
    [pdf2csv.py]) is the line obtained by removing every comma, then
    replacing every remaining space with a comma, then removing every
    double quote. *)
Theorem cleaned_line_refines_spec (line : string) :
  Main.cleaned_line line = Spec.reformat line
  /\ Pdf2csv.strings_without_inverted_commas line = Spec.reformat line.
Proof.
  split; (etrans; [apply cleaned_line_chars | symmetry; apply reformat_chars]).
Qed.



(** C3. When the text files hold [texts], [txt_to_csv] returns, and its
    list has as many lines as were read from all the files together; the
    [i]-th output line is made from the [i]-th line read, holds as many line
    feeds as it, and ends with the line feed that ended it. *)
Theorem txt_to_csv_keeps_every_line (w : world) (paths texts : list string) :
  holds_texts w paths texts ->
  exists out,
    Main.txt_to_csv paths w = (Return out, w)
    /\ Pdf2csv.txt_to_csv paths w = (Return out, w)
    /\ length out = sum_list (map (fun text => length (Py.readlines text)) texts)
    /\ forall i line,
         concat (map Py.readlines texts) !! i = Some line ->
         exists o,
           out !! i = Some o
           /\ count_char Py.newline o = count_char Py.newline line
           /\ forall body, line = body +:+ nl -> o = Main.cleaned_line body +:+ nl.
Proof.
  intros H. eexists. split; [by apply txt_to_csv_pages|].
  split; [rewrite txt_to_csv_variants; by apply txt_to_csv_pages|].
  rewrite concat_map_map. split.
  - by rewrite length_map, length_concat_map.
  - intros i line Hi. exists (Main.cleaned_line line). split; [|split].
    + change (map Main.cleaned_line ?l) with (Main.cleaned_line <$> l).
      by rewrite list_lookup_fmap, Hi.
    + by apply cleaned_line_count_other.
    + intros body ->. by rewrite cleaned_line_app.
Qed.

Lemma txt_to_csv_keeps_every_line_sample :
  holds_texts Sample.after_ocr ["page_1.txt"; "page_2.txt"]
    [Sample.page_1_text; Sample.page_2_text]
  /\ exists out,
       Main.txt_to_csv ["page_1.txt"; "page_2.txt"] Sample.after_ocr
       = (Return out, Sample.after_ocr)
       /\ length out = 4.
Proof.
  assert (holds_texts Sample.after_ocr ["page_1.txt"; "page_2.txt"]
            [Sample.page_1_text; Sample.page_2_text]) as H.
  { repeat constructor. }
  split; [exact H|].
  destruct (txt_to_csv_keeps_every_line _ _ _ H) as (out & Hrun & _ & Hlen & _).
  exists out. split; [exact Hrun|exact Hlen].
Defined.

(** C4. When the text files hold [texts], the list [txt_to_csv] returns is
    the list of all lines read, page after page and line after line, each
    one transformed: line [j] of page [p] stands at place
    [lines_before p texts + j], which is before every place of page [p + 1]. *)
Theorem txt_to_csv_keeps_order (w : world) (paths texts : list string) :
  holds_texts w paths texts ->
  exists out,
    Main.txt_to_csv paths w = (Return out, w)
    /\ Pdf2csv.txt_to_csv paths w = (Return out, w)
    /\ out = map Main.cleaned_line (concat (map Py.readlines texts))
    /\ forall p text j line,
         texts !! p = Some text ->
         Py.readlines text !! j = Some line ->
         out !! (lines_before p texts + j) = Some (Main.cleaned_line line)
         /\ lines_before p texts + j < lines_before (S p) texts.
Proof.
  intros H. eexists. split; [by apply txt_to_csv_pages|].
  split; [rewrite txt_to_csv_variants; by apply txt_to_csv_pages|].
  rewrite concat_map_map. split; [done|].
  intros p text j line Hp Hj.
  assert (j < length (Py.readlines text)) as Hlt by (by eapply lookup_lt_Some).
  split.
  - change (map Main.cleaned_line ?l) with (Main.cleaned_line <$> l).
    by rewrite list_lookup_fmap, (lookup_page_line texts p text j Hp Hlt), Hj.
  - unfold lines_before. rewrite (take_S_r _ _ _ Hp), map_app, sum_list_with_app. simpl. lia.
Qed.

Lemma txt_to_csv_keeps_order_sample :
  holds_texts Sample.after_ocr ["page_2.txt"; "page_1.txt"; "page_2.txt"]
    [Sample.page_2_text; Sample.page_1_text; Sample.page_2_text]
  /\ exists out,
       Main.txt_to_csv ["page_2.txt"; "page_1.txt"; "page_2.txt"] Sample.after_ocr
       = (Return out, Sample.after_ocr)
       /\ out = map Main.cleaned_line
                  (concat (map Py.readlines
                     [Sample.page_2_text; Sample.page_1_text; Sample.page_2_text])).
Proof.
  assert (holds_texts Sample.after_ocr ["page_2.txt"; "page_1.txt"; "page_2.txt"]
            [Sample.page_2_text; Sample.page_1_text; Sample.page_2_text]) as H.
  { repeat constructor. }
  split; [exact H|].
  destruct (txt_to_csv_keeps_order _ _ _ H) as (out & Hrun & _ & Hout & _).
  exists out. split; [exact Hrun|exact Hout].
Defined.

(** On a line without commas and double quotes, a second pass undoes the
    separators of the first one; the two passes agree exactly when there
    were none to insert. *)
Lemma cleaned_twice_iff line :
  contains Py.comma line = false ->
  contains Py.dquote line = false ->
  Main.cleaned_line (Main.cleaned_line line) = Main.cleaned_line line
  <-> contains Py.space line = false.
Proof.
  induction line as [|a s IH]; [done|]. simpl.
  destruct (decide (a = Py.comma)) as [|Hc]; [done|].
  destruct (decide (a = Py.dquote)) as [|Hq]; [done|].
  intros Hcs Hqs. destruct (decide (a = Py.space)) as [->|Hs].
  - split; [|done]. intros Heq. exfalso.
    rewrite (cleaned_line_cons Py.space) in Heq.
    change (clean_char Py.space +:+ ?x) with (String Py.comma x) in Heq.
    rewrite (cleaned_line_cons Py.comma) in Heq.
    change (clean_char Py.comma +:+ ?x) with x in Heq.
    apply (f_equal String.length) in Heq. simpl in Heq.
    pose proof (cleaned_line_length (Main.cleaned_line s)). lia.
  - rewrite !cleaned_line_kept by done. rewrite <- (IH Hcs Hqs).
    split; [by intros [= ?]|by intros ->].
Qed.

(** C5, as the code has it. On a line free of commas and double quotes, the
    reformatter applied twice gives what it gives applied once exactly when
    the line has no space either. *)
Theorem twice_is_once_iff_no_space (line : string) :
  contains Py.comma line = false ->
  contains Py.dquote line = false ->
  (Main.cleaned_line (Main.cleaned_line line) = Main.cleaned_line line
   <-> contains Py.space line = false)
  /\ (Pdf2csv.strings_without_inverted_commas (Pdf2csv.strings_without_inverted_commas line)
      = Pdf2csv.strings_without_inverted_commas line
      <-> contains Py.space line = false).
Proof. intros Hc Hq. split; by apply cleaned_twice_iff. Qed.

Lemma twice_is_once_iff_no_space_sample :
  contains Py.comma "Age:30" = false
  /\ contains Py.dquote "Age:30" = false
  /\ (Main.cleaned_line (Main.cleaned_line "Age:30") = Main.cleaned_line "Age:30"
      <-> contains Py.space "Age:30" = false).
Proof.
  split; [reflexivity|]. split; [reflexivity|].
  exact (proj1 (twice_is_once_iff_no_space "Age:30" eq_refl eq_refl)).
Defined.

(** C5, as stated, fails on [a b], which has no comma and no double quote:
    one pass gives [a,b], the second one gives [ab]. *)
Lemma twice_differs_on_a_space_b :
  contains Py.comma "a b" = false
  /\ contains Py.dquote "a b" = false
  /\ Main.cleaned_line (Main.cleaned_line "a b") <> Main.cleaned_line "a b"
  /\ Pdf2csv.strings_without_inverted_commas (Pdf2csv.strings_without_inverted_commas "a b")
     <> Pdf2csv.strings_without_inverted_commas "a b".
Proof. repeat split; vm_compute; discriminate. Qed.

(** C9. No line of the reformatter's output holds a space or a double
    quote: this holds of the line made from any input line, and so of every
    element of any list [txt_to_csv] returns. *)
Theorem txt_to_csv_no_space_no_dquote :
  (forall line,
     contains Py.space (Main.cleaned_line line) = false
     /\ contains Py.dquote (Main.cleaned_line line) = false
     /\ contains Py.space (Pdf2csv.strings_without_inverted_commas line) = false
     /\ contains Py.dquote (Pdf2csv.strings_without_inverted_commas line) = false)
  /\ (forall paths w out w',
        Main.txt_to_csv paths w = (Return out, w')
        \/ Pdf2csv.txt_to_csv paths w = (Return out, w') ->
        Forall (fun o => contains Py.space o = false /\ contains Py.dquote o = false) out).
Proof.
  split.
  - intros line. repeat split;
      first [apply cleaned_line_no_space | apply cleaned_line_no_dquote].
  - intros paths w out w' Hrun.
    assert (Main.txt_to_csv paths w = (Return out, w')) as H by (by destruct Hrun).
    eapply txt_to_csv_loop_inv; [|constructor|exact H].
    intros line. split; [apply cleaned_line_no_space | apply cleaned_line_no_dquote].
Qed.

Lemma txt_to_csv_no_space_no_dquote_sample :
  Main.txt_to_csv ["page_1.txt"; "page_2.txt"] Sample.after_ocr
  = (Return ["John,Doe,Age:,30" +:+ nl; "a,,b" +:+ nl; "a,,b" +:+ nl;
             "x" +:+ String Py.tab "y"], Sample.after_ocr)
  /\ Forall (fun o => contains Py.space o = false /\ contains Py.dquote o = false)
       ["John,Doe,Age:,30" +:+ nl; "a,,b" +:+ nl; "a,,b" +:+ nl; "x" +:+ String Py.tab "y"].
Proof.
  assert (Main.txt_to_csv ["page_1.txt"; "page_2.txt"] Sample.after_ocr
          = (Return ["John,Doe,Age:,30" +:+ nl; "a,,b" +:+ nl; "a,,b" +:+ nl;
                     "x" +:+ String Py.tab "y"], Sample.after_ocr)) as H.
  { vm_compute. reflexivity. }
  split; [exact H|].
  exact (proj2 txt_to_csv_no_space_no_dquote _ _ _ _ (or_introl H)).
Defined.

(** The three replacements of the loop body, on a line: a run of [k]
    spaces becomes [k] commas there, and a tab, a line feed or a carriage
    return in the line stays as it is. *)
Theorem space_runs_not_collapsed (a b : string) (k : nat) :
  Main.cleaned_line (a +:+ repeat_char Py.space k +:+ b)
  = Main.cleaned_line a +:+ repeat_char Py.comma k +:+ Main.cleaned_line b
  /\ Pdf2csv.strings_without_inverted_commas (a +:+ repeat_char Py.space k +:+ b)
     = Pdf2csv.strings_without_inverted_commas a +:+ repeat_char Py.comma k
         +:+ Pdf2csv.strings_without_inverted_commas b
  /\ Main.cleaned_line (a +:+ String Py.tab b)
     = Main.cleaned_line a +:+ String Py.tab (Main.cleaned_line b)
  /\ Main.cleaned_line (a +:+ String Py.newline b)
     = Main.cleaned_line a +:+ String Py.newline (Main.cleaned_line b)
  /\ Main.cleaned_line (a +:+ String Py.carriage_return b)
     = Main.cleaned_line a +:+ String Py.carriage_return (Main.cleaned_line b).
Proof.
  assert (Main.cleaned_line (a +:+ repeat_char Py.space k +:+ b)
          = Main.cleaned_line a +:+ repeat_char Py.comma k +:+ Main.cleaned_line b) as H.
  { by rewrite !cleaned_line_app, cleaned_line_spaces. }
  split; [exact H|]. split; [exact H|].
  repeat split; rewrite cleaned_line_app, cleaned_line_kept; done.
Qed.

(** ** The rasterizer adapter *)

Lemma app_inv_tail_s (s s' t : string) : s +:+ t = s' +:+ t -> s = s'.
Proof.
  revert s'. induction s as [|a s IH]; intros [|b s'] H; [done|..].
  - apply (f_equal String.length) in H. rewrite !length_app_s in H. simpl in H. lia.
  - apply (f_equal String.length) in H. rewrite !length_app_s in H. simpl in H. lia.
  - rewrite !app_cons in H. injection H as -> H. f_equal. by apply IH.
Qed.

Lemma page_name_inj (a b : Z) : page_name a = page_name b -> a = b.
Proof.
  unfold page_name, Py.str_of_int. intros H.
  apply (inj (String.app "page_")) in H.
  apply app_inv_tail_s in H. by apply (inj pretty) in H.
Qed.

Lemma page_names_length k : length (page_names k) = k.
Proof. unfold page_names. by rewrite length_map, length_seq. Qed.

Lemma page_names_NoDup k : NoDup (page_names k).
Proof.
  unfold page_names. change (map ?f ?l) with (f <$> l).
  apply NoDup_fmap_2; [|apply NoDup_seq].
  intros a b H. apply page_name_inj in H. lia.
Qed.

Lemma page_names_elem path k :
  path ∈ page_names k <-> exists i, i < k /\ path = page_name (Z.of_nat i + 1).
Proof.
  unfold page_names. change (map ?f ?l) with (f <$> l).
  rewrite list_elem_of_fmap. split.
  - intros (n & -> & Hn). apply elem_of_seq in Hn.
    exists (n - 1). split; [lia|]. f_equal. lia.
  - intros (i & Hi & ->). exists (S i). split; [f_equal; lia|].
    apply elem_of_seq. lia.
Qed.

Section SavePages.
(** The body of the [for i, image in enumerate(images)] loop: it saves
    the image under its name and appends the name. *)
Variable body : nat * image -> list string -> M (list string).
Hypothesis body_saves : forall i img acc w, exists u,
  body (i, img) acc w
  = (Return (acc ++ [page_name (Z.of_nat i + 1)]),
     World (<[page_name (Z.of_nat i + 1) := JpegFile img]> (fs w)) u (net w)).

Lemma save_pages_loop images : forall off acc w, exists w',
  for_each (imap (fun i x => (off + i, x)) images) body acc w
  = (Return (acc ++ map (fun n => page_name (Z.of_nat n)) (seq (S off) (length images))), w')
  /\ net w' = net w
  /\ (forall i img, images !! i = Some img ->
        fs w' !! page_name (Z.of_nat (off + i) + 1) = Some (JpegFile img))
  /\ (forall path,
        (forall i, i < length images -> path <> page_name (Z.of_nat (off + i) + 1)) ->
        fs w' !! path = fs w !! path).
Proof.
  induction images as [|x xs IH]; intros off acc w.
  - exists w. simpl. rewrite app_nil_r. repeat split; done.
  - destruct (body_saves (off + 0) x acc w) as [u Hbody].
    set (w1 := World _ u (net w)) in Hbody.
    destruct (IH (S off) (acc ++ [page_name (Z.of_nat (off + 0) + 1)]) w1)
      as (w' & Hrun & Hnet & Hsaved & Hother).
    exists w'. split; [|split; [|split]].
    + cbn [imap for_each length seq map]. erewrite bind_return by exact Hbody.
      rewrite (imap_ext _ (fun i y => (S off + i, y)) xs)
        by (intros; simpl; f_equal; lia).
      rewrite Hrun, <- app_assoc. simpl.
      by replace (Z.of_nat (off + 0) + 1)%Z with (Z.of_nat (S off)) by lia.
    + by rewrite Hnet.
    + intros [|i] img Hi; simplify_eq/=.
      * rewrite Hother.
        { simpl. apply lookup_insert_eq. }
        intros i _ Heq. apply page_name_inj in Heq. lia.
      * replace (off + S i) with (S off + i) by lia. by apply Hsaved.
    + intros path Hpath. rewrite Hother.
      * simpl. apply lookup_insert_ne. intros <-. by apply (Hpath 0); simpl; [lia|].
      * intros i Hi. replace (S off + i) with (off + S i) by lia.
        apply Hpath. simpl. lia.
Qed.
End SavePages.

Lemma call_return {A} (r : exn + A) a w : r = inr a -> call r w = (Return a, w).
Proof. by intros ->. Qed.

(** C8. For a page range [first <= last] for which the rasterizer gives one
    image per page, [pdf_to_jpg] of [pdf2csv.py] returns the
    [last - first + 1] names [page_1.jpg], ..., [page_<last - first + 1>.jpg]
    (numbered from 1 by position in the range), all different; the [i]-th
    image (from 0) is the file [page_<i + 1>.jpg], and no other file
    changes. *)
Theorem pdf_to_jpg_page_range (E : externals) (pdf_bytes : string) (first last : Z)
    (userpw popplerLoc : string) (images : list image) (w : world) :
  (first <= last)%Z ->
  convert_from_bytes E pdf_bytes 500 (Some first) (Some last) userpw popplerLoc = inr images ->
  Z.of_nat (length images) = (last - first + 1)%Z ->
  exists w',
    Pdf2csv.pdf_to_jpg E pdf_bytes first last userpw popplerLoc w
    = (Return (page_names (length images)), w')
    /\ Z.of_nat (length (page_names (length images))) = (last - first + 1)%Z
    /\ NoDup (page_names (length images))
    /\ (forall i img, images !! i = Some img ->
          fs w' !! ("page_" +:+ Py.str_of_int (Z.of_nat i + 1) +:+ ".jpg")
          = Some (JpegFile img))
    /\ (forall path, path ∉ page_names (length images) -> fs w' !! path = fs w !! path).
Proof.
  intros _ Hconv Hlen.
  destruct (fun H => save_pages_loop
    (fun '(i, image) jpg_files =>
       let img_filename := "page_" +:+ Py.str_of_int (Z.of_nat i + 1) +:+ ".jpg" in
       image_save image img_filename ;;;
       let jpg_files := jpg_files ++ [img_filename] in
       st_write ("Converted to JPG...Saving to: " +:+ img_filename) ;;;
       ret jpg_files) H images 0 [] w) as (w' & Hrun & _ & Hsaved & Hother).
  { intros i img acc w0.
    by exists (ui w0 ++ [UiWrite ("Converted to JPG...Saving to: "
                                  +:+ page_name (Z.of_nat i + 1))]). }
  exists w'. split; [|split; [|split; [|split]]].
  - unfold Pdf2csv.pdf_to_jpg. erewrite bind_return by (by apply call_return).
    exact Hrun.
  - by rewrite page_names_length.
  - apply page_names_NoDup.
  - intros i img Hi. by apply Hsaved.
  - intros path Hpath. apply Hother. intros i Hi ->. apply Hpath.
    apply page_names_elem. by exists i.
Qed.

Lemma pdf_to_jpg_page_range_sample :
  (3 <= 5)%Z
  /\ exists w',
       Pdf2csv.pdf_to_jpg (Sample.externals None) "%PDF-1.7" 3 5 "" "/opt/PopplerPath"
         Sample.after_ocr
       = (Return ["page_1.jpg"; "page_2.jpg"; "page_3.jpg"], w')
       /\ fs w' !! "page_1.jpg" = Some (JpegFile (Image "scan of page 3")).
Proof.
  split; [lia|].
  destruct (pdf_to_jpg_page_range (Sample.externals None) "%PDF-1.7" 3 5 "" "/opt/PopplerPath"
              [Image "scan of page 3"; Image "scan of page 4"; Image "scan of page 5"]
              Sample.after_ocr ltac:(lia) eq_refl eq_refl)
    as (w' & Hrun & _ & _ & Hsaved & _).
  exists w'. split; [exact Hrun|]. exact (Hsaved 0 _ eq_refl).
Defined.

(** The same naming in [main.py], which rasterizes the whole document. *)
Lemma main_pdf_to_jpg_names (E : externals) (pdf_bytes userpw popplerLoc : string)
    (images : list image) (w : world) :
  convert_from_bytes E pdf_bytes 500 None None userpw popplerLoc = inr images ->
  exists w',
    Main.pdf_to_jpg E pdf_bytes userpw popplerLoc w = (Return (page_names (length images)), w')
    /\ (forall i img, images !! i = Some img ->
          fs w' !! page_name (Z.of_nat i + 1) = Some (JpegFile img)).
Proof.
  intros Hconv.
  destruct (fun H => save_pages_loop
    (fun '(i, image) jpg_files =>
       let img_filename := "page_" +:+ Py.str_of_int (Z.of_nat i + 1) +:+ ".jpg" in
       image_save image img_filename ;;;
       ret (jpg_files ++ [img_filename])) H images 0 [] w) as (w' & Hrun & _ & Hsaved & _).
  { intros i img acc w0. by exists (ui w0). }
  exists w'. split.
  - unfold Main.pdf_to_jpg. erewrite bind_return by (by apply call_return). exact Hrun.
  - intros i img Hi. by apply Hsaved.
Qed.

(** ** The analysis adapter *)

(** C6. With no [GEMINI_API_KEY] in the environment, the analysis of
    [pdf2csv.py] shows the key-not-found error and returns no result, and
    [main.py] shows its key-not-found error and stops before the pipeline
    starts; in both, no prompt is sent and no file of the working directory
    is written, [output.csv] included. *)
Theorem no_api_key_no_request (E : externals) (csv_content : string) (w : world) :
  environ E "GEMINI_API_KEY" = None ->
  (exists w',
     Pdf2csv.analyze_csv_with_gemini E csv_content w = (Return None, w')
     /\ ui w' = ui w ++ [UiError
          "API key not found. Please set the GEMINI_API_KEY environment variable."]
     /\ net w' = net w
     /\ fs w' = fs w
     /\ fs w' !! "output.csv" = fs w !! "output.csv")
  /\ (exists w',
        Main.script E w = (Stopped, w')
        /\ ui w' = ui w ++ [UiError "API key not found. Please check your .env file."]
        /\ net w' = net w
        /\ fs w' = fs w
        /\ fs w' !! "output.csv" = fs w !! "output.csv").
Proof.
  intros Hkey. split.
  - eexists. unfold Pdf2csv.analyze_csv_with_gemini, Pdf2csv.get_api_key.
    rewrite Hkey. simpl. split; [reflexivity|]. done.
  - eexists. unfold Main.script. rewrite Hkey. split; [reflexivity|]. done.
Qed.

Lemma no_api_key_no_request_sample :
  environ (Sample.externals None) "GEMINI_API_KEY" = None
  /\ exists w',
       Pdf2csv.analyze_csv_with_gemini (Sample.externals None) "a,b" Sample.after_ocr
       = (Return None, w')
       /\ net w' = [].
Proof.
  split; [reflexivity|].
  destruct (no_api_key_no_request (Sample.externals None) "a,b" Sample.after_ocr eq_refl)
    as [(w' & Hrun & _ & Hnet & _) _].
  exists w'. split; [exact Hrun|exact Hnet].
Defined.

(** [pdf2csv.py] treats an empty key like a missing one. *)
Lemma empty_api_key_no_request (E : externals) (csv_content : string) (w : world) :
  environ E "GEMINI_API_KEY" = Some EmptyString ->
  exists w',
    Pdf2csv.analyze_csv_with_gemini E csv_content w = (Return None, w')
    /\ net w' = net w /\ fs w' = fs w.
Proof.
  intros Hkey. eexists. unfold Pdf2csv.analyze_csv_with_gemini, Pdf2csv.get_api_key.
  rewrite Hkey. simpl. split; [reflexivity|]. done.
Qed.

Ltac run :=
  unfold try_except, bind, getattr_call, request, call_, call, raise, ret, hasattr_text,
    getattr_text, st_error, st_write, st_success, st_title, show, open_write in *;
  cbn -[String.append] in *.

(** Whatever the service does, the analysis of [main.py] returns, and the
    only file it may write is the one it is given. *)
Lemma main_analysis_returns (E : externals) (csv_content : list string)
    (output_filename : string) (w : world) :
  exists result w',
    Main.analyze_csv_with_gemini E csv_content output_filename w = (Return result, w')
    /\ forall path, path <> output_filename -> fs w' !! path = fs w !! path.
Proof.
  unfold Main.analyze_csv_with_gemini. run.
  destruct (generate_content E _) as [e|[[|e|v]]]; run.
  - destruct (exn_cls e); run; do 2 eexists; (split; [reflexivity|done]).
  - do 2 eexists. split; [reflexivity|]. intros path Hne. run. by apply lookup_insert_ne.
  - destruct (exn_cls e) eqn:Hcls; run; rewrite ?Hcls; run;
      do 2 eexists; (split; [reflexivity|]); intros path Hne; run;
      try done; by apply lookup_insert_ne.
  - do 2 eexists. split; [reflexivity|]. intros path Hne. run. by apply lookup_insert_ne.
Qed.

(** An exception of the service call, or of reading the answer's text, ends
    in the handler of its class: the error is shown and no file is written. *)
Lemma main_analysis_reports (E : externals) (csv_content : list string)
    (output_filename : string) (w : world) (e : exn) :
  let prompt := "just convert the text errors and display it in csv" +:+ nl
                  +:+ str_of_list E csv_content in
  generate_content E prompt = inl e
  \/ (exists r, generate_content E prompt = inr r
                /\ response_text r = AttrRaises e /\ exn_cls e <> AttributeError) ->
  exists result report,
    Main.analyze_csv_with_gemini E csv_content output_filename w
    = (Return result,
       World (fs w) (ui w ++ [UiError (report +:+ exn_msg e)]) (net w ++ [prompt])).
Proof.
  intros prompt Hfail. unfold Main.analyze_csv_with_gemini. fold prompt. run.
  destruct Hfail as [->|([a] & -> & Ha & Hcls)].
  - destruct (exn_cls e); run; do 2 eexists; reflexivity.
  - simpl in Ha. subst a. run.
    destruct (exn_cls e) eqn:Hc; [| done |]; run; rewrite Hc; do 2 eexists; reflexivity.
Qed.

(** [main] of [main.py] never lets an exception out. *)
Lemma main_main_no_raise (E : externals) (w : world) (e : exn) :
  (Main.main E w).1 <> Raise e.
Proof.
  unfold Main.main. run.
  destruct (file_uploader E) as [pdf_bytes|]; [|done].
  destruct (button E "Convert"); [|done].
  match goal with |- context [match ?body with _ => _ end] => destruct body as [[r|e'|] w1] end;
    done.
Qed.

(** With a key and a client that could be set up, a failure of
    [model.generate(prompt)] in [pdf2csv.py], be it the missing attribute
    or an exception of the call, is shown and the analysis returns [None]. *)
Lemma pdf2csv_analysis_reports (E : externals) (csv_content api_key : string) (w : world) :
  let prompt :=
    "Analyze the following CSV data and extract details along with the selected checkboxes:"
      +:+ nl +:+ csv_content in
  environ E "GEMINI_API_KEY" = Some api_key ->
  api_key <> EmptyString ->
  genai_configure E api_key = None ->
  GenerativeModel E "gemini-1.5-flash" = None ->
  (generate E = None ->
   Pdf2csv.analyze_csv_with_gemini E csv_content w
   = (Return None,
      World (fs w)
        (ui w ++ [UiError ("An error occurred while analyzing the CSV with Gemini AI: "
                           +:+ "'GenerativeModel' object has no attribute 'generate'")])
        (net w)))
  /\ (forall method e,
        generate E = Some method -> method prompt = inl e ->
        Pdf2csv.analyze_csv_with_gemini E csv_content w
        = (Return None,
           World (fs w)
             (ui w ++ [UiError ("An error occurred while analyzing the CSV with Gemini AI: "
                                +:+ exn_msg e)])
             (net w ++ [prompt]))).
Proof.
  intros prompt Hkey Hne Hconf Hmodel.
  unfold Pdf2csv.analyze_csv_with_gemini, Pdf2csv.get_api_key. fold prompt.
  rewrite Hkey. destruct api_key as [|c k]; [done|].
  cbn -[String.append]. rewrite Hconf, Hmodel. split.
  - intros ->. reflexivity.
  - intros method e -> Hgen. run. by rewrite Hgen.
Qed.

(** An answer without a readable [text] attribute is no error for
    [main.py]: the placeholder is shown and written in its place. *)
Lemma main_analysis_placeholder (E : externals) (csv_content : list string)
    (output_filename : string) (r : response) (w : world) :
  generate_content E ("just convert the text errors and display it in csv" +:+ nl
                      +:+ str_of_list E csv_content) = inr r ->
  response_text r = AttrMissing
  \/ (exists e, response_text r = AttrRaises e /\ exn_cls e = AttributeError) ->
  exists w',
    Main.analyze_csv_with_gemini E csv_content output_filename w
    = (Return output_filename, w')
    /\ fs w' = <[output_filename := TextFile "No response text found"]> (fs w)
    /\ ui w' = ui w ++ [UiWrite "No response text found";
                        UiWrite ("Saved Gemini analysis to CSV: " +:+ output_filename)].
Proof.
  intros Hgen Hattr. unfold Main.analyze_csv_with_gemini. run. rewrite Hgen.
  destruct r as [a]. cbn [response_text] in *.
  destruct Hattr as [->|(e & -> & Hcls)]; run; rewrite ?Hcls; run;
    (eexists; split; [reflexivity|]; cbn [fs ui]; by rewrite <- app_assoc).
Qed.

(** C7, as the code has it. An exception of the language-model call is
    caught and shown, and the files written before it stay as they are.
    In [main.py] the analysis always returns and can write no file but its
    own output file; when the service call raises [e], or reading the
    answer's text raises an [e] that is no [AttributeError], the error is
    shown and no file is written at all; an answer whose text is missing or
    raises [AttributeError] is no error to the code, which shows and writes
    the words [No response text found] in its place; and [main] lets no
    exception out.  In [pdf2csv.py], once the key is there and the client is
    set up, a missing [generate] attribute or an exception [e] of the call
    is shown, the analysis returns [None] and no file is written. *)
Theorem analysis_errors_are_caught (E : externals) (w : world) (e : exn) :
  (forall csv_content output_filename,
     exists result w',
       Main.analyze_csv_with_gemini E csv_content output_filename w = (Return result, w')
       /\ forall path, path <> output_filename -> fs w' !! path = fs w !! path)
  /\ (forall csv_content output_filename,
        let prompt := "just convert the text errors and display it in csv" +:+ nl
                        +:+ str_of_list E csv_content in
        generate_content E prompt = inl e
        \/ (exists r, generate_content E prompt = inr r
                      /\ response_text r = AttrRaises e /\ exn_cls e <> AttributeError) ->
        exists result report w',
          Main.analyze_csv_with_gemini E csv_content output_filename w = (Return result, w')
          /\ fs w' = fs w
          /\ ui w' = ui w ++ [UiError (report +:+ exn_msg e)])
  /\ (forall csv_content output_filename r,
        generate_content E ("just convert the text errors and display it in csv" +:+ nl
                            +:+ str_of_list E csv_content) = inr r ->
        response_text r = AttrMissing
        \/ (response_text r = AttrRaises e /\ exn_cls e = AttributeError) ->
        exists w',
          Main.analyze_csv_with_gemini E csv_content output_filename w
          = (Return output_filename, w')
          /\ fs w' = <[output_filename := TextFile "No response text found"]> (fs w)
          /\ ui w' = ui w ++ [UiWrite "No response text found";
                              UiWrite ("Saved Gemini analysis to CSV: " +:+ output_filename)])
  /\ (forall e', (Main.main E w).1 <> Raise e')
  /\ (forall csv_content api_key,
        environ E "GEMINI_API_KEY" = Some api_key ->
        api_key <> EmptyString ->
        genai_configure E api_key = None ->
        GenerativeModel E "gemini-1.5-flash" = None ->
        (generate E = None ->
         exists w',
           Pdf2csv.analyze_csv_with_gemini E csv_content w = (Return None, w')
           /\ fs w' = fs w /\ net w' = net w
           /\ ui w' = ui w ++ [UiError
                ("An error occurred while analyzing the CSV with Gemini AI: "
                 +:+ "'GenerativeModel' object has no attribute 'generate'")])
        /\ (forall method,
              generate E = Some method ->
              method ("Analyze the following CSV data and extract details along with the selected checkboxes:"
                      +:+ nl +:+ csv_content) = inl e ->
              exists w',
                Pdf2csv.analyze_csv_with_gemini E csv_content w = (Return None, w')
                /\ fs w' = fs w
                /\ ui w' = ui w ++ [UiError
                     ("An error occurred while analyzing the CSV with Gemini AI: "
                      +:+ exn_msg e)])).
Proof.
  split; [|split; [|split; [|split]]].
  - intros. apply main_analysis_returns.
  - intros csv_content output_filename prompt Hfail.
    destruct (main_analysis_reports E csv_content output_filename w e Hfail)
      as (result & report & Hrun).
    exists result, report. eexists. split; [exact Hrun|]. done.
  - intros csv_content output_filename r Hgen Hattr.
    apply (main_analysis_placeholder E csv_content output_filename r w Hgen).
    destruct Hattr as [?|[??]]; [by left|right; by exists e].
  - intros e'. apply main_main_no_raise.
  - intros csv_content api_key Hkey Hne Hconf Hmodel.
    destruct (pdf2csv_analysis_reports E csv_content api_key w Hkey Hne Hconf Hmodel)
      as [Hmissing Hraises].
    split.
    + intros Hnone. eexists. split; [by apply Hmissing|]. done.
    + intros method Hsome Hgen. eexists. split; [by eapply Hraises|]. done.
Qed.

Lemma analysis_errors_are_caught_sample :
  generate_content (Sample.externals (Some "key"))
    ("just convert the text errors and display it in csv" +:+ nl +:+ "a,b")
  = inl (Exn OtherException "503 Service Unavailable")
  /\ (exists result w',
        Main.analyze_csv_with_gemini (Sample.externals (Some "key")) ["a,b"]
          "gemini_analysis_output.csv" Sample.after_ocr = (Return result, w')
        /\ fs w' = fs Sample.after_ocr)
  /\ (exists w',
        Pdf2csv.analyze_csv_with_gemini (Sample.externals (Some "key")) "a,b"
          Sample.after_ocr = (Return None, w')
        /\ fs w' = fs Sample.after_ocr /\ net w' = []).
Proof.
  split; [reflexivity|]. split.
  - destruct (proj1 (proj2 (analysis_errors_are_caught (Sample.externals (Some "key"))
                Sample.after_ocr (Exn OtherException "503 Service Unavailable")))
                ["a,b"] "gemini_analysis_output.csv" (or_introl eq_refl))
      as (result & report & w' & Hrun & Hfs & _).
    exists result, w'. split; [exact Hrun|exact Hfs].
  - destruct (proj1 (proj2 (proj2 (proj2 (proj2 (analysis_errors_are_caught
                (Sample.externals (Some "key")) Sample.after_ocr
                (Exn OtherException "503 Service Unavailable")))))
                "a,b" "key" eq_refl ltac:(discriminate) eq_refl eq_refl) eq_refl)
      as (w' & Hrun & Hfs & Hnet & _).
    exists w'. split; [exact Hrun|]. split; [exact Hfs|exact Hnet].
Defined.

(** C7, as stated, fails in two ways.  In [main.py] an answer whose text
    raises [AttributeError] is not reported: the analysis returns the file
    name as after a success and the page shows the placeholder and the
    saved-to message, no error.  In [pdf2csv.py] an exception of
    [genai.configure] is raised before the [try]: the analysis raises it,
    and so does [main]. *)
Lemma analysis_errors_not_all_reported :
  Main.analyze_csv_with_gemini
    (Demo.with_service
       (fun _ => inr (Response (AttrRaises (Exn AttributeError "no text in the answer"))))
       (Sample.externals (Some "key")))
    ["a,b"] "gemini_analysis_output.csv" Sample.after_ocr
  = (Return "gemini_analysis_output.csv",
     World (<["gemini_analysis_output.csv" := TextFile "No response text found"]>
              (fs Sample.after_ocr))
       [UiWrite "No response text found";
        UiWrite "Saved Gemini analysis to CSV: gemini_analysis_output.csv"]
       ["just convert the text errors and display it in csv" +:+ nl +:+ "a,b"])
  /\ Pdf2csv.analyze_csv_with_gemini
       (Demo.with_client (fun _ => Some (Exn OtherException "invalid key")) (fun _ => None)
          (Sample.externals (Some "key")))
       "a,b" Sample.after_ocr
     = (Raise (Exn OtherException "invalid key"), Sample.after_ocr)
  /\ (Pdf2csv.main
        (Demo.with_client (fun _ => Some (Exn OtherException "invalid key")) (fun _ => None)
           (Sample.externals (Some "key")))
        (World ∅ [] [])).1
     = Raise (Exn OtherException "invalid key").
Proof. split; [reflexivity|]. split; [reflexivity|]. vm_compute. reflexivity. Qed.

(** ** Whole runs *)

(** [main.py] on a one-page upload while the service is down: the run
    ends normally, the error is on the page, and the three artifacts of the
    conversion are in the working directory. *)
Example main_run_service_down :
  let r := Main.script (Sample.externals (Some "key")) (World ∅ [] []) in
  r.1 = Return tt
  /\ fs r.2 !! "page_1.jpg" = Some (JpegFile (Image "scan of page 1"))
  /\ fs r.2 !! "page_1.txt" = Some (TextFile Sample.page_1_text)
  /\ fs r.2 !! "output.csv" = Some (TextFile ("John,Doe,Age:,30" +:+ nl +:+ "a,,b" +:+ nl))
  /\ fs r.2 !! "gemini_analysis_output.csv" = None
  /\ UiError "An unexpected error occurred: 503 Service Unavailable" ∈ ui r.2.
Proof. vm_compute. repeat split. set_solver. Qed.

(** [pdf2csv.py] on the pages 3 to 5 with no key: three images, three text
    files and [output.csv] are written, no prompt is sent. *)
Example pdf2csv_run_no_key :
  let r := Pdf2csv.script (Sample.externals None) (World ∅ [] []) in
  r.1 = Return tt
  /\ dom (fs r.2)
     = list_to_set ["page_1.jpg"; "page_2.jpg"; "page_3.jpg";
                    "page_1.txt"; "page_2.txt"; "page_3.txt"; "output.csv"]
  /\ fs r.2 !! "page_1.jpg" = Some (JpegFile (Image "scan of page 3"))
  /\ net r.2 = [].
Proof. vm_compute. repeat split. Qed.

(** * Further properties of the code *)

(** ** The reformatter, continued *)

Lemma open_readlines_world path w : (open_readlines path w).2 = w.
Proof. unfold open_readlines. by destruct (fs w !! path) as [[?|?]|]. Qed.

Lemma txt_to_csv_loop_world paths : forall acc w,
  (for_each paths (fun txt_file converted_list =>
     lines <- open_readlines txt_file ;;
     for_each lines (fun line converted_list =>
       ret (converted_list ++ [Main.cleaned_line line])) converted_list) acc w).2 = w.
Proof.
  induction paths as [|path paths IH]; intros acc w; [done|]. simpl.
  unfold bind at 1. unfold bind at 1.
  pose proof (open_readlines_world path w) as Hw.
  destruct (open_readlines path w) as [[lines|e|] w1]; simpl in Hw; subst w1; [|done..].
  rewrite for_each_append. apply IH.
Qed.

(** X1. [txt_to_csv] only reads: whatever the files are, and whether it
    returns or raises, it leaves the working directory, the page and the
    list of sent prompts as they were. *)
Theorem txt_to_csv_only_reads (paths : list string) (w : world) :
  (Main.txt_to_csv paths w).2 = w /\ (Pdf2csv.txt_to_csv paths w).2 = w.
Proof. split; apply txt_to_csv_loop_world. Qed.

Lemma for_each_app {A S} (xs ys : list A) (body : A -> S -> M S) s w :
  for_each (xs ++ ys) body s w = (s' <- for_each xs body s ;; for_each ys body s') w.
Proof.
  revert s w. induction xs as [|x xs IH]; intros s w; simpl; [done|].
  unfold bind. destruct (body x s w) as [[s'|e|] w1]; [|done..].
  rewrite IH. done.
Qed.

(** X2. A path that holds no text file stops [txt_to_csv]: it raises
    there, returns none of the lines it had collected from the files
    before, and does not look at the files after. *)
Theorem txt_to_csv_unreadable_file (w : world) (good texts : list string) (bad : string)
    (rest : list string) :
  holds_texts w good texts ->
  (forall text, fs w !! bad <> Some (TextFile text)) ->
  exists e,
    Main.txt_to_csv (good ++ bad :: rest) w = (Raise e, w)
    /\ Pdf2csv.txt_to_csv (good ++ bad :: rest) w = (Raise e, w).
Proof.
  intros Hgood Hbad.
  assert (exists e, Main.txt_to_csv (good ++ bad :: rest) w = (Raise e, w)) as [e He].
  { unfold Main.txt_to_csv. rewrite for_each_app.
    erewrite bind_return by (by apply txt_to_csv_loop). simpl.
    unfold bind, open_readlines.
    destruct (fs w !! bad) as [[text|img]|] eqn:Hlook; [by destruct (Hbad text)|..];
      by eexists. }
  exists e. split; [exact He|]. rewrite txt_to_csv_variants. exact He.
Qed.

Lemma txt_to_csv_unreadable_file_sample :
  holds_texts Sample.after_ocr ["page_1.txt"] [Sample.page_1_text]
  /\ exists e,
       Main.txt_to_csv (["page_1.txt"] ++ "page_3.txt" :: ["page_2.txt"]) Sample.after_ocr
       = (Raise e, Sample.after_ocr).
Proof.
  assert (holds_texts Sample.after_ocr ["page_1.txt"] [Sample.page_1_text]) as H.
  { repeat constructor. }
  split; [exact H|].
  destruct (txt_to_csv_unreadable_file Sample.after_ocr _ _ "page_3.txt" ["page_2.txt"] H)
    as (e & He & _).
  { intros text. vm_compute. discriminate. }
  exists e. exact He.
Defined.

(** X3. The commas of an output line are the spaces of the input line, one
    for one (the commas of the input are gone), and the output line is
    shorter than the input line by the number of its commas and double
    quotes. *)
Theorem cleaned_line_separator_count (line : string) :
  count_char Py.comma (Main.cleaned_line line) = count_char Py.space line
  /\ String.length (Main.cleaned_line line)
       + count_char Py.comma line + count_char Py.dquote line
     = String.length line
  /\ count_char Py.comma (Pdf2csv.strings_without_inverted_commas line)
     = count_char Py.space line
  /\ String.length (Pdf2csv.strings_without_inverted_commas line)
       + count_char Py.comma line + count_char Py.dquote line
     = String.length line.
Proof.
  assert (count_char Py.comma (Main.cleaned_line line) = count_char Py.space line) as Hc.
  { rewrite cleaned_line_chars. induction line as [|a s IH]; [done|].
    simpl. rewrite count_char_app, IH. f_equal. unfold clean_char. case_chars. }
  assert (String.length (Main.cleaned_line line)
            + count_char Py.comma line + count_char Py.dquote line
          = String.length line) as Hl.
  { clear Hc. rewrite cleaned_line_chars. induction line as [|a s IH]; [done|].
    cbn [concat_map count_char String.length]. rewrite length_app_s.
    assert (String.length (clean_char a)
              + (if decide (a = Py.comma) then 1 else 0)
              + (if decide (a = Py.dquote) then 1 else 0) = 1); [|lia].
    unfold clean_char. repeat case_decide; simplify_eq; done. }
  done.
Qed.

Lemma without_separators_chars line :
  without_separators line
  = concat_map (fun a =>
      if decide (a = Py.comma) then EmptyString
      else if decide (a = Py.space) then EmptyString
      else if decide (a = Py.dquote) then EmptyString
      else String a EmptyString) line.
Proof.
  unfold without_separators. rewrite !remove_every_chars, !concat_map_compose.
  apply concat_map_ext. intros a. case_chars.
Qed.

Lemma cleaned_twice_chars line :
  Main.cleaned_line (Main.cleaned_line line) = without_separators line.
Proof.
  rewrite without_separators_chars, !cleaned_line_chars, concat_map_compose.
  apply concat_map_ext. intros a. unfold clean_char. case_chars.
Qed.

(** X4. Two passes of the reformatter remove every comma, space and double
    quote of the line and keep the rest in order; a third pass changes
    nothing more. *)
Theorem cleaned_line_settles_after_two_passes (line : string) :
  Main.cleaned_line (Main.cleaned_line line) = without_separators line
  /\ Main.cleaned_line (Main.cleaned_line (Main.cleaned_line line))
     = Main.cleaned_line (Main.cleaned_line line)
  /\ Pdf2csv.strings_without_inverted_commas
       (Pdf2csv.strings_without_inverted_commas
          (Pdf2csv.strings_without_inverted_commas line))
     = Pdf2csv.strings_without_inverted_commas
         (Pdf2csv.strings_without_inverted_commas line).
Proof.
  assert (Main.cleaned_line (Main.cleaned_line (Main.cleaned_line line))
          = Main.cleaned_line (Main.cleaned_line line)) as H3.
  { rewrite (cleaned_twice_chars line), without_separators_chars, cleaned_line_chars,
      concat_map_compose.
    apply concat_map_ext. intros a. unfold clean_char. case_chars. }
  split; [apply cleaned_twice_chars|]. split; exact H3.
Qed.

(** ** Writing and reading back [output.csv] *)

Lemma join_cons x xs : Py.join (x :: xs) = x +:+ Py.join xs.
Proof. reflexivity. Qed.

(** The [for entry in data: fout.write(entry)] loop of [pdf2csv.py]. *)
Lemma file_write_loop (name : string) data : forall t w,
  fs w !! name = Some (TextFile t) ->
  for_each data (fun entry _ => file_write name entry) tt w
  = (Return tt, World (<[name := TextFile (t +:+ Py.join data)]> (fs w)) (ui w) (net w)).
Proof.
  induction data as [|x xs IH]; intros t w Hname.
  - simpl. unfold ret. rewrite app_empty_r, insert_id by done. by destruct w.
  - cbn [for_each]. unfold bind, file_write at 1. rewrite Hname.
    rewrite (IH (t +:+ x)) by (cbn [fs]; apply lookup_insert_eq).
    cbn [fs ui net]. by rewrite insert_insert_eq, join_cons, app_assoc_s.
Qed.

Lemma main_save_as_csv_run data filename w :
  Main.save_as_csv data filename w
  = (Return (Py.with_suffix filename ".csv"),
     World (<[Py.with_suffix filename ".csv" := TextFile (Py.join data)]> (fs w))
       (ui w) (net w)).
Proof. reflexivity. Qed.

Lemma pdf2csv_save_as_csv_run data filename w :
  Pdf2csv.save_as_csv data filename w
  = (Return (Py.with_suffix filename ".csv"),
     World (<[Py.with_suffix filename ".csv" := TextFile (Py.join data)]> (fs w))
       (ui w ++ [UiWrite ("Converted to CSV...Saving to: "
                          +:+ Py.with_suffix filename ".csv")])
       (net w)).
Proof.
  unfold Pdf2csv.save_as_csv, Pdf2csv.get_path_of_source.
  unfold bind at 1. unfold st_write, show. unfold bind at 1. unfold open_write.
  unfold bind at 1. erewrite file_write_loop by (cbn [fs]; apply lookup_insert_eq).
  cbn [fs ui net ret]. by rewrite insert_insert_eq.
Qed.

Lemma plain_no_dot (s : string) :
  plain s = true -> contains "." s = false /\ s <> EmptyString.
Proof.
  intros Hplain. split; [|by intros ->].
  assert (all_chars (fun c => bool_decide (c <> "."%char /\ c <> "/"%char
                                         /\ c <> "092"%char /\ c <> ":"%char)) s = true)
    as Hall by (by destruct s).
  clear Hplain. induction s as [|c s IH]; [done|].
  cbn [all_chars] in Hall. apply andb_true_iff in Hall as [Hc Hs].
  apply bool_decide_eq_true in Hc as [Hdot _].
  simpl. rewrite decide_False by done. by apply IH.
Qed.

Lemma with_suffix_plain (name new : string) :
  plain name = true -> Py.with_suffix name new = name +:+ new.
Proof.
  intros [Hdot _]%plain_no_dot.
  assert (Py.rfind_dot name = None) as Hrfind.
  { induction name as [|c name IH]; [done|]. simpl in *.
    destruct (decide (c = "."%char)); [done|]. by rewrite IH. }
  unfold Py.with_suffix, Py.suffix. rewrite Hrfind. cbn [String.length].
  rewrite Nat.sub_0_r. f_equal.
  clear. induction name as [|c name IH]; [done|]. simpl. by rewrite IH.
Qed.

(** X5. For a plain [filename] (such as [output]: not empty, no dot, no
    path separator), [save_as_csv] puts the lines, joined without any
    separator, into the file [filename.csv], replacing what that file held
    and touching no other file; the single [writelines] of [main.py] and
    the loop of [write] calls of [pdf2csv.py] leave the same file store. *)
Theorem save_as_csv_writes_joined_lines (data : list string) (filename : string)
    (w : world) :
  plain filename = true ->
  (exists w1,
     Main.save_as_csv data filename w = (Return (filename +:+ ".csv"), w1)
     /\ fs w1 = <[filename +:+ ".csv" := TextFile (Py.join data)]> (fs w)
     /\ net w1 = net w)
  /\ (exists w2,
        Pdf2csv.save_as_csv data filename w = (Return (filename +:+ ".csv"), w2)
        /\ fs w2 = <[filename +:+ ".csv" := TextFile (Py.join data)]> (fs w)
        /\ net w2 = net w).
Proof.
  intros Hplain. rewrite <- (with_suffix_plain filename ".csv" Hplain).
  split; eexists.
  - split; [apply main_save_as_csv_run|done].
  - split; [apply pdf2csv_save_as_csv_run|done].
Qed.

Lemma save_as_csv_writes_joined_lines_sample :
  plain "output" = true
  /\ exists w2,
       Pdf2csv.save_as_csv ["a,b" +:+ nl; "c" +:+ nl] "output" Sample.after_ocr
       = (Return "output.csv", w2)
       /\ fs w2 = <["output.csv" := TextFile ("a,b" +:+ nl +:+ "c" +:+ nl)]>
                    (fs Sample.after_ocr).
Proof.
  split; [reflexivity|].
  destruct (proj2 (save_as_csv_writes_joined_lines ["a,b" +:+ nl; "c" +:+ nl] "output"
                     Sample.after_ocr eq_refl)) as (w2 & Hrun & Hfs & _).
  exists w2. split; [exact Hrun|exact Hfs].
Defined.

Lemma readlines_complete_cons body rest :
  contains Py.newline body = false ->
  Py.readlines (body +:+ nl +:+ rest) = (body +:+ nl) :: Py.readlines rest.
Proof.
  induction body as [|c body IH]; intros Hbody.
  - reflexivity.
  - simpl in Hbody. destruct (decide (c = Py.newline)) as [|Hc]; [done|].
    rewrite !app_cons. cbn [Py.readlines]. rewrite decide_False by done.
    by rewrite IH.
Qed.

Lemma readlines_join lines :
  Forall complete_line lines -> Py.readlines (Py.join lines) = lines.
Proof.
  induction 1 as [|l lines (body & -> & Hbody) _ IH]; [done|].
  rewrite join_cons, app_assoc_s, readlines_complete_cons by done. by rewrite IH.
Qed.

Lemma readlines_nonempty c rest : Py.readlines (String c rest) <> [].
Proof.
  simpl. destruct (decide (c = Py.newline)); [done|]. by destruct (Py.readlines rest).
Qed.

Lemma readlines_complete text :
  ends_lines text = true -> Forall complete_line (Py.readlines text).
Proof.
  induction text as [|c rest IH]; intros Hends; [constructor|].
  assert (c <> Py.newline -> rest <> EmptyString) as Hrest.
  { intros Hc ->. simpl in Hends. by apply bool_decide_eq_true in Hends. }
  assert (ends_lines rest = true) as Hends'.
  { destruct rest; [done|exact Hends]. }
  specialize (IH Hends'). cbn [Py.readlines].
  destruct (decide (c = Py.newline)) as [->|Hc].
  - constructor; [|done]. by exists EmptyString.
  - destruct rest as [|c' rest']; [by destruct Hrest|].
    pose proof (readlines_nonempty c' rest') as Hne.
    destruct (Py.readlines (String c' rest')) as [|l ls]; [done|].
    inversion IH as [|?? (body & -> & Hbody) Hls]; subst.
    constructor; [|done]. exists (String c body). split; [done|].
    simpl. by rewrite decide_False.
Qed.

Lemma cleaned_line_contains_other c line :
  c <> Py.comma -> c <> Py.space -> c <> Py.dquote ->
  contains c (Main.cleaned_line line) = contains c line.
Proof.
  intros ???. rewrite cleaned_line_chars. induction line as [|a s IH]; [done|].
  simpl. rewrite contains_app, IH. unfold clean_char. case_chars.
Qed.

Lemma cleaned_line_complete l : complete_line l -> complete_line (Main.cleaned_line l).
Proof.
  intros (body & -> & Hbody). exists (Main.cleaned_line body). split.
  - by rewrite cleaned_line_app.
  - by rewrite cleaned_line_contains_other.
Qed.

(** X6. When every page text is empty or ends with a line feed, reading
    [output.csv] back line by line gives exactly the list [txt_to_csv]
    returned: the file has one line per line read, in both variants. *)
Theorem output_csv_reads_back (w : world) (paths texts : list string) :
  holds_texts w paths texts ->
  Forall (fun text => ends_lines text = true) texts ->
  exists out w1 w2,
    Main.txt_to_csv paths w = (Return out, w)
    /\ Main.save_as_csv out "output" w = (Return "output.csv", w1)
    /\ open_readlines "output.csv" w1 = (Return out, w1)
    /\ Pdf2csv.txt_to_csv paths w = (Return out, w)
    /\ Pdf2csv.save_as_csv out "output" w = (Return "output.csv", w2)
    /\ open_readlines "output.csv" w2 = (Return out, w2).
Proof.
  intros Hholds Hends.
  set (out := concat (map (fun text => map Main.cleaned_line (Py.readlines text)) texts)).
  assert (Forall complete_line out) as Hout.
  { subst out. clear Hholds. induction Hends as [|text texts Htext _ IH]; [constructor|].
    simpl. apply Forall_app. split; [|exact IH].
    apply readlines_complete in Htext. clear -Htext.
    induction Htext; constructor; auto using cleaned_line_complete. }
  assert (forall store u n,
            open_readlines "output.csv"
              (World (<["output.csv" := TextFile (Py.join out)]> store) u n)
            = (Return out, World (<["output.csv" := TextFile (Py.join out)]> store) u n))
    as Hread.
  { intros. unfold open_readlines. cbn [fs]. rewrite lookup_insert_eq.
    by rewrite readlines_join. }
  exists out. do 2 eexists. split; [by apply txt_to_csv_pages|].
  split; [apply main_save_as_csv_run|]. split; [apply Hread|].
  split; [rewrite txt_to_csv_variants; by apply txt_to_csv_pages|].
  split; [apply pdf2csv_save_as_csv_run|]. apply Hread.
Qed.

Lemma output_csv_reads_back_sample :
  holds_texts Sample.after_ocr ["page_1.txt"; "page_1.txt"]
    [Sample.page_1_text; Sample.page_1_text]
  /\ Forall (fun text => ends_lines text = true) [Sample.page_1_text; Sample.page_1_text]
  /\ exists out w1,
       Main.save_as_csv out "output" Sample.after_ocr = (Return "output.csv", w1)
       /\ open_readlines "output.csv" w1 = (Return out, w1).
Proof.
  assert (holds_texts Sample.after_ocr ["page_1.txt"; "page_1.txt"]
            [Sample.page_1_text; Sample.page_1_text]) as H1 by (repeat constructor).
  assert (Forall (fun text => ends_lines text = true)
            [Sample.page_1_text; Sample.page_1_text]) as H2 by (repeat constructor).
  split; [exact H1|]. split; [exact H2|].
  destruct (output_csv_reads_back _ _ _ H1 H2) as (out & w1 & _ & _ & Hsave & Hread & _).
  exists out, w1. split; [exact Hsave|exact Hread].
Defined.

(** ** Page file names *)

Lemma pretty_N_go_no_dot (x : N) (s : string) :
  contains "." s = false -> contains "." (pretty_N_go x s) = false.
Proof.
  revert s. induction (N.lt_wf_0 x) as [x _ IH]; intros s Hs.
  destruct (decide (x = 0%N)) as [->|Hx]; [by rewrite pretty_N_go_0|].
  rewrite pretty_N_go_step by lia. apply IH; [apply N.div_lt; lia|].
  simpl. rewrite Hs. unfold pretty_N_char. by repeat case_match.
Qed.

Lemma str_of_int_no_dot (n : Z) : contains "." (Py.str_of_int n) = false.
Proof.
  unfold Py.str_of_int, pretty, pretty_Z. destruct n as [|p|p]; [done|..].
  - unfold pretty, pretty_positive, pretty, pretty_N. rewrite decide_False by done.
    by apply pretty_N_go_no_dot.
  - rewrite contains_app. unfold pretty, pretty_positive, pretty, pretty_N.
    rewrite decide_False by done. by rewrite pretty_N_go_no_dot.
Qed.

Lemma substring_whole (t : string) : String.substring 0 (String.length t) t = t.
Proof. induction t as [|c t IH]; [done|]. simpl. by rewrite IH. Qed.

Lemma substring_app_l (s t : string) : String.substring 0 (String.length s) (s +:+ t) = s.
Proof.
  induction s as [|c s IH]; [by destruct t|]. rewrite app_cons. simpl. by rewrite IH.
Qed.

Lemma substring_app_r (s t : string) k :
  String.substring (String.length s) k (s +:+ t) = String.substring 0 k t.
Proof. induction s as [|c s IH]; [done|]. rewrite app_cons. simpl. by rewrite IH. Qed.

Lemma rfind_dot_app_no_dot (s t : string) :
  contains "." s = false ->
  Py.rfind_dot (s +:+ t) = (fun i => String.length s + i) <$> Py.rfind_dot t.
Proof.
  induction s as [|c s IH]; intros Hs.
  - rewrite app_empty_l. by destruct (Py.rfind_dot t).
  - simpl in Hs. destruct (decide (c = "."%char)) as [|Hc]; [done|].
    rewrite app_cons. cbn [Py.rfind_dot]. rewrite (IH Hs).
    destruct (Py.rfind_dot t); [done|]. simpl. by rewrite decide_False.
Qed.

(** [with_suffix] on a name with one dot, after a non-empty stem and before
    a non-empty extension: the extension is replaced. *)
Lemma with_suffix_replaces (stem ext new : string) :
  contains "." stem = false -> stem <> EmptyString ->
  contains "." ext = false -> ext <> EmptyString ->
  Py.with_suffix (stem +:+ String "." ext) new = stem +:+ new.
Proof.
  intros Hstem Hne Hext Hne'.
  assert (Py.rfind_dot (String "." ext) = Some 0) as Hdot.
  { cbn [Py.rfind_dot].
    replace (Py.rfind_dot ext) with (@None nat); [done|].
    clear Hne'. induction ext as [|c ext IH]; [done|]. simpl in *.
    destruct (decide (c = "."%char)); [done|]. by rewrite <- IH. }
  assert (Py.suffix (stem +:+ String "." ext) = String "." ext) as Hsuffix.
  { unfold Py.suffix. rewrite rfind_dot_app_no_dot, Hdot by done. cbn [fmap option_fmap option_map].
    rewrite Nat.add_0_r, length_app_s. cbn [String.length].
    rewrite bool_decide_eq_true_2.
    - replace (String.length stem + S (String.length ext) - String.length stem)
        with (String.length (String "." ext)) by (simpl; lia).
      by rewrite substring_app_r, substring_whole.
    - destruct stem; [done|]. destruct ext; [done|]. simpl. lia. }
  unfold Py.with_suffix. rewrite Hsuffix, length_app_s.
  replace (_ + _ - _) with (String.length stem) by lia.
  by rewrite substring_app_l.
Qed.

Lemma txt_of_page_name (n : Z) : txt_of (page_name n) = page_txt_name n.
Proof.
  unfold txt_of, page_name, page_txt_name.
  rewrite <- !app_assoc_s.
  change ".jpg" with (String "." "jpg").
  rewrite with_suffix_replaces; [done| |done|done|done].
  rewrite contains_app. by rewrite str_of_int_no_dot.
Qed.

Lemma app_inj_length (s s' t t' : string) :
  String.length s = String.length s' -> s +:+ t = s' +:+ t' -> s = s' /\ t = t'.
Proof.
  revert s'. induction s as [|c s IH]; intros [|c' s'] Hlen H; try done.
  rewrite !app_cons in H. injection H as -> H. injection Hlen as Hlen.
  by destruct (IH s' Hlen H) as [-> ->].
Qed.

(** Names that end differently, in endings of the same length, differ. *)
Lemma app_ne_ending (s s' t t' : string) :
  String.length t = String.length t' -> t <> t' -> s +:+ t <> s' +:+ t'.
Proof.
  intros Hlen Hne H. apply Hne.
  assert (String.length s = String.length s') as Hs.
  { apply (f_equal String.length) in H. rewrite !length_app_s in H. lia. }
  by destruct (app_inj_length _ _ _ _ Hs H).
Qed.

Lemma page_txt_name_not_page_name (a b : Z) : page_txt_name a <> page_name b.
Proof.
  unfold page_txt_name, page_name. rewrite <- !app_assoc_s. by apply app_ne_ending.
Qed.

Lemma page_txt_name_inj (a b : Z) : page_txt_name a = page_txt_name b -> a = b.
Proof.
  unfold page_txt_name, Py.str_of_int. intros H.
  apply (inj (String.app "page_")) in H.
  apply app_inv_tail_s in H. by apply (inj pretty) in H.
Qed.

(** ** The OCR adapter *)

Lemma write_texts_cons store f t jpg_files texts :
  write_texts store (f :: jpg_files) (t :: texts)
  = write_texts (<[txt_of f := TextFile t]> store) jpg_files texts.
Proof. reflexivity. Qed.

Lemma write_texts_other jpg_files : forall texts store p,
  p ∉ map txt_of jpg_files ->
  write_texts store jpg_files texts !! p = store !! p.
Proof.
  induction jpg_files as [|f jpg_files IH]; intros [|t texts] store p Hp; try done.
  rewrite write_texts_cons, IH.
  - apply lookup_insert_ne. intros <-. apply Hp. simpl. by left.
  - intros Hin. apply Hp. simpl. by right.
Qed.

Lemma write_texts_lookup jpg_files : forall texts store i f t,
  NoDup (map txt_of jpg_files) ->
  jpg_files !! i = Some f -> texts !! i = Some t ->
  write_texts store jpg_files texts !! txt_of f = Some (TextFile t).
Proof.
  induction jpg_files as [|f0 jpg_files IH]; intros [|t0 texts] store [|i] f t Hnd Hf Ht;
    simplify_eq/=; rewrite write_texts_cons; apply NoDup_cons in Hnd as [Hnotin Hnd].
  - rewrite write_texts_other by done. apply lookup_insert_eq.
  - by eapply IH.
Qed.

Lemma Forall2_imp_elem {A B} (P Q : A -> B -> Prop) (l : list A) (k : list B) :
  Forall2 P l k -> (forall x y, x ∈ l -> P x y -> Q x y) -> Forall2 Q l k.
Proof.
  induction 1 as [|x y l k Hxy _ IH]; intros Himp; constructor.
  - apply Himp; [by left|done].
  - apply IH. intros x' y' Hin. apply Himp. by right.
Qed.

Section OcrLoop.
  (** The body of the [for jpg_file in jpg_files] loop: it opens the image,
      has it read by the OCR engine [ocr] and writes the text beside it. *)
Variable ocr : image -> exn + string.
Variable body : string -> list string -> M (list string).
Hypothesis body_spec : forall jpg acc w,
  match fs w !! jpg with
  | Some (JpegFile img) =>
      match ocr img with
      | inr text => exists u,
          body jpg acc w
          = (Return (acc ++ [txt_of jpg]),
             World (<[txt_of jpg := TextFile text]> (fs w)) u (net w))
      | inl e => body jpg acc w = (Raise e, w)
      end
  | _ => exists e, body jpg acc w = (Raise e, w)
  end.

Lemma ocr_loop_aligned jpg_files : forall acc w out w',
  for_each jpg_files body acc w = (Return out, w') ->
  out = acc ++ map txt_of jpg_files /\ net w' = net w.
Proof.
  induction jpg_files as [|jpg jpg_files IH]; intros acc w out w' Hrun.
  - simpl in Hrun. injection Hrun as <- <-. by rewrite app_nil_r.
  - cbn [for_each] in Hrun. unfold bind in Hrun.
    pose proof (body_spec jpg acc w) as Hbody.
    destruct (fs w !! jpg) as [[text|img]|].
    + destruct Hbody as [e He]. by rewrite He in Hrun.
    + destruct (ocr img) as [e|text].
      * by rewrite Hbody in Hrun.
      * destruct Hbody as [u Hu]. rewrite Hu in Hrun.
        apply IH in Hrun as [-> Hnet]. by rewrite <- app_assoc.
    + destruct Hbody as [e He]. by rewrite He in Hrun.
Qed.

Lemma ocr_loop_success jpg_files : forall texts acc w,
  Forall2 (fun f t => exists img, fs w !! f = Some (JpegFile img) /\ ocr img = inr t)
    jpg_files texts ->
  (forall f g, f ∈ jpg_files -> g ∈ jpg_files -> txt_of f <> g) ->
  exists w',
    for_each jpg_files body acc w = (Return (acc ++ map txt_of jpg_files), w')
    /\ fs w' = write_texts (fs w) jpg_files texts
    /\ net w' = net w.
Proof.
  induction jpg_files as [|jpg jpg_files IH]; intros texts acc w Himgs Halias.
  - apply Forall2_nil_inv_l in Himgs as ->. exists w. by rewrite app_nil_r.
  - apply Forall2_cons_inv_l in Himgs as (t & texts' & (img & Himg & Hocr) & Himgs & ->).
    pose proof (body_spec jpg acc w) as Hbody. rewrite Himg, Hocr in Hbody.
    destruct Hbody as [u Hu].
    destruct (IH texts' (acc ++ [txt_of jpg])
                (World (<[txt_of jpg := TextFile t]> (fs w)) u (net w)))
      as (w' & Hrun & Hfs & Hnet).
    { eapply Forall2_imp_elem; [exact Himgs|].
      intros f t' Hf (img' & Himg' & Hocr'). exists img'. split; [|done].
      cbn [fs]. rewrite lookup_insert_ne; [done|].
      apply Halias; [by left|by right]. }
    { intros f g Hf Hg. apply Halias; by right. }
    exists w'. cbn [for_each]. erewrite bind_return by exact Hu.
    rewrite Hrun, <- app_assoc. by rewrite write_texts_cons.
Qed.

Lemma ocr_loop_abort good : forall texts bad rest acc w,
  Forall2 (fun f t => exists img, fs w !! f = Some (JpegFile img) /\ ocr img = inr t)
    good texts ->
  (forall f g, f ∈ good -> g ∈ good ++ [bad] -> txt_of f <> g) ->
  match fs w !! bad with
  | Some (JpegFile img) => exists e, ocr img = inl e
  | _ => True
  end ->
  exists e w',
    for_each (good ++ bad :: rest) body acc w = (Raise e, w')
    /\ (forall img, fs w !! bad = Some (JpegFile img) -> ocr img = inl e)
    /\ fs w' = write_texts (fs w) good texts
    /\ net w' = net w.
Proof.
  induction good as [|jpg good IH]; intros texts bad rest acc w Himgs Halias Hbad.
  - apply Forall2_nil_inv_l in Himgs as ->. cbn [app for_each]. unfold bind.
    pose proof (body_spec bad acc w) as Hbody.
    destruct (fs w !! bad) as [[text|img]|].
    + destruct Hbody as [e ->]. by exists e, w.
    + destruct Hbad as [e He]. rewrite He in Hbody. rewrite Hbody. exists e, w.
      split; [done|]. split; [|done]. by intros img' [= <-].
    + destruct Hbody as [e ->]. by exists e, w.
  - apply Forall2_cons_inv_l in Himgs as (t & texts' & (img & Himg & Hocr) & Himgs & ->).
    pose proof (body_spec jpg acc w) as Hbody. rewrite Himg, Hocr in Hbody.
    destruct Hbody as [u Hu].
    assert (txt_of jpg <> bad) as Hne.
    { apply Halias; [by left|]. apply elem_of_app. right. by left. }
    destruct (IH texts' bad rest (acc ++ [txt_of jpg])
                (World (<[txt_of jpg := TextFile t]> (fs w)) u (net w)))
      as (e & w' & Hrun & He & Hfs & Hnet).
    { eapply Forall2_imp_elem; [exact Himgs|].
      intros f t' Hf (img' & Himg' & Hocr'). exists img'. split; [|done].
      cbn [fs]. rewrite lookup_insert_ne; [done|].
      apply Halias; [by left|]. apply elem_of_app. by left; right. }
    { intros f g Hf Hg. apply Halias; by right. }
    { cbn [fs]. by rewrite lookup_insert_ne. }
    exists e, w'. cbn [app for_each]. erewrite bind_return by exact Hu.
    rewrite Hrun. split; [done|]. split; [|by rewrite write_texts_cons].
    intros img' Himg'. apply He. cbn [fs]. by rewrite lookup_insert_ne.
Qed.
End OcrLoop.

Lemma main_ocr_body (E : externals) (tesseractLoc language : string) :
  forall jpg acc w,
  match fs w !! jpg with
  | Some (JpegFile img) =>
      match image_to_string E tesseractLoc img (Some language) with
      | inr text => exists u,
          (img <- Image_open jpg ;;
           text <- call (image_to_string E tesseractLoc img (Some language)) ;;
           txt_file <- Main.save_to_file_as_txt jpg text ;;
           ret (acc ++ [txt_file])) w
          = (Return (acc ++ [txt_of jpg]),
             World (<[txt_of jpg := TextFile text]> (fs w)) u (net w))
      | inl e =>
          (img <- Image_open jpg ;;
           text <- call (image_to_string E tesseractLoc img (Some language)) ;;
           txt_file <- Main.save_to_file_as_txt jpg text ;;
           ret (acc ++ [txt_file])) w = (Raise e, w)
      end
  | _ => exists e,
      (img <- Image_open jpg ;;
       text <- call (image_to_string E tesseractLoc img (Some language)) ;;
       txt_file <- Main.save_to_file_as_txt jpg text ;;
       ret (acc ++ [txt_file])) w = (Raise e, w)
  end.
Proof.
  intros jpg acc w. unfold bind, Image_open.
  destruct (fs w !! jpg) as [[text|img]|]; [by eexists| |by eexists].
  destruct (image_to_string E tesseractLoc img (Some language)); [done|by eexists].
Qed.

Lemma pdf2csv_ocr_body (E : externals) (tesseractLoc : string) :
  forall jpg acc w,
  match fs w !! jpg with
  | Some (JpegFile img) =>
      match image_to_string E tesseractLoc img None with
      | inr text => exists u,
          (img <- Image_open jpg ;;
           text <- call (image_to_string E tesseractLoc img None) ;;
           txt_file <- Pdf2csv.save_to_file_as_txt jpg text ;;
           ret (acc ++ [txt_file])) w
          = (Return (acc ++ [txt_of jpg]),
             World (<[txt_of jpg := TextFile text]> (fs w)) u (net w))
      | inl e =>
          (img <- Image_open jpg ;;
           text <- call (image_to_string E tesseractLoc img None) ;;
           txt_file <- Pdf2csv.save_to_file_as_txt jpg text ;;
           ret (acc ++ [txt_file])) w = (Raise e, w)
      end
  | _ => exists e,
      (img <- Image_open jpg ;;
       text <- call (image_to_string E tesseractLoc img None) ;;
       txt_file <- Pdf2csv.save_to_file_as_txt jpg text ;;
       ret (acc ++ [txt_file])) w = (Raise e, w)
  end.
Proof.
  intros jpg acc w. unfold bind, Image_open.
  destruct (fs w !! jpg) as [[text|img]|]; [by eexists| |by eexists].
  destruct (image_to_string E tesseractLoc img None); [done|by eexists].
Qed.

Lemma with_suffix_file_name (stem ext new : string) :
  plain stem = true -> plain ext = true ->
  Py.with_suffix (stem +:+ String "." ext) new = stem +:+ new.
Proof.
  intros [Hs Hs']%plain_no_dot [He He']%plain_no_dot.
  by apply with_suffix_replaces.
Qed.

(** X7. For image paths that are file names of the working directory (a
    plain stem, a dot, a plain extension), a run of [jpg_to_txt] that
    returns gives back, for each image path and in the same order, that
    name with its extension replaced by [txt]: the list of text files is
    index-aligned with the list of images, and no prompt is sent. *)
Theorem jpg_to_txt_index_aligned (E : externals) (tesseractLoc language : string)
    (jpg_files txt_files : list string) (w w' : world) :
  Forall file_name jpg_files ->
  Main.jpg_to_txt E tesseractLoc jpg_files language w = (Return txt_files, w')
  \/ Pdf2csv.jpg_to_txt E tesseractLoc jpg_files w = (Return txt_files, w') ->
  txt_files = map (fun jpg_file => Py.with_suffix jpg_file ".txt") jpg_files
  /\ Forall2 (fun jpg_file txt_file =>
               forall stem ext,
                 jpg_file = stem +:+ String "." ext ->
                 plain stem = true -> plain ext = true ->
                 txt_file = stem +:+ ".txt") jpg_files txt_files
  /\ length txt_files = length jpg_files
  /\ net w' = net w.
Proof.
  intros _ Hrun.
  assert (txt_files = [] ++ map txt_of jpg_files /\ net w' = net w) as [-> Hnet].
  { destruct Hrun as [Hrun|Hrun].
    - eapply ocr_loop_aligned; [apply (main_ocr_body E tesseractLoc language)|exact Hrun].
    - eapply ocr_loop_aligned; [apply (pdf2csv_ocr_body E tesseractLoc)|exact Hrun]. }
  split; [done|]. split; [|split; [|done]].
  - cbn [app]. clear. induction jpg_files as [|f jpg_files IH]; constructor; [|exact IH].
    intros stem ext -> Hstem Hext. by apply with_suffix_file_name.
  - simpl. by rewrite length_map.
Qed.

Lemma jpg_to_txt_index_aligned_sample :
  Forall file_name ["page_1.jpg"; "page_2.jpg"]
  /\ exists w',
       Main.jpg_to_txt (Sample.externals None) "/opt/TesseractPath"
         ["page_1.jpg"; "page_2.jpg"] "eng" Demo.after_rasterizing
       = (Return ["page_1.txt"; "page_2.txt"], w')
       /\ ["page_1.txt"; "page_2.txt"]
          = map (fun jpg_file => Py.with_suffix jpg_file ".txt") ["page_1.jpg"; "page_2.jpg"].
Proof.
  assert (Forall file_name ["page_1.jpg"; "page_2.jpg"]) as Hnames.
  { repeat constructor.
    - by exists "page_1", "jpg".
    - by exists "page_2", "jpg". }
  split; [exact Hnames|].
  set (r := Main.jpg_to_txt (Sample.externals None) "/opt/TesseractPath"
              ["page_1.jpg"; "page_2.jpg"] "eng" Demo.after_rasterizing).
  assert (r = (Return ["page_1.txt"; "page_2.txt"], r.2)) as Hrun.
  { vm_compute. reflexivity. }
  exists r.2. split; [exact Hrun|].
  exact (proj1 (jpg_to_txt_index_aligned _ _ _ _ _ _ _ Hnames (or_introl Hrun))).
Defined.

(** X8. The text of [page_<n>.jpg] is written to [page_<n>.txt], whatever
    the number [n]; that file is none of the page images, so writing it
    leaves every [page_<m>.jpg] as it is. *)
Theorem page_text_beside_page_image (n : Z) (text : string) (w : world) :
  (exists w1,
     Main.save_to_file_as_txt (page_name n) text w = (Return (page_txt_name n), w1)
     /\ fs w1 = <[page_txt_name n := TextFile text]> (fs w)
     /\ forall m, fs w1 !! page_name m = fs w !! page_name m)
  /\ (exists w2,
        Pdf2csv.save_to_file_as_txt (page_name n) text w = (Return (page_txt_name n), w2)
        /\ fs w2 = <[page_txt_name n := TextFile text]> (fs w)
        /\ forall m, fs w2 !! page_name m = fs w !! page_name m).
Proof.
  split; eexists.
  - unfold Main.save_to_file_as_txt, Main.get_path_of_source.
    change (Py.with_suffix (page_name n) ".txt") with (txt_of (page_name n)).
    rewrite txt_of_page_name. split; [reflexivity|]. split; [done|].
    intros m. cbn [fs]. apply lookup_insert_ne, page_txt_name_not_page_name.
  - unfold Pdf2csv.save_to_file_as_txt, Pdf2csv.get_path_of_source.
    change (Py.with_suffix (page_name n) ".txt") with (txt_of (page_name n)).
    rewrite txt_of_page_name. split; [reflexivity|]. split; [done|].
    intros m. cbn [fs]. apply lookup_insert_ne, page_txt_name_not_page_name.
Qed.

Lemma page_names_lookup k i :
  i < k -> page_names k !! i = Some (page_name (Z.of_nat i + 1)).
Proof.
  intros Hi. unfold page_names. change (map ?f ?l) with (f <$> l).
  rewrite list_lookup_fmap, lookup_seq_lt by done. simpl. do 2 f_equal. lia.
Qed.

Lemma page_txt_names_elem path k :
  path ∈ page_txt_names k <-> exists i, i < k /\ path = page_txt_name (Z.of_nat i + 1).
Proof.
  unfold page_txt_names. change (map ?f ?l) with (f <$> l).
  rewrite list_elem_of_fmap. split.
  - intros (n & -> & Hn). apply elem_of_seq in Hn.
    exists (n - 1). split; [lia|]. f_equal. lia.
  - intros (i & Hi & ->). exists (S i). split; [f_equal; lia|].
    apply elem_of_seq. lia.
Qed.

Lemma txt_of_page_names k : map txt_of (page_names k) = page_txt_names k.
Proof.
  unfold page_names, page_txt_names. rewrite map_map.
  apply map_ext. intros n. apply txt_of_page_name.
Qed.

Lemma page_txt_names_NoDup k : NoDup (page_txt_names k).
Proof.
  unfold page_txt_names. change (map ?f ?l) with (f <$> l).
  apply NoDup_fmap_2; [|apply NoDup_seq].
  intros a b H. apply page_txt_name_inj in H. lia.
Qed.

Lemma page_names_no_alias k f g :
  f ∈ page_names k -> g ∈ page_names k -> txt_of f <> g.
Proof.
  intros (i & _ & ->)%page_names_elem (j & _ & ->)%page_names_elem.
  rewrite txt_of_page_name. apply page_txt_name_not_page_name.
Qed.

Section OcrPages.
Variable ocr : image -> exn + string.
Variable body : string -> list string -> M (list string).
Hypothesis body_spec : forall jpg acc w,
  match fs w !! jpg with
  | Some (JpegFile img) =>
      match ocr img with
      | inr text => exists u,
          body jpg acc w
          = (Return (acc ++ [txt_of jpg]),
             World (<[txt_of jpg := TextFile text]> (fs w)) u (net w))
      | inl e => body jpg acc w = (Raise e, w)
      end
  | _ => exists e, body jpg acc w = (Raise e, w)
  end.

Lemma pages_on_disk_Forall2 (images : list image) (texts : list string) (w : world) k :
  k <= length images ->
  (forall i img, images !! i = Some img ->
     fs w !! page_name (Z.of_nat i + 1) = Some (JpegFile img)) ->
  Forall2 (fun img t => ocr img = inr t) (take k images) texts ->
  Forall2 (fun f t => exists img, fs w !! f = Some (JpegFile img) /\ ocr img = inr t)
    (page_names k) texts.
Proof.
  intros Hk Hdisk Hocr.
  pose proof (Forall2_length _ _ _ Hocr) as Hlen. rewrite length_take in Hlen.
  apply Forall2_same_length_lookup_2.
  - rewrite page_names_length. lia.
  - intros i f t Hf Ht.
    assert (i < k) as Hi.
    { apply lookup_lt_Some in Hf. by rewrite page_names_length in Hf. }
    rewrite page_names_lookup in Hf by done. injection Hf as <-.
    destruct (lookup_lt_is_Some_2 images i) as [img Himg]; [lia|].
    exists img. split; [by apply Hdisk|].
    assert (take k images !! i = Some img) as Hx by (by rewrite lookup_take_lt).
    exact (Forall2_lookup_lr _ _ _ _ _ _ Hocr Hx Ht).
Qed.

Lemma ocr_loop_pages (images : list image) (texts : list string) (w : world) :
  (forall i img, images !! i = Some img ->
     fs w !! page_name (Z.of_nat i + 1) = Some (JpegFile img)) ->
  Forall2 (fun img t => ocr img = inr t) images texts ->
  exists w',
    for_each (page_names (length images)) body [] w
    = (Return (page_txt_names (length images)), w')
    /\ (forall i t, texts !! i = Some t ->
          fs w' !! page_txt_name (Z.of_nat i + 1) = Some (TextFile t))
    /\ (forall p, p ∉ page_txt_names (length images) -> fs w' !! p = fs w !! p)
    /\ net w' = net w.
Proof.
  intros Hdisk Hocr.
  pose proof (Forall2_length _ _ _ Hocr) as Hlen.
  destruct (ocr_loop_success ocr body body_spec (page_names (length images)) texts [] w)
    as (w' & Hrun & Hfs & Hnet).
  { apply (pages_on_disk_Forall2 images); [done|done|]. by rewrite firstn_all. }
  { apply page_names_no_alias. }
  exists w'. rewrite txt_of_page_names in Hrun. split; [exact Hrun|].
  split; [|split; [|done]].
  - intros i t Ht. rewrite Hfs, <- txt_of_page_name.
    eapply write_texts_lookup; [|apply page_names_lookup|exact Ht].
    + rewrite txt_of_page_names. apply page_txt_names_NoDup.
    + apply lookup_lt_Some in Ht. lia.
  - intros p Hp. rewrite Hfs. apply write_texts_other. by rewrite txt_of_page_names.
Qed.

Lemma page_names_app a b :
  page_names (a + S b)
  = page_names a ++ page_name (Z.of_nat a + 1)
      :: map (fun n => page_name (Z.of_nat n)) (seq (S (S a)) b).
Proof.
  unfold page_names. rewrite seq_app, map_app. simpl. do 3 f_equal. lia.
Qed.

Lemma ocr_loop_pages_abort (good : list image) (bad : image) (rest : list image)
    (texts : list string) (e : exn) (w : world) :
  (forall i img, (good ++ bad :: rest) !! i = Some img ->
     fs w !! page_name (Z.of_nat i + 1) = Some (JpegFile img)) ->
  Forall2 (fun img t => ocr img = inr t) good texts ->
  ocr bad = inl e ->
  exists w',
    for_each (page_names (length (good ++ bad :: rest))) body [] w = (Raise e, w')
    /\ (forall i t, texts !! i = Some t ->
          fs w' !! page_txt_name (Z.of_nat i + 1) = Some (TextFile t))
    /\ (forall p, p ∉ page_txt_names (length good) -> fs w' !! p = fs w !! p)
    /\ net w' = net w.
Proof.
  intros Hdisk Hocr Hbad.
  pose proof (Forall2_length _ _ _ Hocr) as Hlen.
  assert (fs w !! page_name (Z.of_nat (length good) + 1) = Some (JpegFile bad)) as Hbadfile.
  { apply Hdisk. by rewrite lookup_app_r, Nat.sub_diag by lia. }
  rewrite length_app. cbn [length]. rewrite page_names_app.
  destruct (ocr_loop_abort ocr body body_spec (page_names (length good)) texts
              (page_name (Z.of_nat (length good) + 1))
              (map (fun n => page_name (Z.of_nat n)) (seq (S (S (length good))) (length rest)))
              [] w)
    as (e' & w' & Hrun & He' & Hfs & Hnet).
  { apply (pages_on_disk_Forall2 (good ++ bad :: rest)).
    - rewrite length_app. lia.
    - done.
    - by rewrite take_app_length. }
  { intros f g (i & _ & ->)%page_names_elem Hg. rewrite txt_of_page_name.
    apply elem_of_app in Hg as [(j & _ & ->)%page_names_elem|Hg%list_elem_of_singleton].
    - apply page_txt_name_not_page_name.
    - subst g. apply page_txt_name_not_page_name. }
  { rewrite Hbadfile. by exists e. }
  specialize (He' bad Hbadfile). rewrite Hbad in He'. injection He' as <-.
  exists w'. split; [exact Hrun|]. split; [|split; [|done]].
  - intros i t Ht. rewrite Hfs, <- txt_of_page_name.
    eapply write_texts_lookup; [|apply page_names_lookup|exact Ht].
    + rewrite txt_of_page_names. apply page_txt_names_NoDup.
    + apply lookup_lt_Some in Ht. lia.
  - intros p Hp. rewrite Hfs. apply write_texts_other. by rewrite txt_of_page_names.
Qed.
End OcrPages.

(** X9. When the page images [page_1.jpg], ... are in the working
    directory and the OCR engine reads all of them, [jpg_to_txt] returns
    [page_1.txt], ..., one per image and in page order; [page_<i+1>.txt]
    holds the text read from image [i], and no file other than these text
    files changes. *)
Theorem jpg_to_txt_of_rasterized_pages (E : externals) (tesseractLoc language : string)
    (images : list image) (texts : list string) (w : world) :
  (forall i img, images !! i = Some img ->
     fs w !! page_name (Z.of_nat i + 1) = Some (JpegFile img)) ->
  (Forall2 (fun img t => image_to_string E tesseractLoc img (Some language) = inr t)
     images texts ->
   exists w',
     Main.jpg_to_txt E tesseractLoc (page_names (length images)) language w
     = (Return (page_txt_names (length images)), w')
     /\ (forall i t, texts !! i = Some t ->
           fs w' !! page_txt_name (Z.of_nat i + 1) = Some (TextFile t))
     /\ (forall p, p ∉ page_txt_names (length images) -> fs w' !! p = fs w !! p)
     /\ net w' = net w)
  /\ (Forall2 (fun img t => image_to_string E tesseractLoc img None = inr t) images texts ->
      exists w',
        Pdf2csv.jpg_to_txt E tesseractLoc (page_names (length images)) w
        = (Return (page_txt_names (length images)), w')
        /\ (forall i t, texts !! i = Some t ->
              fs w' !! page_txt_name (Z.of_nat i + 1) = Some (TextFile t))
        /\ (forall p, p ∉ page_txt_names (length images) -> fs w' !! p = fs w !! p)
        /\ net w' = net w).
Proof.
  intros Hdisk. split; intros Hocr.
  - by apply (ocr_loop_pages _ _ (main_ocr_body E tesseractLoc language)).
  - by apply (ocr_loop_pages _ _ (pdf2csv_ocr_body E tesseractLoc)).
Qed.

Lemma demo_pages_on_disk (more : list image) :
  forall i img,
    ([Image "scan of page 1"; Image "scan of page 2"] ++ more) !! i = Some img ->
    i < 2 ->
    fs Demo.after_rasterizing !! page_name (Z.of_nat i + 1) = Some (JpegFile img).
Proof. intros [|[|i]] img Hi Hlt; [by injection Hi as <-..|lia]. Qed.

Lemma jpg_to_txt_of_rasterized_pages_sample :
  exists w',
    Main.jpg_to_txt (Sample.externals None) "/opt/TesseractPath" (page_names 2) "eng"
      Demo.after_rasterizing
    = (Return (page_txt_names 2), w')
    /\ fs w' !! page_txt_name 2 = Some (TextFile Sample.page_1_text).
Proof.
  destruct (proj1 (jpg_to_txt_of_rasterized_pages (Sample.externals None)
              "/opt/TesseractPath" "eng"
              [Image "scan of page 1"; Image "scan of page 2"]
              [Sample.page_1_text; Sample.page_1_text] Demo.after_rasterizing
              (fun i img Hi =>
                 demo_pages_on_disk [] i img Hi
                   (proj1 (lookup_lt_is_Some _ _) (ex_intro _ img Hi))))
              ltac:(repeat constructor))
    as (w' & Hrun & Htexts & _).
  exists w'. split; [exact Hrun|]. exact (Htexts 1 _ eq_refl).
Defined.

(** X10. When the OCR engine raises [e] on a page after reading the pages
    before it, [jpg_to_txt] raises [e] there: the text files of the pages
    before are written and stay, no text file is written for that page or
    the pages after it. *)
Theorem jpg_to_txt_stops_at_unreadable_page (E : externals)
    (tesseractLoc language : string) (good : list image) (bad : image)
    (rest : list image) (texts : list string) (e : exn) (w : world) :
  (forall i img, (good ++ bad :: rest) !! i = Some img ->
     fs w !! page_name (Z.of_nat i + 1) = Some (JpegFile img)) ->
  (Forall2 (fun img t => image_to_string E tesseractLoc img (Some language) = inr t)
     good texts ->
   image_to_string E tesseractLoc bad (Some language) = inl e ->
   exists w',
     Main.jpg_to_txt E tesseractLoc (page_names (length (good ++ bad :: rest))) language w
     = (Raise e, w')
     /\ (forall i t, texts !! i = Some t ->
           fs w' !! page_txt_name (Z.of_nat i + 1) = Some (TextFile t))
     /\ (forall p, p ∉ page_txt_names (length good) -> fs w' !! p = fs w !! p))
  /\ (Forall2 (fun img t => image_to_string E tesseractLoc img None = inr t) good texts ->
      image_to_string E tesseractLoc bad None = inl e ->
      exists w',
        Pdf2csv.jpg_to_txt E tesseractLoc (page_names (length (good ++ bad :: rest))) w
        = (Raise e, w')
        /\ (forall i t, texts !! i = Some t ->
              fs w' !! page_txt_name (Z.of_nat i + 1) = Some (TextFile t))
        /\ (forall p, p ∉ page_txt_names (length good) -> fs w' !! p = fs w !! p)).
Proof.
  intros Hdisk. split; intros Hocr Hbad.
  - destruct (ocr_loop_pages_abort _ _ (main_ocr_body E tesseractLoc language)
                good bad rest texts e w Hdisk Hocr Hbad) as (w' & Hrun & Ht & Hp & _).
    by exists w'.
  - destruct (ocr_loop_pages_abort _ _ (pdf2csv_ocr_body E tesseractLoc)
                good bad rest texts e w Hdisk Hocr Hbad) as (w' & Hrun & Ht & Hp & _).
    by exists w'.
Qed.

Lemma jpg_to_txt_stops_at_unreadable_page_sample :
  exists w',
    Main.jpg_to_txt (Demo.with_ocr Demo.ocr_fails_on_page_2 (Sample.externals None))
      "/opt/TesseractPath" (page_names 2) "eng" Demo.after_rasterizing
    = (Raise (Exn OtherException "TesseractError"), w')
    /\ fs w' !! page_txt_name 1 = Some (TextFile ("text of scan of page 1" +:+ nl))
    /\ fs w' !! page_txt_name 2 = None.
Proof.
  destruct (proj1 (jpg_to_txt_stops_at_unreadable_page
              (Demo.with_ocr Demo.ocr_fails_on_page_2 (Sample.externals None))
              "/opt/TesseractPath" "eng"
              [Image "scan of page 1"] (Image "scan of page 2") []
              ["text of scan of page 1" +:+ nl]
              (Exn OtherException "TesseractError") Demo.after_rasterizing
              (fun i img Hi =>
                 demo_pages_on_disk [] i img Hi
                   (proj1 (lookup_lt_is_Some _ _) (ex_intro _ img Hi))))
              ltac:(repeat constructor) eq_refl)
    as (w' & Hrun & Htexts & Hother).
  exists w'. split; [exact Hrun|]. split; [exact (Htexts 0 _ eq_refl)|].
  rewrite Hother; [reflexivity|].
  intros (i & Hi & Heq)%page_txt_names_elem.
  apply page_txt_name_inj in Heq. simpl in Hi. lia.
Defined.

(** ** The conversion as a whole *)

Lemma main_pdf_to_jpg_run (E : externals) (pdf_bytes userpw popplerLoc : string)
    (images : list image) (w : world) :
  convert_from_bytes E pdf_bytes 500 None None userpw popplerLoc = inr images ->
  exists w',
    Main.pdf_to_jpg E pdf_bytes userpw popplerLoc w = (Return (page_names (length images)), w')
    /\ net w' = net w
    /\ (forall i img, images !! i = Some img ->
          fs w' !! page_name (Z.of_nat i + 1) = Some (JpegFile img))
    /\ (forall path, path ∉ page_names (length images) -> fs w' !! path = fs w !! path).
Proof.
  intros Hconv.
  destruct (fun H => save_pages_loop
    (fun '(i, image) jpg_files =>
       let img_filename := "page_" +:+ Py.str_of_int (Z.of_nat i + 1) +:+ ".jpg" in
       image_save image img_filename ;;;
       ret (jpg_files ++ [img_filename])) H images 0 [] w)
    as (w' & Hrun & Hnet & Hsaved & Hother).
  { intros i img acc w0. by exists (ui w0). }
  exists w'. split; [|split; [done|split]].
  - unfold Main.pdf_to_jpg. erewrite bind_return by (by apply call_return). exact Hrun.
  - intros i img Hi. by apply Hsaved.
  - intros path Hpath. apply Hother. intros i Hi ->. apply Hpath.
    apply page_names_elem. by exists i.
Qed.

Lemma page_txt_names_lookup k i :
  i < k -> page_txt_names k !! i = Some (page_txt_name (Z.of_nat i + 1)).
Proof.
  intros Hi. unfold page_txt_names. change (map ?f ?l) with (f <$> l).
  rewrite list_lookup_fmap, lookup_seq_lt by done. simpl. do 2 f_equal. lia.
Qed.

Lemma page_txt_names_length k : length (page_txt_names k) = k.
Proof. unfold page_txt_names. by rewrite length_map, length_seq. Qed.

Lemma page_texts_held (w : world) (texts : list string) :
  (forall i t, texts !! i = Some t ->
     fs w !! page_txt_name (Z.of_nat i + 1) = Some (TextFile t)) ->
  holds_texts w (page_txt_names (length texts)) texts.
Proof.
  intros Htexts. apply Forall2_same_length_lookup_2.
  - apply page_txt_names_length.
  - intros i path t Hpath Ht.
    rewrite page_txt_names_lookup in Hpath by (by eapply lookup_lt_Some).
    injection Hpath as <-. by apply Htexts.
Qed.

Lemma output_csv_is_no_page (n : Z) :
  "output.csv" <> page_name n /\ "output.csv" <> page_txt_name n.
Proof. split; unfold page_name, page_txt_name; rewrite app_cons; discriminate. Qed.

Lemma main_load_config_run (E : externals) (popplerLoc tesseractLoc : string) (w : world) :
  config_get E "settings" "PopplerPath" = inr popplerLoc ->
  config_get E "settings" "TesseractPath" = inr tesseractLoc ->
  Main.load_config E w = (Return (popplerLoc, tesseractLoc), w).
Proof. intros Hp Ht. unfold Main.load_config. rewrite Hp, Ht. reflexivity. Qed.

Lemma main_conversion_run (E : externals)
    (pdf_bytes userpw language popplerLoc tesseractLoc : string)
    (images : list image) (texts : list string) (w : world) :
  config_get E "settings" "PopplerPath" = inr popplerLoc ->
  config_get E "settings" "TesseractPath" = inr tesseractLoc ->
  convert_from_bytes E pdf_bytes 500 None None userpw popplerLoc = inr images ->
  Forall2 (fun img t => image_to_string E tesseractLoc img (Some language) = inr t)
    images texts ->
  exists w',
    Main.conversion E pdf_bytes userpw language w
    = (Return (map Main.cleaned_line (concat (map Py.readlines texts)), "output.csv"), w')
    /\ fs w' !! "output.csv"
       = Some (TextFile (Py.join (map Main.cleaned_line (concat (map Py.readlines texts)))))
    /\ (forall i img, images !! i = Some img ->
          fs w' !! page_name (Z.of_nat i + 1) = Some (JpegFile img))
    /\ (forall i t, texts !! i = Some t ->
          fs w' !! page_txt_name (Z.of_nat i + 1) = Some (TextFile t))
    /\ (forall path,
          path ∉ page_names (length images) -> path ∉ page_txt_names (length images) ->
          path <> "output.csv" -> fs w' !! path = fs w !! path)
    /\ net w' = net w.
Proof.
  intros Hpoppler Htesseract Hconv Hocr.
  pose proof (Forall2_length _ _ _ Hocr) as Hlen.
  set (w0 := World (fs w) (ui w ++ [UiSpinner "Please wait..."]) (net w)).
  destruct (main_pdf_to_jpg_run E pdf_bytes userpw popplerLoc images w0 Hconv)
    as (w1 & Hjpg & Hnet1 & Hsaved & Hother1).
  destruct (ocr_loop_pages _ _ (main_ocr_body E tesseractLoc language) images texts w1
              Hsaved Hocr) as (w2 & Htxt & Htexts & Hother2 & Hnet2).
  assert (holds_texts w2 (page_txt_names (length images)) texts) as Hheld.
  { rewrite Hlen. by apply page_texts_held. }
  eexists. split; [|split; [|split; [|split; [|split]]]].
  - unfold Main.conversion.
    erewrite bind_return by reflexivity. fold w0.
    erewrite bind_return by (by apply main_load_config_run). cbn beta iota.
    erewrite bind_return by exact Hjpg.
    erewrite bind_return by exact Htxt.
    erewrite bind_return by (by apply txt_to_csv_pages).
    rewrite concat_map_map.
    erewrite bind_return by apply main_save_as_csv_run.
    reflexivity.
  - cbn [fs]. apply lookup_insert_eq.
  - intros i img Hi. cbn [fs].
    rewrite lookup_insert_ne by (change (Py.with_suffix _ _) with "output.csv";
                                 apply output_csv_is_no_page).
    rewrite Hother2; [by apply Hsaved|].
    intros (j & _ & Hj)%page_txt_names_elem. symmetry in Hj.
    by apply page_txt_name_not_page_name in Hj.
  - intros i t Ht. cbn [fs].
    rewrite lookup_insert_ne by (change (Py.with_suffix _ _) with "output.csv";
                                 apply output_csv_is_no_page).
    by apply Htexts.
  - intros path Hp1 Hp2 Hp3. cbn [fs].
    rewrite lookup_insert_ne by (change (Py.with_suffix _ _) with "output.csv"; done).
    by rewrite Hother2, Hother1.
  - cbn [net]. by rewrite Hnet2, Hnet1.
Qed.

(** X11. When the settings hold both tool paths, the rasterizer gives the
    images and the OCR engine reads each of them, giving texts without
    carriage return, the conversion of
    [main.py] returns the reformatted lines of all page texts in page
    order together with the name [output.csv]; afterwards the working
    directory holds every page image, every page text and [output.csv] with
    the returned lines joined, no other file has changed, and no prompt has
    been sent. *)
Theorem main_conversion_end_to_end (E : externals)
    (pdf_bytes userpw language popplerLoc tesseractLoc : string)
    (images : list image) (texts : list string) (w : world) :
  config_get E "settings" "PopplerPath" = inr popplerLoc ->
  config_get E "settings" "TesseractPath" = inr tesseractLoc ->
  convert_from_bytes E pdf_bytes 500 None None userpw popplerLoc = inr images ->
  Forall2 (fun img t => image_to_string E tesseractLoc img (Some language) = inr t)
    images texts ->
  Forall (fun t => contains Py.carriage_return t = false) texts ->
  exists w',
    Main.conversion E pdf_bytes userpw language w
    = (Return (map Main.cleaned_line (concat (map Py.readlines texts)), "output.csv"), w')
    /\ fs w' !! "output.csv"
       = Some (TextFile (Py.join (map Main.cleaned_line (concat (map Py.readlines texts)))))
    /\ (forall i img, images !! i = Some img ->
          fs w' !! page_name (Z.of_nat i + 1) = Some (JpegFile img))
    /\ (forall i t, texts !! i = Some t ->
          fs w' !! page_txt_name (Z.of_nat i + 1) = Some (TextFile t))
    /\ (forall path,
          path ∉ page_names (length images) -> path ∉ page_txt_names (length images) ->
          path <> "output.csv" -> fs w' !! path = fs w !! path)
    /\ net w' = net w.
Proof.
  intros Hp Ht Hconv Hocr _.
  by apply (main_conversion_run E pdf_bytes userpw language popplerLoc tesseractLoc).
Qed.

Lemma main_conversion_end_to_end_sample :
  exists w',
    Main.conversion (Sample.externals None) "%PDF-1.7" "" "eng" (World ∅ [] [])
    = (Return (["John,Doe,Age:,30" +:+ nl; "a,,b" +:+ nl], "output.csv"), w')
    /\ fs w' !! "output.csv" = Some (TextFile ("John,Doe,Age:,30" +:+ nl +:+ "a,,b" +:+ nl))
    /\ fs w' !! "page_1.jpg" = Some (JpegFile (Image "scan of page 1")).
Proof.
  destruct (main_conversion_end_to_end (Sample.externals None) "%PDF-1.7" "" "eng"
              "/opt/PopplerPath" "/opt/TesseractPath" [Image "scan of page 1"]
              [Sample.page_1_text] (World ∅ [] []) eq_refl eq_refl eq_refl
              ltac:(repeat constructor) ltac:(repeat constructor))
    as (w' & Hrun & Hcsv & Hjpg & _).
  exists w'. split; [exact Hrun|]. split; [exact Hcsv|]. exact (Hjpg 0 _ eq_refl).
Defined.


(** ** Failures before the analysis *)

Lemma bind_raise_run {A B} (c : M A) (k : A -> M B) w e w' :
  c w = (Raise e, w') -> bind c k w = (Raise e, w').
Proof. intros H. unfold bind. by rewrite H. Qed.

(** After an upload and a click on Convert, [main] of [main.py] is its
    [try] block run on the page as it stands then. *)
Lemma main_main_run (E : externals) (pdf_bytes : string) (w : world) :
  file_uploader E = Some pdf_bytes ->
  button E "Convert" = true ->
  exists u0,
    Main.main E w
    = try_except
        (converted <- Main.conversion E pdf_bytes (text_input E "Password (if any)")
                        (selectbox E "Select OCR Language") ;;
         let '(csv_data, csv_filename) := converted in
         st_success "Conversion completed successfully" ;;;
         let analysis_csv_filename := Main.get_path_of_source "gemini_analysis_output.csv" in
         _ <- Main.analyze_csv_with_gemini E csv_data analysis_csv_filename ;;
         st_write ("Analysis saved to: " +:+ analysis_csv_filename))
        (fun e => st_error ("An error occurred during conversion: " +:+ exn_msg e))
        (World (fs w) u0 (net w)).
Proof.
  intros Hup Hbtn. unfold Main.main. rewrite Hup, Hbtn. eexists. reflexivity.
Qed.

Lemma main_conversion_rasterizer_error (E : externals)
    (pdf_bytes userpw language popplerLoc tesseractLoc : string) (e : exn) (w : world) :
  config_get E "settings" "PopplerPath" = inr popplerLoc ->
  config_get E "settings" "TesseractPath" = inr tesseractLoc ->
  convert_from_bytes E pdf_bytes 500 None None userpw popplerLoc = inl e ->
  exists u, Main.conversion E pdf_bytes userpw language w = (Raise e, World (fs w) u (net w)).
Proof.
  intros Hp Ht Hconv. unfold Main.conversion, Main.load_config, Main.pdf_to_jpg. run.
  rewrite Hp, Ht. run. rewrite Hconv. run. by eexists.
Qed.

(** X12. When the rasterizer raises [e] (a refused password, a broken
    file), no file is written and no prompt is sent in either variant;
    [main.py] catches [e], shows it as a conversion error and ends the run
    normally, while [main] of [pdf2csv.py] lets [e] out. *)
Theorem rasterizer_error_writes_nothing (E : externals)
    (pdf_bytes popplerLoc tesseractLoc : string) (e : exn) (w : world) :
  file_uploader E = Some pdf_bytes ->
  button E "Convert" = true ->
  config_get E "settings" "PopplerPath" = inr popplerLoc ->
  config_get E "settings" "TesseractPath" = inr tesseractLoc ->
  (convert_from_bytes E pdf_bytes 500 None None (text_input E "Password (if any)")
     popplerLoc = inl e ->
   exists w',
     Main.main E w = (Return tt, w')
     /\ fs w' = fs w /\ net w' = net w
     /\ last (ui w') = Some (UiError ("An error occurred during conversion: " +:+ exn_msg e)))
  /\ (convert_from_bytes E pdf_bytes 500 (Some (number_input E "First Page"))
        (Some (number_input E "Last Page")) (text_input E "Password (if any)")
        popplerLoc = inl e ->
      exists w',
        Pdf2csv.main E w = (Raise e, w') /\ fs w' = fs w /\ net w' = net w).
Proof.
  intros Hup Hbtn Hp Ht. split; intros Hconv.
  - destruct (main_main_run E pdf_bytes w Hup Hbtn) as [u0 ->].
    destruct (main_conversion_rasterizer_error E pdf_bytes (text_input E "Password (if any)")
                (selectbox E "Select OCR Language") popplerLoc tesseractLoc e
                (World (fs w) u0 (net w)) Hp Ht Hconv) as [u Hrun].
    unfold try_except. erewrite bind_raise_run by exact Hrun.
    eexists. split; [reflexivity|]. split; [done|]. split; [done|].
    cbn [ui]. apply last_snoc.
  - unfold Pdf2csv.main, Pdf2csv.load_config, Pdf2csv.pdf_to_jpg. rewrite Hup, Hbtn. run.
    rewrite Hp, Ht. run. rewrite Hconv. run. eexists. split; [reflexivity|]. done.
Qed.

Lemma rasterizer_error_writes_nothing_sample :
  file_uploader (Demo.with_rasterizer Demo.wrong_password (Sample.externals (Some "key")))
  = Some "%PDF-1.7"
  /\ (exists w',
        Main.main (Demo.with_rasterizer Demo.wrong_password (Sample.externals (Some "key")))
          Sample.after_ocr = (Return tt, w')
        /\ fs w' = fs Sample.after_ocr)
  /\ (exists w',
        Pdf2csv.main (Demo.with_rasterizer Demo.wrong_password (Sample.externals (Some "key")))
          Sample.after_ocr = (Raise (Exn OtherException "Incorrect password"), w')
        /\ fs w' = fs Sample.after_ocr).
Proof.
  split; [reflexivity|].
  destruct (rasterizer_error_writes_nothing
              (Demo.with_rasterizer Demo.wrong_password (Sample.externals (Some "key")))
              "%PDF-1.7" "/opt/PopplerPath" "/opt/TesseractPath"
              (Exn OtherException "Incorrect password") Sample.after_ocr
              eq_refl eq_refl eq_refl eq_refl) as [Hmain Hpdf2csv].
  split.
  - destruct (Hmain eq_refl) as (w' & Hrun & Hfs & _). exists w'. by split.
  - destruct (Hpdf2csv eq_refl) as (w' & Hrun & Hfs & _). exists w'. by split.
Defined.

(** X13. When [genai.configure] or the construction of the model raises,
    the module body of [main.py] shows the error and stops: [main] is not
    run, no file is written and no prompt is sent. *)
Theorem client_setup_error_stops_script (E : externals) (api_key : string) (e : exn)
    (w : world) :
  environ E "GEMINI_API_KEY" = Some api_key ->
  (genai_configure E api_key = Some e ->
   Main.script E w
   = (Stopped,
      World (fs w) (ui w ++ [UiError ("Error configuring Gemini API: " +:+ exn_msg e)])
        (net w)))
  /\ (genai_configure E api_key = None ->
      GenerativeModel E "gemini-1.5-flash" = Some e ->
      Main.script E w
      = (Stopped,
         World (fs w) (ui w ++ [UiError ("Error initializing Gemini model: " +:+ exn_msg e)])
           (net w))).
Proof.
  intros Hkey. unfold Main.script. rewrite Hkey. split.
  - intros ->. reflexivity.
  - intros -> ->. run. by destruct w.
Qed.

Lemma client_setup_error_stops_script_sample :
  environ (Demo.with_client (fun _ => Some (Exn OtherException "invalid key"))
             (fun _ => None) (Sample.externals (Some "key"))) "GEMINI_API_KEY"
  = Some "key"
  /\ Main.script (Demo.with_client (fun _ => Some (Exn OtherException "invalid key"))
                    (fun _ => None) (Sample.externals (Some "key"))) Sample.after_ocr
     = (Stopped,
        World (fs Sample.after_ocr)
          [UiError ("Error configuring Gemini API: " +:+ "invalid key")] []).
Proof.
  split; [reflexivity|].
  exact (proj1 (client_setup_error_stops_script
                  (Demo.with_client (fun _ => Some (Exn OtherException "invalid key"))
                     (fun _ => None) (Sample.externals (Some "key")))
                  "key" (Exn OtherException "invalid key") Sample.after_ocr eq_refl) eq_refl).
Defined.

(** ** The analysis adapter, continued *)

(** X14. When the service answers, the analysis of [main.py] writes the
    text of the answer, and nothing else, into its output file, shows it
    and returns the file name; an answer without a [text] attribute is
    replaced by the words [No response text found], which are written and
    shown in its place. *)
Theorem main_analysis_saves_answer (E : externals) (csv_content : list string)
    (output_filename : string) (r : response) (w : world) :
  generate_content E ("just convert the text errors and display it in csv" +:+ nl
                      +:+ str_of_list E csv_content) = inr r ->
  (forall v, response_text r = AttrValue v ->
     exists w',
       Main.analyze_csv_with_gemini E csv_content output_filename w
       = (Return output_filename, w')
       /\ fs w' = <[output_filename := TextFile v]> (fs w)
       /\ ui w' = ui w ++ [UiWrite v;
                           UiWrite ("Saved Gemini analysis to CSV: " +:+ output_filename)])
  /\ (response_text r = AttrMissing
      \/ (exists e, response_text r = AttrRaises e /\ exn_cls e = AttributeError) ->
      exists w',
        Main.analyze_csv_with_gemini E csv_content output_filename w
        = (Return output_filename, w')
        /\ fs w' = <[output_filename := TextFile "No response text found"]> (fs w)
        /\ ui w' = ui w ++ [UiWrite "No response text found";
                            UiWrite ("Saved Gemini analysis to CSV: " +:+ output_filename)]).
Proof.
  intros Hgen. unfold Main.analyze_csv_with_gemini. run. rewrite Hgen.
  destruct r as [a]. cbn [response_text]. split.
  - intros v ->. run. eexists. split; [reflexivity|]. cbn [fs ui].
    by rewrite <- app_assoc.
  - intros [->|(e & -> & Hcls)]; run; rewrite ?Hcls; run;
      (eexists; split; [reflexivity|]; cbn [fs ui]; by rewrite <- app_assoc).
Qed.

Lemma main_analysis_saves_answer_sample :
  generate_content (Demo.with_service Demo.answers (Sample.externals (Some "key")))
    ("just convert the text errors and display it in csv" +:+ nl +:+ "a,b")
  = inr (Response (AttrValue ("name,age" +:+ nl +:+ "John Doe,30" +:+ nl)))
  /\ exists w',
       Main.analyze_csv_with_gemini
         (Demo.with_service Demo.answers (Sample.externals (Some "key"))) ["a,b"]
         "gemini_analysis_output.csv" Sample.after_ocr
       = (Return "gemini_analysis_output.csv", w')
       /\ fs w' = <["gemini_analysis_output.csv"
                     := TextFile ("name,age" +:+ nl +:+ "John Doe,30" +:+ nl)]>
                    (fs Sample.after_ocr).
Proof.
  split; [reflexivity|].
  destruct (proj1 (main_analysis_saves_answer
              (Demo.with_service Demo.answers (Sample.externals (Some "key"))) ["a,b"]
              "gemini_analysis_output.csv" _ Sample.after_ocr eq_refl) _ eq_refl)
    as (w' & Hrun & Hfs & _).
  exists w'. split; [exact Hrun|exact Hfs].
Defined.

(** X15. Every call of the analysis of [main.py] hands exactly one prompt
    to the client, the fixed instruction followed by a line feed and the
    rendering of the list it was given; whatever the outcome, it is not
    sent again. *)
Theorem main_analysis_sends_one_prompt (E : externals) (csv_content : list string)
    (output_filename : string) (w : world) :
  net (Main.analyze_csv_with_gemini E csv_content output_filename w).2
  = net w ++ ["just convert the text errors and display it in csv" +:+ nl
              +:+ str_of_list E csv_content].
Proof.
  unfold Main.analyze_csv_with_gemini. run.
  destruct (generate_content E _) as [e|[[|e|v]]]; run.
  - by destruct (exn_cls e).
  - done.
  - destruct (exn_cls e) eqn:Hcls; run; rewrite ?Hcls; done.
  - done.
Qed.

(** X16. The analysis of [pdf2csv.py] never writes a file, whether the key
    is missing, the client cannot be set up, or the service answers or
    raises; and it hands at most one prompt to the client. *)
Theorem pdf2csv_analysis_writes_no_file (E : externals) (csv_content : string) (w : world) :
  fs (Pdf2csv.analyze_csv_with_gemini E csv_content w).2 = fs w
  /\ (net (Pdf2csv.analyze_csv_with_gemini E csv_content w).2 = net w
      \/ net (Pdf2csv.analyze_csv_with_gemini E csv_content w).2
         = net w ++ ["Analyze the following CSV data and extract details along with the selected checkboxes:"
                     +:+ nl +:+ csv_content]).
Proof.
  unfold Pdf2csv.analyze_csv_with_gemini.
  destruct (Pdf2csv.not_ (Pdf2csv.get_api_key E)); run; [by split; [|left]|].
  destruct (genai_configure E _); run; [by split; [|left]|].
  destruct (GenerativeModel E _); run; [by split; [|left]|].
  destruct (generate E) as [method|]; run; [|by split; [|left]].
  destruct (method _); run; by split; [|right].
Qed.

(** X17. An empty [GEMINI_API_KEY] is a missing key for [pdf2csv.py] only:
    its analysis shows the key-not-found error, sends nothing and writes
    nothing, whereas the module body of [main.py], which tests the key
    against [None], goes on to run [main] once the client is set up. *)
Theorem empty_api_key_stops_pdf2csv_only (E : externals) (csv_content : string)
    (w : world) :
  environ E "GEMINI_API_KEY" = Some EmptyString ->
  Pdf2csv.analyze_csv_with_gemini E csv_content w
  = (Return None,
     World (fs w)
       (ui w ++ [UiError
          "API key not found. Please set the GEMINI_API_KEY environment variable."])
       (net w))
  /\ (genai_configure E EmptyString = None ->
      GenerativeModel E "gemini-1.5-flash" = None ->
      Main.script E w = Main.main E w).
Proof.
  intros Hkey. split.
  - unfold Pdf2csv.analyze_csv_with_gemini, Pdf2csv.get_api_key. by rewrite Hkey.
  - intros Hconf Hmodel. unfold Main.script. rewrite Hkey, Hconf, Hmodel. reflexivity.
Qed.

Lemma empty_api_key_stops_pdf2csv_only_sample :
  environ (Sample.externals (Some EmptyString)) "GEMINI_API_KEY" = Some EmptyString
  /\ Main.script (Sample.externals (Some EmptyString)) Sample.after_ocr
     = Main.main (Sample.externals (Some EmptyString)) Sample.after_ocr.
Proof.
  split; [reflexivity|].
  exact (proj2 (empty_api_key_stops_pdf2csv_only (Sample.externals (Some EmptyString))
                  "a,b" Sample.after_ocr eq_refl) eq_refl eq_refl).
Defined.

Lemma analysis_file_is_no_page (k : nat) :
  ("gemini_analysis_output.csv" ∉ page_names k)
  /\ ("gemini_analysis_output.csv" ∉ page_txt_names k).
Proof.
  split.
  - intros (i & _ & H)%page_names_elem. unfold page_name in H.
    rewrite app_cons in H. discriminate.
  - intros (i & _ & H)%page_txt_names_elem. unfold page_txt_name in H.
    rewrite app_cons in H. discriminate.
Qed.

(** X18. When the conversion succeeds (on OCR texts without carriage
    return), the run of [main.py] ends normally
    with [output.csv] holding the reformatted lines, and the last thing it
    shows is [Analysis saved to: gemini_analysis_output.csv], whatever the
    analysis did: when the service call raised, the error is on the page
    too and [gemini_analysis_output.csv] is the file it was before the run
    (none, if there was none). *)
Theorem main_run_announces_saved_analysis (E : externals)
    (pdf_bytes popplerLoc tesseractLoc : string)
    (images : list image) (texts : list string) (w : world) :
  file_uploader E = Some pdf_bytes ->
  button E "Convert" = true ->
  config_get E "settings" "PopplerPath" = inr popplerLoc ->
  config_get E "settings" "TesseractPath" = inr tesseractLoc ->
  convert_from_bytes E pdf_bytes 500 None None (text_input E "Password (if any)")
    popplerLoc = inr images ->
  Forall2 (fun img t =>
             image_to_string E tesseractLoc img (Some (selectbox E "Select OCR Language"))
             = inr t) images texts ->
  Forall (fun t => contains Py.carriage_return t = false) texts ->
  exists w',
    Main.main E w = (Return tt, w')
    /\ last (ui w') = Some (UiWrite "Analysis saved to: gemini_analysis_output.csv")
    /\ fs w' !! "output.csv"
       = Some (TextFile (Py.join (map Main.cleaned_line (concat (map Py.readlines texts)))))
    /\ forall e,
         generate_content E
           ("just convert the text errors and display it in csv" +:+ nl
            +:+ str_of_list E (map Main.cleaned_line (concat (map Py.readlines texts))))
         = inl e ->
         fs w' !! "gemini_analysis_output.csv" = fs w !! "gemini_analysis_output.csv"
         /\ exists report, UiError (report +:+ exn_msg e) ∈ ui w'.
Proof.
  intros Hup Hbtn Hp Ht Hconv Hocr _.
  destruct (main_main_run E pdf_bytes w Hup Hbtn) as [u0 ->].
  set (w0 := World (fs w) u0 (net w)).
  set (csv := map Main.cleaned_line (concat (map Py.readlines texts))).
  destruct (main_conversion_run E pdf_bytes (text_input E "Password (if any)")
              (selectbox E "Select OCR Language") popplerLoc tesseractLoc images texts w0
              Hp Ht Hconv Hocr) as (w1 & Hrun1 & Hcsv & _ & _ & Hother1 & _).
  fold csv in Hrun1, Hcsv.
  set (w1' := World (fs w1) (ui w1 ++ [UiSuccess "Conversion completed successfully"])
                (net w1)).
  destruct (main_analysis_returns E csv "gemini_analysis_output.csv" w1')
    as (result & w2 & Hrun2 & Hother2).
  exists (World (fs w2) (ui w2 ++ [UiWrite "Analysis saved to: gemini_analysis_output.csv"])
            (net w2)).
  split; [|split; [|split]].
  - unfold try_except. erewrite bind_return by exact Hrun1. cbn beta iota.
    erewrite bind_return by reflexivity. fold w1'.
    unfold Main.get_path_of_source. erewrite bind_return by exact Hrun2. reflexivity.
  - cbn [ui]. apply last_snoc.
  - cbn [fs]. rewrite Hother2 by done. exact Hcsv.
  - intros e He.
    destruct (main_analysis_reports E csv "gemini_analysis_output.csv" w1' e (or_introl He))
      as (result' & report & Hrun2').
    rewrite Hrun2' in Hrun2. injection Hrun2 as _ <-. cbn [fs ui]. split.
    + destruct (analysis_file_is_no_page (length images)) as [H1 H2].
      by rewrite Hother1.
    + exists report. rewrite !elem_of_app. left. right. by left.
Qed.

Lemma main_run_announces_saved_analysis_sample :
  exists w',
    Main.main (Sample.externals (Some "key")) (World ∅ [] []) = (Return tt, w')
    /\ last (ui w') = Some (UiWrite "Analysis saved to: gemini_analysis_output.csv")
    /\ fs w' !! "gemini_analysis_output.csv" = None.
Proof.
  destruct (main_run_announces_saved_analysis (Sample.externals (Some "key")) "%PDF-1.7"
              "/opt/PopplerPath" "/opt/TesseractPath" [Image "scan of page 1"]
              [Sample.page_1_text] (World ∅ [] []) eq_refl eq_refl eq_refl eq_refl eq_refl
              ltac:(repeat constructor) ltac:(repeat constructor))
    as (w' & Hrun & Hlast & _ & Hfail).
  exists w'. split; [exact Hrun|]. split; [exact Hlast|].
  exact (proj1 (Hfail (Exn OtherException "503 Service Unavailable") eq_refl)).
Defined.

(** ** What reaches [output.csv] *)

Lemma join_readlines text : Py.join (Py.readlines text) = text.
Proof.
  induction text as [|c rest IH]; [done|]. cbn [Py.readlines].
  destruct (decide (c = Py.newline)) as [->|Hc].
  - by rewrite join_cons, IH.
  - destruct (Py.readlines rest) as [|l ls] eqn:Hlines.
    + destruct rest; [done|]. by destruct (readlines_nonempty _ _ Hlines).
    + rewrite !join_cons in *. rewrite app_cons. by rewrite IH.
Qed.

Lemma count_char_join c (lines : list string) :
  count_char c (Py.join lines) = sum_list (map (count_char c) lines).
Proof.
  induction lines as [|l lines IH]; [done|].
  rewrite join_cons, count_char_app, IH. done.
Qed.

Lemma sum_list_cons (x : nat) (xs : list nat) : sum_list (x :: xs) = x + sum_list xs.
Proof. reflexivity. Qed.

Lemma sum_list_app (xs ys : list nat) : sum_list (xs ++ ys) = sum_list xs + sum_list ys.
Proof.
  induction xs as [|x xs IH]; [done|].
  rewrite <- app_comm_cons, !sum_list_cons, IH. lia.
Qed.

Lemma count_char_cleaned_lines c (lines : list string) :
  c <> Py.comma -> c <> Py.space -> c <> Py.dquote ->
  sum_list (map (count_char c) (map Main.cleaned_line lines))
  = sum_list (map (count_char c) lines).
Proof.
  intros ???. induction lines as [|l lines IH]; [done|].
  cbn [map]. by rewrite !sum_list_cons, IH, cleaned_line_count_other.
Qed.

Lemma count_char_pages c (texts : list string) :
  c <> Py.comma -> c <> Py.space -> c <> Py.dquote ->
  sum_list (map (count_char c)
    (concat (map (fun text => map Main.cleaned_line (Py.readlines text)) texts)))
  = sum_list (map (count_char c) texts).
Proof.
  intros ???. induction texts as [|text texts IH]; [done|].
  cbn [map concat]. rewrite map_app, sum_list_app, sum_list_cons, IH. f_equal.
  rewrite count_char_cleaned_lines by done.
  by rewrite <- count_char_join, join_readlines.
Qed.

(** X19. Every character other than the comma, the space and the double
    quote occurs in [output.csv] exactly as often as in all the page texts
    together; in particular the file has as many line feeds as the page
    texts, whether or not they end with one. *)
Theorem output_csv_keeps_other_characters (w : world) (paths texts : list string)
    (c : ascii) :
  holds_texts w paths texts ->
  c <> Py.comma -> c <> Py.space -> c <> Py.dquote ->
  exists out w1 content,
    Main.txt_to_csv paths w = (Return out, w)
    /\ Main.save_as_csv out "output" w = (Return "output.csv", w1)
    /\ fs w1 !! "output.csv" = Some (TextFile content)
    /\ count_char c content = sum_list (map (count_char c) texts).
Proof.
  intros Hholds Hc1 Hc2 Hc3.
  exists (concat (map (fun text => map Main.cleaned_line (Py.readlines text)) texts)).
  do 2 eexists. split; [by apply txt_to_csv_pages|].
  split; [apply main_save_as_csv_run|]. split; [cbn [fs]; apply lookup_insert_eq|].
  by rewrite count_char_join, count_char_pages.
Qed.

Lemma output_csv_keeps_other_characters_sample :
  holds_texts Sample.after_ocr ["page_1.txt"; "page_2.txt"]
    [Sample.page_1_text; Sample.page_2_text]
  /\ exists out w1 content,
       Main.save_as_csv out "output" Sample.after_ocr = (Return "output.csv", w1)
       /\ fs w1 !! "output.csv" = Some (TextFile content)
       /\ count_char Py.newline content = 3.
Proof.
  assert (holds_texts Sample.after_ocr ["page_1.txt"; "page_2.txt"]
            [Sample.page_1_text; Sample.page_2_text]) as H by (repeat constructor).
  split; [exact H|].
  destruct (output_csv_keeps_other_characters Sample.after_ocr _ _ Py.newline H
              ltac:(discriminate) ltac:(discriminate) ltac:(discriminate))
    as (out & w1 & content & _ & Hsave & Hfile & Hcount).
  exists out, w1, content. split; [exact Hsave|]. split; [exact Hfile|exact Hcount].
Defined.

(** ** Runs after runs, and [pdf2csv.py] as a whole *)

Lemma pdf2csv_pdf_to_jpg_run (E : externals) (pdf_bytes : string) (first last : Z)
    (userpw popplerLoc : string) (images : list image) (w : world) :
  convert_from_bytes E pdf_bytes 500 (Some first) (Some last) userpw popplerLoc = inr images ->
  exists w',
    Pdf2csv.pdf_to_jpg E pdf_bytes first last userpw popplerLoc w
    = (Return (page_names (length images)), w')
    /\ net w' = net w
    /\ (forall i img, images !! i = Some img ->
          fs w' !! page_name (Z.of_nat i + 1) = Some (JpegFile img))
    /\ (forall path, path ∉ page_names (length images) -> fs w' !! path = fs w !! path).
Proof.
  intros Hconv.
  destruct (fun H => save_pages_loop
    (fun '(i, image) jpg_files =>
       let img_filename := "page_" +:+ Py.str_of_int (Z.of_nat i + 1) +:+ ".jpg" in
       image_save image img_filename ;;;
       let jpg_files := jpg_files ++ [img_filename] in
       st_write ("Converted to JPG...Saving to: " +:+ img_filename) ;;;
       ret jpg_files) H images 0 [] w) as (w' & Hrun & Hnet & Hsaved & Hother).
  { intros i img acc w0.
    by exists (ui w0 ++ [UiWrite ("Converted to JPG...Saving to: "
                                  +:+ page_name (Z.of_nat i + 1))]). }
  exists w'. split; [|split; [done|split]].
  - unfold Pdf2csv.pdf_to_jpg. erewrite bind_return by (by apply call_return). exact Hrun.
  - intros i img Hi. by apply Hsaved.
  - intros path Hpath. apply Hother. intros i Hi ->. apply Hpath.
    apply page_names_elem. by exists i.
Qed.

Lemma stale_pages (w w1 w2 : world) (images1 images2 : list image) :
  (forall i img, images1 !! i = Some img ->
     fs w1 !! page_name (Z.of_nat i + 1) = Some (JpegFile img)) ->
  (forall path, path ∉ page_names (length images2) -> fs w2 !! path = fs w1 !! path) ->
  forall i img,
    images1 !! i = Some img -> length images2 <= i ->
    (page_name (Z.of_nat i + 1) ∉ page_names (length images2))
    /\ fs w2 !! page_name (Z.of_nat i + 1) = Some (JpegFile img).
Proof.
  intros Hsaved Hother i img Hi Hle.
  assert (page_name (Z.of_nat i + 1) ∉ page_names (length images2)) as Hnotin.
  { intros (j & Hj & Heq)%page_names_elem. apply page_name_inj in Heq. lia. }
  split; [done|]. rewrite Hother by done. by apply Hsaved.
Qed.

(** X20. Page images are never cleaned up: when a document is rasterized
    after a longer one, the page images of the earlier run beyond the
    length of the later one are still in the working directory, unchanged,
    and are not among the names the later run returns. *)
Theorem stale_page_images_remain (E : externals) (pdf1 pdf2 pw1 pw2 popplerLoc : string)
    (images1 images2 : list image) (w : world) :
  (convert_from_bytes E pdf1 500 None None pw1 popplerLoc = inr images1 ->
   convert_from_bytes E pdf2 500 None None pw2 popplerLoc = inr images2 ->
   exists w1 w2,
     Main.pdf_to_jpg E pdf1 pw1 popplerLoc w = (Return (page_names (length images1)), w1)
     /\ Main.pdf_to_jpg E pdf2 pw2 popplerLoc w1 = (Return (page_names (length images2)), w2)
     /\ forall i img,
          images1 !! i = Some img -> length images2 <= i ->
          (page_name (Z.of_nat i + 1) ∉ page_names (length images2))
          /\ fs w2 !! page_name (Z.of_nat i + 1) = Some (JpegFile img))
  /\ (forall first1 last1 first2 last2,
        convert_from_bytes E pdf1 500 (Some first1) (Some last1) pw1 popplerLoc
        = inr images1 ->
        convert_from_bytes E pdf2 500 (Some first2) (Some last2) pw2 popplerLoc
        = inr images2 ->
        exists w1 w2,
          Pdf2csv.pdf_to_jpg E pdf1 first1 last1 pw1 popplerLoc w
          = (Return (page_names (length images1)), w1)
          /\ Pdf2csv.pdf_to_jpg E pdf2 first2 last2 pw2 popplerLoc w1
             = (Return (page_names (length images2)), w2)
          /\ forall i img,
               images1 !! i = Some img -> length images2 <= i ->
               (page_name (Z.of_nat i + 1) ∉ page_names (length images2))
               /\ fs w2 !! page_name (Z.of_nat i + 1) = Some (JpegFile img)).
Proof.
  split.
  - intros H1 H2.
    destruct (main_pdf_to_jpg_run E pdf1 pw1 popplerLoc images1 w H1)
      as (w1 & Hrun1 & _ & Hsaved & _).
    destruct (main_pdf_to_jpg_run E pdf2 pw2 popplerLoc images2 w1 H2)
      as (w2 & Hrun2 & _ & _ & Hother).
    exists w1, w2. split; [done|]. split; [done|]. by apply (stale_pages w w1 w2).
  - intros first1 last1 first2 last2 H1 H2.
    destruct (pdf2csv_pdf_to_jpg_run E pdf1 first1 last1 pw1 popplerLoc images1 w H1)
      as (w1 & Hrun1 & _ & Hsaved & _).
    destruct (pdf2csv_pdf_to_jpg_run E pdf2 first2 last2 pw2 popplerLoc images2 w1 H2)
      as (w2 & Hrun2 & _ & _ & Hother).
    exists w1, w2. split; [done|]. split; [done|]. by apply (stale_pages w w1 w2).
Qed.

Lemma stale_page_images_remain_sample :
  exists w1 w2,
    Pdf2csv.pdf_to_jpg (Sample.externals None) "%PDF-1.7" 3 5 "" "/opt/PopplerPath"
      (World ∅ [] []) = (Return (page_names 3), w1)
    /\ Pdf2csv.pdf_to_jpg (Sample.externals None) "%PDF-1.7" 7 7 "" "/opt/PopplerPath" w1
       = (Return (page_names 1), w2)
    /\ fs w2 !! "page_1.jpg" = Some (JpegFile (Image "scan of page 7"))
    /\ fs w2 !! page_name 3 = Some (JpegFile (Image "scan of page 5")).
Proof.
  destruct (proj2 (stale_page_images_remain (Sample.externals None) "%PDF-1.7" "%PDF-1.7"
              "" "" "/opt/PopplerPath"
              [Image "scan of page 3"; Image "scan of page 4"; Image "scan of page 5"]
              [Image "scan of page 7"] (World ∅ [] [])) 3%Z 5%Z 7%Z 7%Z eq_refl eq_refl)
    as (w1 & w2 & Hrun1 & Hrun2 & Hstale).
  exists w1, w2. split; [exact Hrun1|]. split; [exact Hrun2|]. split.
  - pose proof Hrun2 as Hrun2'. vm_compute in Hrun1. injection Hrun1 as <-.
    vm_compute in Hrun2'. injection Hrun2' as <-. reflexivity.
  - exact (proj2 (Hstale 2 _ eq_refl ltac:(simpl; lia))).
Defined.

Lemma pdf2csv_load_config_run (E : externals) (popplerLoc tesseractLoc : string) (w : world) :
  config_get E "settings" "PopplerPath" = inr popplerLoc ->
  config_get E "settings" "TesseractPath" = inr tesseractLoc ->
  Pdf2csv.load_config E w = (Return (popplerLoc, tesseractLoc), w).
Proof. intros Hp Ht. unfold Pdf2csv.load_config. rewrite Hp, Ht. reflexivity. Qed.

(** With a key and a client that is set up, the analysis of [pdf2csv.py]
    returns; the prompt is handed to the client only when the model has a
    [generate] attribute to call. *)
Lemma pdf2csv_analysis_run (E : externals) (csv_content api_key : string) (w : world) :
  environ E "GEMINI_API_KEY" = Some api_key ->
  api_key <> EmptyString ->
  genai_configure E api_key = None ->
  GenerativeModel E "gemini-1.5-flash" = None ->
  exists result u,
    Pdf2csv.analyze_csv_with_gemini E csv_content w
    = (Return result,
       World (fs w) u
         (match generate E with
          | Some _ =>
              net w ++ ["Analyze the following CSV data and extract details along with the selected checkboxes:"
                        +:+ nl +:+ csv_content]
          | None => net w
          end)).
Proof.
  intros Hkey Hne Hconf Hmodel.
  unfold Pdf2csv.analyze_csv_with_gemini, Pdf2csv.get_api_key.
  rewrite Hkey. destruct api_key as [|c k]; [done|].
  cbn -[String.append]. rewrite Hconf, Hmodel. run.
  destruct (generate E) as [method|]; run; [|by do 2 eexists].
  destruct (method _); by do 2 eexists.
Qed.

(** After an upload and a click on Convert, [main] of [pdf2csv.py] is the
    rest of its body run on the page as it stands then. *)
Lemma pdf2csv_main_run (E : externals) (pdf_bytes : string) (w : world) :
  file_uploader E = Some pdf_bytes ->
  button E "Convert" = true ->
  exists u0,
    Pdf2csv.main E w
    = (config <- Pdf2csv.load_config E ;;
       let '(popplerLoc, tesseractLoc) := config in
       jpg_files <- Pdf2csv.pdf_to_jpg E pdf_bytes (number_input E "First Page")
                      (number_input E "Last Page") (text_input E "Password (if any)")
                      popplerLoc ;;
       txt_files <- Pdf2csv.jpg_to_txt E tesseractLoc jpg_files ;;
       csv_data <- Pdf2csv.txt_to_csv txt_files ;;
       csv_filename <- Pdf2csv.save_as_csv csv_data "output" ;;
       st_success "Conversion completed successfully" ;;;
       csv_content <- open_read csv_filename ;;
       st_write "CSV Data:" ;;;
       st_write csv_content ;;;
       st_write "Analyzing CSV with Gemini AI..." ;;;
       analysis_result <- Pdf2csv.analyze_csv_with_gemini E csv_content ;;
       match analysis_result with
       | Some r => st_write "Analysis Result:" ;;; show (UiWriteObj r)
       | None => ret tt
       end) (World (fs w) u0 (net w)).
Proof.
  intros Hup Hbtn. unfold Pdf2csv.main. rewrite Hup, Hbtn. eexists. reflexivity.
Qed.

(** X21. A whole run of [pdf2csv.py] in which the settings, the rasterizer,
    the OCR engine (giving texts without carriage return) and the client
    set-up are fine ends normally whether the analysis succeeds or fails:
    [output.csv] holds the reformatted lines of the pages joined and
    [gemini_analysis_output.csv] is not written.  When the model has no
    [generate] attribute, as in the library, no prompt is handed to the
    client; when it has one, the single prompt is the fixed instruction
    followed by exactly the content of [output.csv]. *)
Theorem pdf2csv_run_end_to_end (E : externals)
    (pdf_bytes popplerLoc tesseractLoc api_key : string)
    (images : list image) (texts : list string) (w : world) :
  file_uploader E = Some pdf_bytes ->
  button E "Convert" = true ->
  config_get E "settings" "PopplerPath" = inr popplerLoc ->
  config_get E "settings" "TesseractPath" = inr tesseractLoc ->
  convert_from_bytes E pdf_bytes 500 (Some (number_input E "First Page"))
    (Some (number_input E "Last Page")) (text_input E "Password (if any)") popplerLoc
  = inr images ->
  Forall2 (fun img t => image_to_string E tesseractLoc img None = inr t) images texts ->
  Forall (fun t => contains Py.carriage_return t = false) texts ->
  environ E "GEMINI_API_KEY" = Some api_key ->
  api_key <> EmptyString ->
  genai_configure E api_key = None ->
  GenerativeModel E "gemini-1.5-flash" = None ->
  exists w',
    Pdf2csv.main E w = (Return tt, w')
    /\ fs w' !! "output.csv"
       = Some (TextFile (Py.join (map Main.cleaned_line (concat (map Py.readlines texts)))))
    /\ (generate E = None -> net w' = net w)
    /\ (forall method, generate E = Some method ->
          net w'
          = net w ++ ["Analyze the following CSV data and extract details along with the selected checkboxes:"
                      +:+ nl
                      +:+ Py.join (map Main.cleaned_line
                                     (concat (map Py.readlines texts)))])
    /\ fs w' !! "gemini_analysis_output.csv" = fs w !! "gemini_analysis_output.csv".
Proof.
  intros Hup Hbtn Hp Ht Hconv Hocr _ Hkey Hne Hconf Hmodel.
  pose proof (Forall2_length _ _ _ Hocr) as Hlen.
  destruct (pdf2csv_main_run E pdf_bytes w Hup Hbtn) as [u0 ->].
  set (w0 := World (fs w) u0 (net w)).
  set (csv := map Main.cleaned_line (concat (map Py.readlines texts))).
  destruct (pdf2csv_pdf_to_jpg_run E pdf_bytes _ _ _ popplerLoc images w0 Hconv)
    as (w1 & Hjpg & Hnet1 & Hsaved & Hother1).
  destruct (ocr_loop_pages _ _ (pdf2csv_ocr_body E tesseractLoc) images texts w1
              Hsaved Hocr) as (w2 & Htxt & Htexts & Hother2 & Hnet2).
  assert (holds_texts w2 (page_txt_names (length images)) texts) as Hheld.
  { rewrite Hlen. by apply page_texts_held. }
  set (w3 := World (<["output.csv" := TextFile (Py.join csv)]> (fs w2))
               (ui w2 ++ [UiWrite ("Converted to CSV...Saving to: " +:+ "output.csv")])
               (net w2)).
  set (w4 := World (fs w3)
               ((((ui w3 ++ [UiSuccess "Conversion completed successfully"])
                    ++ [UiWrite "CSV Data:"]) ++ [UiWrite (Py.join csv)])
                  ++ [UiWrite "Analyzing CSV with Gemini AI..."])
               (net w3)).
  destruct (pdf2csv_analysis_run E (Py.join csv) api_key w4 Hkey Hne Hconf Hmodel)
    as (result & u & Hanalysis).
  destruct (analysis_file_is_no_page (length images)) as [H1 H2].
  assert (net w4 = net w) as Hnet4 by (cbn [net w4 w3]; by rewrite Hnet2, Hnet1).
  destruct result as [r|].
  all: eexists; split;
    [ erewrite bind_return by (by apply pdf2csv_load_config_run); cbn beta iota;
      erewrite bind_return by exact Hjpg;
      erewrite bind_return by exact Htxt;
      erewrite bind_return by (rewrite txt_to_csv_variants; by apply txt_to_csv_pages);
      rewrite concat_map_map; fold csv;
      erewrite bind_return by apply pdf2csv_save_as_csv_run;
      change (Py.with_suffix "output" ".csv") with "output.csv"; fold w3;
      erewrite bind_return by reflexivity;
      erewrite bind_return
        by (unfold open_read; cbn [fs w3]; rewrite lookup_insert_eq; reflexivity);
      do 3 (erewrite bind_return by reflexivity); fold w4;
      erewrite bind_return by exact Hanalysis;
      reflexivity
    | split; [cbn [fs w4 w3]; apply lookup_insert_eq|];
      split; [intros Hnone; cbn [net]; by rewrite Hnone, Hnet4|];
      split; [intros method Hsome; cbn [net]; by rewrite Hsome, Hnet4|];
      cbn [fs w4 w3]; rewrite lookup_insert_ne by done; by rewrite Hother2, Hother1 ].
Qed.

Lemma pdf2csv_run_end_to_end_sample :
  Forall (fun t => contains Py.carriage_return t = false)
    [Sample.page_1_text; Sample.page_1_text; Sample.page_1_text]
  /\ exists w',
       Pdf2csv.main (Sample.externals (Some "key")) (World ∅ [] []) = (Return tt, w')
       /\ net w' = []
       /\ fs w' !! "gemini_analysis_output.csv" = None.
Proof.
  assert (Forall (fun t => contains Py.carriage_return t = false)
            [Sample.page_1_text; Sample.page_1_text; Sample.page_1_text]) as Hcr
    by (repeat constructor).
  split; [exact Hcr|].
  destruct (pdf2csv_run_end_to_end (Sample.externals (Some "key")) "%PDF-1.7"
              "/opt/PopplerPath" "/opt/TesseractPath" "key"
              [Image "scan of page 3"; Image "scan of page 4"; Image "scan of page 5"]
              [Sample.page_1_text; Sample.page_1_text; Sample.page_1_text]
              (World ∅ [] []) eq_refl eq_refl eq_refl eq_refl eq_refl
              ltac:(repeat constructor) Hcr eq_refl ltac:(discriminate) eq_refl eq_refl)
    as (w' & Hrun & _ & Hnet & _ & Hfile).
  exists w'. split; [exact Hrun|]. split; [exact (Hnet eq_refl)|exact Hfile].
Defined.

Lemma output_csv_is_no_page_file (k : nat) :
  ("output.csv" ∉ page_names k) /\ ("output.csv" ∉ page_txt_names k).
Proof.
  split.
  - intros (i & _ & H)%page_names_elem. by apply output_csv_is_no_page in H.
  - intros (i & _ & H)%page_txt_names_elem. by apply output_csv_is_no_page in H.
Qed.

(** X22. When the OCR engine raises [e] on a page, [main.py] shows [e] as a
    conversion error and ends the run normally without an analysis: every
    page image and the text files of the pages before the failing one are
    in the working directory, [output.csv] is left as it was before the
    run, and no prompt is sent. *)
Theorem main_ocr_error_keeps_earlier_artifacts (E : externals)
    (pdf_bytes popplerLoc tesseractLoc : string) (good : list image) (bad : image)
    (rest : list image) (texts : list string) (e : exn) (w : world) :
  file_uploader E = Some pdf_bytes ->
  button E "Convert" = true ->
  config_get E "settings" "PopplerPath" = inr popplerLoc ->
  config_get E "settings" "TesseractPath" = inr tesseractLoc ->
  convert_from_bytes E pdf_bytes 500 None None (text_input E "Password (if any)")
    popplerLoc = inr (good ++ bad :: rest) ->
  Forall2 (fun img t =>
             image_to_string E tesseractLoc img (Some (selectbox E "Select OCR Language"))
             = inr t) good texts ->
  image_to_string E tesseractLoc bad (Some (selectbox E "Select OCR Language")) = inl e ->
  exists w',
    Main.main E w = (Return tt, w')
    /\ last (ui w') = Some (UiError ("An error occurred during conversion: " +:+ exn_msg e))
    /\ (forall i img, (good ++ bad :: rest) !! i = Some img ->
          fs w' !! page_name (Z.of_nat i + 1) = Some (JpegFile img))
    /\ (forall i t, texts !! i = Some t ->
          fs w' !! page_txt_name (Z.of_nat i + 1) = Some (TextFile t))
    /\ fs w' !! "output.csv" = fs w !! "output.csv"
    /\ net w' = net w.
Proof.
  intros Hup Hbtn Hp Ht Hconv Hocr Hbad.
  destruct (main_main_run E pdf_bytes w Hup Hbtn) as [u0 ->].
  set (w0 := World (fs w) u0 (net w)).
  set (w0' := World (fs w0) (ui w0 ++ [UiSpinner "Please wait..."]) (net w0)).
  destruct (main_pdf_to_jpg_run E pdf_bytes _ popplerLoc _ w0' Hconv)
    as (w1 & Hjpg & Hnet1 & Hsaved & Hother1).
  destruct (ocr_loop_pages_abort _ _
              (main_ocr_body E tesseractLoc (selectbox E "Select OCR Language"))
              good bad rest texts e w1 Hsaved Hocr Hbad)
    as (w2 & Htxt & Htexts & Hother2 & Hnet2).
  assert (Main.conversion E pdf_bytes (text_input E "Password (if any)")
            (selectbox E "Select OCR Language") w0 = (Raise e, w2)) as Hrun.
  { unfold Main.conversion.
    erewrite bind_return by reflexivity. fold w0'.
    erewrite bind_return by (by apply main_load_config_run). cbn beta iota.
    erewrite bind_return by exact Hjpg.
    by erewrite bind_raise_run by exact Htxt. }
  eexists. split; [|split; [|split; [|split; [|split]]]].
  - unfold try_except. erewrite bind_raise_run by exact Hrun. reflexivity.
  - cbn [ui]. apply last_snoc.
  - intros i img Hi. cbn [fs]. rewrite Hother2; [by apply Hsaved|].
    intros (j & _ & Hj)%page_txt_names_elem. symmetry in Hj.
    by apply page_txt_name_not_page_name in Hj.
  - intros i t Hi. cbn [fs]. by apply Htexts.
  - cbn [fs].
    destruct (output_csv_is_no_page_file (length good)) as [_ H2].
    destruct (output_csv_is_no_page_file (length (good ++ bad :: rest))) as [H1 _].
    by rewrite Hother2, Hother1.
  - cbn [net]. by rewrite Hnet2, Hnet1.
Qed.

Lemma main_ocr_error_keeps_earlier_artifacts_sample :
  exists w',
    Main.main (Demo.with_rasterizer
                 (fun _ _ _ _ _ _ => inr [Image "scan of page 1"; Image "scan of page 2"])
                 (Demo.with_ocr Demo.ocr_fails_on_page_2 (Sample.externals (Some "key"))))
      (World ∅ [] []) = (Return tt, w')
    /\ fs w' !! page_txt_name 1 = Some (TextFile ("text of scan of page 1" +:+ nl))
    /\ fs w' !! "output.csv" = None.
Proof.
  destruct (main_ocr_error_keeps_earlier_artifacts
              (Demo.with_rasterizer
                 (fun _ _ _ _ _ _ => inr [Image "scan of page 1"; Image "scan of page 2"])
                 (Demo.with_ocr Demo.ocr_fails_on_page_2 (Sample.externals (Some "key"))))
              "%PDF-1.7" "/opt/PopplerPath" "/opt/TesseractPath"
              [Image "scan of page 1"] (Image "scan of page 2") []
              ["text of scan of page 1" +:+ nl] (Exn OtherException "TesseractError")
              (World ∅ [] []) eq_refl eq_refl eq_refl eq_refl eq_refl
              ltac:(repeat constructor) eq_refl)
    as (w' & Hrun & _ & _ & Htexts & Hcsv & _).
  exists w'. split; [exact Hrun|]. split; [exact (Htexts 0 _ eq_refl)|exact Hcsv].
Defined.

(** ** The reformatter, on what [txt_to_csv] returns *)

(** C1. When the text files hold [texts], [txt_to_csv] (of [main.py] and
    of [pdf2csv.py]) returns, for every line read and in the order read,
    the line obtained by first removing every comma, then replacing every
    remaining space with a comma, then removing every double quote. *)
Theorem txt_to_csv_refines_spec (w : world) (paths texts : list string) :
  holds_texts w paths texts ->
  Main.txt_to_csv paths w
  = (Return (map Spec.reformat (concat (map Py.readlines texts))), w)
  /\ Pdf2csv.txt_to_csv paths w
     = (Return (map Spec.reformat (concat (map Py.readlines texts))), w).
Proof.
  intros Hholds.
  assert (Main.txt_to_csv paths w
          = (Return (map Spec.reformat (concat (map Py.readlines texts))), w)) as Hrun.
  { rewrite (txt_to_csv_pages w paths texts Hholds), concat_map_map.
    do 2 f_equal. apply map_ext. intros line.
    by rewrite cleaned_line_chars, reformat_chars. }
  split; exact Hrun.
Qed.

Lemma txt_to_csv_refines_spec_sample :
  holds_texts Sample.after_ocr ["page_1.txt"; "page_2.txt"]
    [Sample.page_1_text; Sample.page_2_text]
  /\ Main.txt_to_csv ["page_1.txt"; "page_2.txt"] Sample.after_ocr
     = (Return (map Spec.reformat
                  (concat (map Py.readlines [Sample.page_1_text; Sample.page_2_text]))),
        Sample.after_ocr).
Proof.
  assert (holds_texts Sample.after_ocr ["page_1.txt"; "page_2.txt"]
            [Sample.page_1_text; Sample.page_2_text]) as H by (repeat constructor).
  split; [exact H|]. exact (proj1 (txt_to_csv_refines_spec _ _ _ H)).
Defined.

Lemma cleaned_line_comma_count line :
  count_char Py.comma (Main.cleaned_line line) = count_char Py.space line.
Proof.
  rewrite cleaned_line_chars. induction line as [|a s IH]; [done|].
  simpl. rewrite count_char_app, IH. f_equal. unfold clean_char. case_chars.
Qed.

Lemma universal_newlines_carriage_return (c : ascii) (rest : string) :
  Py.universal_newlines (String Py.carriage_return (String c rest))
  = if decide (c = Py.newline) then String Py.newline (Py.universal_newlines rest)
    else String Py.newline (Py.universal_newlines (String c rest)).
Proof. reflexivity. Qed.

Lemma universal_newlines_other (c : ascii) (rest : string) :
  c <> Py.carriage_return ->
  Py.universal_newlines (String c rest) = String c (Py.universal_newlines rest).
Proof.
  intros Hc. change (Py.universal_newlines (String c rest))
    with (if decide (c = Py.carriage_return) then
            match rest with
            | EmptyString => String Py.newline EmptyString
            | String c' rest' =>
                if decide (c' = Py.newline)
                then String Py.newline (Py.universal_newlines rest')
                else String Py.newline (Py.universal_newlines rest)
            end
          else String c (Py.universal_newlines rest)).
  by rewrite decide_False.
Qed.

Lemma universal_newlines_no_carriage_return (raw : string) :
  contains Py.carriage_return (Py.universal_newlines raw) = false.
Proof.
  assert (forall n raw, String.length raw <= n ->
            contains Py.carriage_return (Py.universal_newlines raw) = false) as Hn.
  { clear raw. induction n as [|n IH]; intros [|c rest] Hlen; try done.
    { simpl in Hlen. lia. }
    cbn [String.length] in Hlen.
    destruct (decide (c = Py.carriage_return)) as [->|Hc].
    - destruct rest as [|c' rest']; [done|]. cbn [String.length] in Hlen.
      rewrite universal_newlines_carriage_return.
      destruct (decide (c' = Py.newline)); cbn [contains];
        (rewrite decide_False by done); apply IH; cbn [String.length]; lia.
    - rewrite universal_newlines_other by done. cbn [contains].
      rewrite decide_False by done. apply IH. lia. }
  by apply (Hn (String.length raw)).
Qed.

Lemma readlines_keeps_absent (c : ascii) (text : string) :
  contains c text = false ->
  Forall (fun l => contains c l = false) (Py.readlines text).
Proof.
  induction text as [|a rest IH]; intros Habsent; [constructor|].
  simpl in Habsent. destruct (decide (a = c)) as [|Hac]; [done|].
  specialize (IH Habsent). cbn [Py.readlines].
  destruct (decide (a = Py.newline)).
  - constructor; [|done]. simpl. by rewrite decide_False.
  - destruct (Py.readlines rest) as [|l ls]; constructor.
    + simpl. by rewrite decide_False.
    + constructor.
    + inversion IH; subst. simpl. by rewrite decide_False.
    + by inversion IH.
Qed.

(** C10, as the code has it. [txt_to_csv] turns each space of a line it
    has read into exactly one comma, so a run of [k] spaces becomes [k]
    commas in place, and it leaves the tabs and the line feeds of the line
    as they are.  A carriage return does not come through: the read in text
    mode has turned every carriage return of the file into a line feed
    before the loop sees the line, so no line returned holds one. *)
Theorem txt_to_csv_keeps_space_runs (w : world) (paths : list string) :
  (forall texts,
     holds_texts w paths texts ->
     exists out,
       Main.txt_to_csv paths w = (Return out, w)
       /\ Pdf2csv.txt_to_csv paths w = (Return out, w)
       /\ forall i line,
            concat (map Py.readlines texts) !! i = Some line ->
            exists o,
              out !! i = Some o
              /\ count_char Py.comma o = count_char Py.space line
              /\ (forall a b k,
                    line = a +:+ repeat_char Py.space k +:+ b ->
                    o = Main.cleaned_line a +:+ repeat_char Py.comma k
                          +:+ Main.cleaned_line b)
              /\ (forall a b,
                    line = a +:+ String Py.tab b ->
                    o = Main.cleaned_line a +:+ String Py.tab (Main.cleaned_line b))
              /\ (forall a b,
                    line = a +:+ String Py.newline b ->
                    o = Main.cleaned_line a +:+ String Py.newline (Main.cleaned_line b)))
  /\ (forall raws,
        holds_files w paths raws ->
        exists out,
          Main.txt_to_csv paths w = (Return out, w)
          /\ Pdf2csv.txt_to_csv paths w = (Return out, w)
          /\ Forall (fun o => contains Py.carriage_return o = false) out).
Proof.
  split.
  - intros texts Hholds. eexists. split; [by apply txt_to_csv_pages|].
    split; [rewrite txt_to_csv_variants; by apply txt_to_csv_pages|].
    rewrite concat_map_map. intros i line Hi. exists (Main.cleaned_line line).
    split; [|split; [|split; [|split]]].
    + change (map Main.cleaned_line ?l) with (Main.cleaned_line <$> l).
      by rewrite list_lookup_fmap, Hi.
    + apply cleaned_line_comma_count.
    + intros a b k ->. by rewrite !cleaned_line_app, cleaned_line_spaces.
    + intros a b ->. by rewrite cleaned_line_app, cleaned_line_kept.
    + intros a b ->. by rewrite cleaned_line_app, cleaned_line_kept.
  - intros raws Hholds. unfold holds_files in Hholds.
    eexists. split; [by apply txt_to_csv_pages|].
    split; [rewrite txt_to_csv_variants; by apply txt_to_csv_pages|].
    clear Hholds. induction raws as [|raw raws IH]; [constructor|].
    cbn [map concat]. apply Forall_app. split; [|exact IH].
    pose proof (readlines_keeps_absent Py.carriage_return _
                  (universal_newlines_no_carriage_return raw)) as Hlines.
    induction Hlines as [|l ls Hl _ IHl]; constructor; [|exact IHl].
    by rewrite cleaned_line_contains_other.
Qed.

Lemma txt_to_csv_keeps_space_runs_sample :
  holds_texts Sample.after_ocr ["page_1.txt"] [Sample.page_1_text]
  /\ holds_files Demo.after_ocr_with_carriage_return ["page_1.txt"]
       [Demo.carriage_return_page]
  /\ (exists out,
        Main.txt_to_csv ["page_1.txt"] Sample.after_ocr = (Return out, Sample.after_ocr)
        /\ out !! 1 = Some ("a" +:+ repeat_char Py.comma 2 +:+ "b" +:+ nl))
  /\ (exists out,
        Main.txt_to_csv ["page_1.txt"] Demo.after_ocr_with_carriage_return
        = (Return out, Demo.after_ocr_with_carriage_return)
        /\ Forall (fun o => contains Py.carriage_return o = false) out).
Proof.
  assert (holds_texts Sample.after_ocr ["page_1.txt"] [Sample.page_1_text]) as H1
    by (repeat constructor).
  assert (holds_files Demo.after_ocr_with_carriage_return ["page_1.txt"]
            [Demo.carriage_return_page]) as H2 by (repeat constructor).
  split; [exact H1|]. split; [exact H2|]. split.
  - destruct (proj1 (txt_to_csv_keeps_space_runs Sample.after_ocr ["page_1.txt"]) _ H1)
      as (out & Hrun & _ & Hlines).
    exists out. split; [exact Hrun|].
    destruct (Hlines 1 ("a  b" +:+ nl) eq_refl) as (o & Ho & _ & Hspaces & _).
    rewrite Ho. f_equal. exact (Hspaces "a" ("b" +:+ nl) 2 eq_refl).
  - destruct (proj2 (txt_to_csv_keeps_space_runs Demo.after_ocr_with_carriage_return
                       ["page_1.txt"]) _ H2) as (out & Hrun & _ & Hcr).
    exists out. split; [exact Hrun|exact Hcr].
Defined.

(** C10, as stated, fails for the carriage return: of a file holding
    [a], a carriage return, a space, [b] and a line feed, [txt_to_csv]
    returns the two lines [a] and [,b], each ended by a line feed; the
    carriage return is gone and has split the line. *)
Lemma carriage_return_not_left_unchanged :
  holds_files Demo.after_ocr_with_carriage_return ["page_1.txt"] [Demo.carriage_return_page]
  /\ count_char Py.carriage_return Demo.carriage_return_page = 1
  /\ Main.txt_to_csv ["page_1.txt"] Demo.after_ocr_with_carriage_return
     = (Return ["a" +:+ nl; ",b" +:+ nl], Demo.after_ocr_with_carriage_return)
  /\ Pdf2csv.txt_to_csv ["page_1.txt"] Demo.after_ocr_with_carriage_return
     = (Return ["a" +:+ nl; ",b" +:+ nl], Demo.after_ocr_with_carriage_return)
  /\ Forall (fun o => count_char Py.carriage_return o = 0) ["a" +:+ nl; ",b" +:+ nl].
Proof.
  split; [repeat constructor|]. split; [reflexivity|].
  split; [vm_compute; reflexivity|]. split; [vm_compute; reflexivity|].
  repeat constructor.
Qed.
